(** * VisionCare backend: inference pipeline and intake service

    A shallow embedding of [backend/ai_service.py] and of the request
    handlers of [backend/app.py], with the properties of the written
    specification stated over it.

    Conventions of the embedding.
    - Python exceptions are values of [Py.Exn]; a computation that may raise
      returns [Py.Exc A]; code that also reads or writes process-wide state
      (the module global [model], the database, the upload folder) lives in
      [Py.M S A], where a raised exception keeps the state reached so far,
      as in Python.
    - Calls into TensorFlow, NumPy, PIL, dateutil, bson, Flask and os are
      Variables of the Sections: the development holds for every behaviour
      of these libraries.  The clock reading [datetime.now().isoformat()]
      and the token [uuid.uuid4().hex] are arguments of the handlers that
      use them.
    - A floating point number is a [Float.t]: a finite value, given by the
      exact rational it denotes, an infinity or NaN.  Comparisons follow
      IEEE 754 (every comparison with NaN is false); [round(x, 4)] on a
      finite value is rounding to the nearest multiple of 10^-4, ties to
      even, on the exact value.
    - A string is a [string]: the bytes of its UTF-8 encoding, whose
      order is the order of the code points.  [str.upper], which depends on
      the Unicode tables, is a Variable; on ASCII strings it is
      [Str.upper]. *)

From Stdlib Require Import String Ascii List ZArith QArith Qround Bool Lia Lqa.
From Stdlib Require Import Permutation.
Import ListNotations.

Set Implicit Arguments.
Open Scope string_scope.

(* ------------------------------------------------------------------ *)
(** ** Python exceptions and effects *)

Module Py.

Inductive Exn : Type :=
| ValueError | TypeError | AttributeError | IndexError | KeyError
| OSError | OverflowError | RuntimeError.

(** A computation that returns [inr a] or raises [inl e]. *)
Definition Exc (A : Type) : Type := (Exn + A)%type.

(** A computation over state [S]; the state survives a raise. *)
Definition M (S A : Type) : Type := S -> Exc A * S.

Class Monad (m : Type -> Type) : Type :=
  { ret : forall {A}, A -> m A;
    bind : forall {A B}, m A -> (A -> m B) -> m B }.

Class MonadExc (m : Type -> Type) : Type :=
  { raise : forall {A}, Exn -> m A;
    try_except : forall {A}, m A -> (Exn -> m A) -> m A }.

#[export] Instance Monad_Exc : Monad Exc :=
  { ret := fun A a => inr a;
    bind := fun A B c k => match c with inl e => inl e | inr a => k a end }.

#[export] Instance MonadExc_Exc : MonadExc Exc :=
  { raise := fun A e => inl e;
    try_except := fun A c h => match c with inl e => h e | inr a => inr a end }.

#[export] Instance Monad_M (S : Type) : Monad (M S) :=
  { ret := fun A a s => (inr a, s);
    bind := fun A B c k s =>
              match c s with
              | (inl e, s') => (inl e, s')
              | (inr a, s') => k a s'
              end }.

#[export] Instance MonadExc_M (S : Type) : MonadExc (M S) :=
  { raise := fun A e s => (inl e, s);
    try_except := fun A c h s =>
                    match c s with
                    | (inl e, s') => h e s'
                    | (inr a, s') => (inr a, s')
                    end }.

Definition lift {S A} (c : Exc A) : M S A := fun s => (c, s).
Definition get {S} : M S S := fun s => (inr s, s).
Definition modify {S} (f : S -> S) : M S unit := fun s => (inr tt, f s).

(** [xs[i]] on a Python list. *)
Definition getitem {A} (xs : list A) (i : nat) : Exc A :=
  match nth_error xs i with
  | Some x => inr x
  | None => inl IndexError
  end.

Definition returned {A} (c : Exc A) : bool :=
  match c with inr _ => true | inl _ => false end.

End Py.

Import Py.

Declare Scope py_scope.
Delimit Scope py_scope with py.
Notation "x <- c1 ;; c2" := (bind c1 (fun x => c2))
  (at level 61, c1 at next level, right associativity) : py_scope.
Notation "c1 ;;; c2" := (bind c1 (fun _ => c2))
  (at level 61, right associativity) : py_scope.
Open Scope py_scope.

Ltac py_unfold :=
  unfold bind, ret, raise, try_except, lift, get, modify,
    Monad_Exc, MonadExc_Exc, Monad_M, MonadExc_M in *.

(* ------------------------------------------------------------------ *)
(** ** Floating point numbers *)

Module Float.

Inductive t : Type :=
| Fin (q : Q)
| PInf
| NInf
| NaN.

Definition isnan (x : t) : bool :=
  match x with NaN => true | _ => false end.

(** [x <= y] *)
Definition leb (x y : t) : bool :=
  match x, y with
  | NaN, _ | _, NaN => false
  | NInf, _ | _, PInf => true
  | Fin a, Fin b => Qle_bool a b
  | _, _ => false
  end.

Definition le (x y : t) : Prop := leb x y = true.
Definition lt (x y : t) : Prop := leb x y = true /\ leb y x = false.

(** The same number. *)
Definition eq (x y : t) : Prop :=
  match x, y with
  | Fin a, Fin b => (a == b)%Q
  | PInf, PInf | NInf, NInf | NaN, NaN => True
  | _, _ => False
  end.

End Float.

(* ------------------------------------------------------------------ *)
(** ** Numbers: [np.argmax], [np.max], [round] *)

Module Np.

Open Scope Q_scope.

(** Scan of [np.argmax] over one row: the scan stops at a NaN, which
    counts as the greatest entry; otherwise the running best index moves
    only on an entry that is not below or equal to the best so far, so the
    first maximal entry wins. *)
Fixpoint argmax_from (best_i : nat) (best : Float.t) (i : nat)
         (xs : list Float.t) : nat :=
  match xs with
  | [] => best_i
  | x :: r =>
      if Float.isnan best then best_i
      else if negb (Float.leb x best)
           then argmax_from i x (S i) r
           else argmax_from best_i best (S i) r
  end.

Definition argmax_row (row : list Float.t) : Exc nat :=
  match row with
  | [] => inl ValueError
  | x :: r => inr (argmax_from 0%nat x 1%nat r)
  end.

(** [np.argmax(a, axis=1)] on a two-dimensional array given by its rows. *)
Fixpoint argmax_axis1 (a : list (list Float.t)) : Exc (list nat) :=
  match a with
  | [] => inr []
  | row :: rest =>
      i <- argmax_row row ;;
      js <- argmax_axis1 rest ;;
      ret (i :: js)
  end.

(** [np.maximum]: the greater of two entries, and NaN when one is NaN. *)
Definition maximum (a b : Float.t) : Float.t :=
  if Float.leb b a || Float.isnan a then a else b.

(** [np.max(a)]: the greatest entry of the whole array. *)
Definition max (a : list (list Float.t)) : Exc Float.t :=
  match concat a with
  | [] => inl ValueError
  | x :: r => inr (fold_left maximum r x)
  end.

(** Nearest integer, ties to the even one. *)
Definition round_half_even (q : Q) : Z :=
  let fl := Qfloor q in
  match Qcompare (q - inject_Z fl) (1 # 2) with
  | Lt => fl
  | Gt => (fl + 1)%Z
  | Eq => if Z.even fl then fl else (fl + 1)%Z
  end.

(** [round] on a finite value. *)
Definition round_decimal (x : Q) (ndigits : nat) : Q :=
  let scale := inject_Z (10 ^ Z.of_nat ndigits) in
  inject_Z (round_half_even (x * scale)) / scale.

(** Python's [round(x, ndigits)]: an infinity or NaN is returned as it
    is. *)
Definition round (x : Float.t) (ndigits : nat) : Float.t :=
  match x with
  | Float.Fin q => Float.Fin (round_decimal q ndigits)
  | _ => x
  end.

(** [i] is the position of the first greatest entry of [row], none of
    whose entries is NaN. *)
Definition is_first_max (row : list Float.t) (i : nat) : Prop :=
  (i < length row)%nat /\
  (forall j, (j < length row)%nat ->
             Float.le (nth j row Float.NaN) (nth i row Float.NaN)) /\
  (forall j, (j < i)%nat ->
             Float.lt (nth j row Float.NaN) (nth i row Float.NaN)).

(** [mx] is the value of a greatest entry of [xs], none of whose entries
    is NaN. *)
Definition is_max (xs : list Float.t) (mx : Float.t) : Prop :=
  (exists x, In x xs /\ Float.eq x mx) /\
  (forall x, In x xs -> Float.le x mx).

(** [i] is the position of the first NaN of [row]. *)
Definition is_first_nan (row : list Float.t) (i : nat) : Prop :=
  nth_error row i = Some Float.NaN /\
  (forall j, (j < i)%nat -> nth j row Float.NaN <> Float.NaN).

End Np.

(* ------------------------------------------------------------------ *)
(** ** [backend/ai_service.py] *)

Module ai_service.

(** The dictionary every branch of [run_inference] returns. *)
Record Result : Type :=
  { prediction : string; probability : Float.t; status : string }.

Definition MODEL_PATH : string := "my_module.h5".

Definition class_labels : list string :=
  ["Stage 0 (Normal)"; "Stage 1"; "Stage 2"; "Stage 3 (High-Risk)"].

Section Pipeline.

(** Keras models, PIL images, NumPy input arrays. *)
Variables Model Image Tensor : Type.

(** [tf.keras.models.load_model(path)]; the second argument is the number
    of load attempts made before this one, so that the outcome may
    change from one attempt to the next. *)
Variable keras_load_model : string -> nat -> Exc Model.
(** [Image.open(io.BytesIO(image_bytes))]: the decoder. *)
Variable Image_open : list Byte.byte -> Exc Image.
Variable Image_convert : Image -> string -> Exc Image.
Variable Image_resize : Image -> nat * nat -> Exc Image.
Variable np_array : Image -> Exc Tensor.
Variable np_divide : Tensor -> Q -> Exc Tensor.
Variable np_expand_dims : Tensor -> nat -> Exc Tensor.
(** [model.predict(x)]: a two-dimensional array, one row per sample. *)
Variable predict : Model -> Tensor -> Exc (list (list Float.t)).

(** The module global [model]: [None], [False] or a loaded model. *)
Inductive ModelVar : Type :=
| PyNone
| PyFalse
| Loaded (m : Model).

(** The process: the global, and the outcomes of the load attempts made
    so far (instrumentation: [true] for a load that returned a model). *)
Record Proc : Type :=
  { model : ModelVar; load_log : list bool }.

Definition fresh_process : Proc := {| model := PyNone; load_log := [] |}.

Definition set_model (v : ModelVar) : M Proc unit :=
  modify (fun p => {| model := v; load_log := load_log p |}).

Definition tf_load_model (path : string) : M Proc Model :=
  fun p =>
    let r := keras_load_model path (length (load_log p)) in
    (r, {| model := model p; load_log := load_log p ++ [returned r] |}).

Definition load_model : M Proc ModelVar :=
  p <- get ;;
  match model p with
  | PyNone =>
      try_except
        (m <- tf_load_model MODEL_PATH ;; set_model (Loaded m))
        (fun _ => set_model PyFalse)
  | _ => ret tt
  end ;;;
  p <- get ;;
  ret (model p).

Definition preprocess_image (image_bytes : list Byte.byte)
  : Exc (option Tensor) :=
  try_except
    (image <- Image_open image_bytes ;;
     image <- Image_convert image "RGB" ;;
     let target_size := (224, 224)%nat in
     image <- Image_resize image target_size ;;
     image_array <- np_array image ;;
     image_array <- np_divide image_array 255 ;;
     image_array <- np_expand_dims image_array 0 ;;
     ret (Some image_array))
    (fun _ => ret None).

Definition model_error : Result :=
  {| prediction := "Model Error"; probability := Float.Fin 0;
     status := "failed" |}.
Definition preprocessing_error : Result :=
  {| prediction := "Preprocessing Error"; probability := Float.Fin 0;
     status := "failed" |}.
Definition inference_exception : Result :=
  {| prediction := "Inference Exception"; probability := Float.Fin 0;
     status := "failed" |}.

(** The body of the [try] of [run_inference]. *)
Definition classify (m : Model) (processed_image : Tensor) : Exc Result :=
  predictions <- predict m processed_image ;;
  indices <- Np.argmax_axis1 predictions ;;
  predicted_class_index <- getitem indices 0 ;;
  probability <- Np.max predictions ;;
  prediction_label <- getitem class_labels predicted_class_index ;;
  ret {| prediction := prediction_label;
         probability := Np.round probability 4;
         status := "processed" |}.

Definition run_inference (image_bytes : list Byte.byte) : M Proc Result :=
  model <- load_model ;;
  match model with
  | PyNone | PyFalse => ret model_error
  | Loaded m =>
      processed_image <- lift (preprocess_image image_bytes) ;;
      match processed_image with
      | None => ret preprocessing_error
      | Some processed_image =>
          lift (try_except (classify m processed_image)
                           (fun _ => ret inference_exception))
      end
  end.

(** Importing the module runs [load_model()] once. *)
Definition import_module : Proc := snd (load_model fresh_process).

(** A process serving requests one after the other. *)
Fixpoint serve (requests : list (list Byte.byte)) (p : Proc)
  : list (Exc Result) * Proc :=
  match requests with
  | [] => ([], p)
  | image_bytes :: rest =>
      let (r, p1) := run_inference image_bytes p in
      let (rs, p2) := serve rest p1 in
      (r :: rs, p2)
  end.

End Pipeline.

End ai_service.

(* ------------------------------------------------------------------ *)
(** ** JSON values, dictionaries and strings *)

Module Json.

#[local] Unset Elimination Schemes.

Inductive t : Type :=
| Null
| Bool (b : bool)
| Int (z : Z)
| Num (x : Float.t)
| Str (s : string)
| Arr (l : list t)
| Obj (d : list (string * t)).

#[local] Set Elimination Schemes.

(** Python truthiness of a decoded JSON value. *)
Definition truthy (v : t) : bool :=
  match v with
  | Null => false
  | Bool b => b
  | Int z => negb (z =? 0)%Z
  | Num (Float.Fin q) => negb (Qeq_bool q 0)
  | Num _ => true
  | Str s => negb (s =? "")
  | Arr l => match l with [] => false | _ => true end
  | Obj d => match d with [] => false | _ => true end
  end.

(** The receiver of a [str] method: anything but a string has no such
    attribute. *)
Definition as_str (v : t) : Exc string :=
  match v with
  | Str s => inr s
  | _ => inl AttributeError
  end.

End Json.

Module Dict.

Definition t (V : Type) : Type := list (string * V).

Fixpoint get {V} (d : t V) (k : string) : option V :=
  match d with
  | [] => None
  | (k', v) :: r => if k' =? k then Some v else get r k
  end.

(** [k in d] *)
Definition contains {V} (d : t V) (k : string) : bool :=
  match get d k with Some _ => true | None => false end.

(** [d[k]] *)
Definition subscript {V} (d : t V) (k : string) : Exc V :=
  match get d k with Some v => inr v | None => inl KeyError end.

(** [d.get(k)] on JSON values: [None] when the key is absent. *)
Definition get_or_null (d : t Json.t) (k : string) : Json.t :=
  match get d k with Some v => v | None => Json.Null end.

End Dict.

Module Str.

Definition upper_ascii (c : ascii) : ascii :=
  let n := nat_of_ascii c in
  if ((97 <=? n) && (n <=? 122))%nat then ascii_of_nat (n - 32) else c.

(** [s.upper()] on an ASCII string: a-z become A-Z. *)
Fixpoint upper (s : string) : string :=
  match s with
  | EmptyString => EmptyString
  | String c r => String (upper_ascii c) (upper r)
  end.

Fixpoint is_ascii (s : string) : bool :=
  match s with
  | EmptyString => true
  | String c r => (nat_of_ascii c <? 128)%nat && is_ascii r
  end.

(** Whether a letter a-z occurs in [s]. *)
Fixpoint has_lower (s : string) : bool :=
  match s with
  | EmptyString => false
  | String c r =>
      ((97 <=? nat_of_ascii c) && (nat_of_ascii c <=? 122))%nat
      || has_lower r
  end.

(** [c in s] for a character [c]. *)
Fixpoint contains (s : string) (c : ascii) : bool :=
  match s with
  | EmptyString => false
  | String x r => Ascii.eqb x c || contains r c
  end.

(** What is known of [str.upper] without the Unicode tables: upper-casing
    twice is upper-casing once, and on an ASCII string it is [upper]. *)
Definition idempotent (f : string -> string) : Prop :=
  forall s, f (f s) = f s.

Definition upper_on_ascii (f : string -> string) : Prop :=
  forall s, is_ascii s = true -> f s = upper s.

End Str.

(** Stable insertion sort, the order of a cursor's [sort]. *)
Module Sort.

Fixpoint insert {A} (le : A -> A -> bool) (x : A) (l : list A) : list A :=
  match l with
  | [] => [x]
  | y :: r => if le x y then x :: l else y :: insert le x r
  end.

Definition sort {A} (le : A -> A -> bool) (l : list A) : list A :=
  fold_right (insert le) [] l.

End Sort.

(* ------------------------------------------------------------------ *)
(** ** [backend/app.py] *)

Module app.

Import Json.

Definition ObjectId : Type := nat.

(** Documents of the three collections, with the fields the handlers
    write. *)
Record Patient : Type :=
  { p__id : ObjectId;
    p_neonate_id : string;
    p_name : Json.t;
    p_birth_date : string;
    p_gestational_age : Json.t;
    p_weight : option Float.t;
    p_parent_name : Json.t;
    p_parent_phone : Json.t;
    p_parent_email : Json.t;
    p_status : string;
    p_created_at : string }.

Record Appointment : Type :=
  { a__id : ObjectId;
    a_patientId : string;
    a_patientName : Json.t;
    a_datetime : string;
    a_type : Json.t;
    a_status : string;
    a_created_at : string }.

Record AiResult : Type :=
  { ai_status : string; ai_prediction : string; ai_probability : Q }.

Record ImageRecord : Type :=
  { i__id : ObjectId;
    i_patientId : string;
    i_patientName : Json.t;
    i_filename : string;
    i_filepath : string;
    i_upload_time : string;
    i_file_size : string;
    i_status : string;
    i_ai_result : AiResult }.

(** Side effects on the database and the file system, oldest first. *)
Inductive Event : Type :=
| FileSaved (path : string)
| PatientInserted (id : ObjectId)
| AppointmentInserted (id : ObjectId)
| ImageInserted (id : ObjectId) (filepath : string)
| ImageUpdated (id : ObjectId).

(** The database [rop_scan_db], the files on disk and the trace of side
    effects (instrumentation). *)
Record World : Type :=
  { patients_collection : list Patient;
    appointments_collection : list Appointment;
    images_collection : list ImageRecord;
    disk : Dict.t (list Byte.byte);
    trace : list Event }.

Definition empty_world : World :=
  {| patients_collection := []; appointments_collection := [];
     images_collection := []; disk := []; trace := [] |}.

Definition UPLOAD_FOLDER : string := "uploads".

(** The driver gives every inserted document an [_id] no other document of
    the collection has: here the least number above all of them. *)
Definition new_ObjectId (ids : list ObjectId) : ObjectId :=
  S (fold_right Nat.max 0%nat ids).

(** *** Responses *)

Record MockReview : Type :=
  { m__id : string;
    m_patientId : string;
    m_patientName : string;
    m_filename : string;
    m_upload_time : string;
    m_prediction : string;
    m_probability : Q;
    m_status : string }.

Inductive ReviewEntry : Type :=
| StoredImage (r : ImageRecord)
| MockImage (m : MockReview).

Inductive Body : Type :=
| Message (message : string)
| Created (message : string) (id : ObjectId)
| Uploaded (message : string) (imageId : ObjectId) (aiResult_status : string)
| PatientList (l : list Patient)
| ReviewList (l : list ReviewEntry).

(** What the client receives: the handler's pair, or the framework's
    answer to an exception no handler caught. *)
Inductive Response : Type :=
| Reply (body : Body) (code : nat)
| InternalServerError (e : Exn).

Definition status_code (r : Response) : nat :=
  match r with
  | Reply _ c => c
  | InternalServerError _ => 500%nat
  end.

Definition flask (h : M World (Body * nat)) (w : World) : Response * World :=
  match h w with
  | (inr (b, c), w') => (Reply b c, w')
  | (inl e, w') => (InternalServerError e, w')
  end.

(** An upload: [request.files] and [request.form]. *)
Record FileStorage : Type :=
  { filename : string; stream : list Byte.byte }.

Record UploadRequest : Type :=
  { files : Dict.t FileStorage; form : Dict.t string }.

(** Labels the review queue and the dashboard counter select. *)
Definition review_labels : list string :=
  ["High-Risk ROP Stage 3"; "Urgent Referral"; "Severe ROP"].
Definition stats_labels : list string :=
  ["High-Risk ROP Stage 3"; "Urgent Referral"].

Definition mem (s : string) (l : list string) : bool :=
  existsb (fun x => x =? s) l.

(** [path] names a file that lies in [folder] itself. *)
Definition in_folder (folder path : string) : Prop :=
  exists name,
    path = folder ++ "/" ++ name /\
    Str.contains name "/" = false /\
    name <> "" /\ name <> "." /\ name <> "..".

Section Handlers.

(** [str.upper] *)
Variable upper : string -> string.
(** [dateutil.parser.parse] on a string, and [isoformat] of what it
    returns. *)
Variable Datetime : Type.
Variable parser_parse : string -> Exc Datetime.
Variable isoformat : Datetime -> Exc string.
(** [float(s)] on a string; the double nearest to an integer within the
    range of the doubles. *)
Variable float_of_str : string -> Exc Float.t.
Variable nearest_double : Z -> Q.
(** The exception [bson] raises on a value it cannot encode (an integer
    beyond 8 bytes, ...), if any. *)
Variable bson_error : Json.t -> option Exn.
(** [os.path.splitext], [os.path.join] *)
Variable splitext : string -> string * string.
Variable path_join : string -> string -> string.
(** Whether [file.save(path)] can create the file. *)
Variable writable : string -> bool.
(** [f"{size / (1024 * 1024):.2f} MB"] *)
Variable format_mb : nat -> string.

(** *** Collection operations *)

(** The driver encodes a document before it sends it.  Strings, floats
    and values read back from the database encode; of the values a request
    supplies, the first that does not encode raises, and nothing is
    sent. *)
Fixpoint bson_encode (values : list Json.t) : Exc unit :=
  match values with
  | [] => ret tt
  | v :: rest =>
      match bson_error v with
      | Some e => raise e
      | None => bson_encode rest
      end
  end.

(** The fields of a patient that hold values of the request as they
    came, in the order of the document. *)
Definition patient_values (p : Patient) : list Json.t :=
  [p_name p; p_gestational_age p; p_parent_name p; p_parent_phone p;
   p_parent_email p].

Definition appointment_values (a : Appointment) : list Json.t :=
  [a_type a].

Definition patients_insert_one (doc : ObjectId -> Patient)
  : M World ObjectId :=
  fun w =>
    let id := new_ObjectId (map p__id (patients_collection w)) in
    match bson_encode (patient_values (doc id)) with
    | inl e => (inl e, w)
    | inr _ =>
        (inr id,
         {| patients_collection := patients_collection w ++ [doc id];
            appointments_collection := appointments_collection w;
            images_collection := images_collection w;
            disk := disk w;
            trace := trace w ++ [PatientInserted id] |})
    end.

Definition appointments_insert_one (doc : ObjectId -> Appointment)
  : M World ObjectId :=
  fun w =>
    let id := new_ObjectId (map a__id (appointments_collection w)) in
    match bson_encode (appointment_values (doc id)) with
    | inl e => (inl e, w)
    | inr _ =>
        (inr id,
         {| patients_collection := patients_collection w;
            appointments_collection :=
              appointments_collection w ++ [doc id];
            images_collection := images_collection w;
            disk := disk w;
            trace := trace w ++ [AppointmentInserted id] |})
    end.

Definition images_insert_one (doc : ObjectId -> ImageRecord)
  : M World ObjectId :=
  fun w =>
    let id := new_ObjectId (map i__id (images_collection w)) in
    (inr id,
     {| patients_collection := patients_collection w;
        appointments_collection := appointments_collection w;
        images_collection := images_collection w ++ [doc id];
        disk := disk w;
        trace := trace w ++ [ImageInserted id (i_filepath (doc id))] |}).

(** [update_one]: the first document the filter selects is rewritten. *)
Fixpoint update_first {A} (sel : A -> bool) (f : A -> A) (l : list A)
  : list A :=
  match l with
  | [] => []
  | x :: r => if sel x then f x :: r else x :: update_first sel f r
  end.

Definition images_update_one_by_id (id : ObjectId)
           (set : ImageRecord -> ImageRecord) : M World unit :=
  modify (fun w =>
    {| patients_collection := patients_collection w;
       appointments_collection := appointments_collection w;
       images_collection :=
         update_first (fun r => (i__id r =? id)%nat) set
                      (images_collection w);
       disk := disk w;
       trace := trace w ++ [ImageUpdated id] |}).

(** [patients_collection.find_one({"neonate_id": key})] *)
Definition patients_find_one (key : string) : M World (option Patient) :=
  w <- get ;;
  ret (find (fun p => p_neonate_id p =? key) (patients_collection w)).

(** [images_collection.find_one({"_id": id})] *)
Definition images_find_by_id (id : ObjectId) (w : World)
  : option ImageRecord :=
  find (fun r => (i__id r =? id)%nat) (images_collection w).

(** *** Helper *)

Record PatientDetails : Type :=
  { patientName : Json.t; patientId : string; details__id : ObjectId }.

Definition get_patient_details (neonate_id : Json.t)
  : M World (option PatientDetails) :=
  s <- lift (as_str neonate_id) ;;
  patient <- patients_find_one (upper s) ;;
  match patient with
  | Some patient =>
      ret (Some {| patientName := p_name patient;
                   patientId := p_neonate_id patient;
                   details__id := p__id patient |})
  | None => ret None
  end.

(** Equality up to letter case. *)
Definition eq_nocase (a b : string) : Prop := upper a = upper b.

(** Stored patient identifiers are in upper case and pairwise different,
    also up to letter case. *)
Definition patients_ok (w : World) : Prop :=
  Forall (fun p => upper (p_neonate_id p) = p_neonate_id p)
         (patients_collection w) /\
  NoDup (map (fun p => upper (p_neonate_id p)) (patients_collection w)).

(** The patient [find_one] returns for the key. *)
Definition stored (w : World) (key : string) : option Patient :=
  find (fun p => p_neonate_id p =? key) (patients_collection w).

(** No stored patient has this identifier, whatever the letter case. *)
Definition unknown_patient (w : World) (id : string) : Prop :=
  forall p, In p (patients_collection w) ->
            ~ eq_nocase (p_neonate_id p) id.

(** [parser.parse(v)] *)
Definition parse (v : Json.t) : Exc Datetime :=
  match v with
  | Str s => parser_parse s
  | _ => inl TypeError
  end.

(** [parser.parse(v).isoformat()] *)
Definition parse_isoformat (v : Json.t) : Exc string :=
  d <- parse v ;;
  isoformat d.

(** [float(n)] on an integer: beyond the greatest double and half the
    gap that follows it the conversion overflows. *)
Definition float_of_int (z : Z) : Exc Float.t :=
  if (Z.abs z <? 2 ^ 1024 - 2 ^ 970)%Z
  then inr (Float.Fin (nearest_double z))
  else inl OverflowError.

(** [float(v)] *)
Definition py_float (v : Json.t) : Exc Float.t :=
  match v with
  | Int z => float_of_int z
  | Num x => inr x
  | Bool b => inr (Float.Fin (if b then 1 else 0))
  | Str s => float_of_str s
  | _ => inl TypeError
  end.

(** [all(field in data and data[field] for field in required_fields)] *)
Definition all_present (required_fields : list string)
           (data : Dict.t Json.t) : bool :=
  forallb (fun field =>
             Dict.contains data field
             && truthy (Dict.get_or_null data field))
          required_fields.

Definition add_patient (now : string) (data : Dict.t Json.t)
  : M World (Body * nat) :=
  let required_fields :=
    ["name"; "neonate_id"; "birth_date"; "parent_name"] in
  if negb (all_present required_fields data)
  then ret (Message "Missing required patient fields.", 400%nat)
  else
    v <- lift (Dict.subscript data "neonate_id") ;;
    neonate_id <- lift (as_str v) ;;
    existing <- patients_find_one (upper neonate_id) ;;
    match existing with
    | Some _ =>
        ret (Message ("Patient ID " ++ neonate_id ++ " already exists."),
             409%nat)
    | None =>
        built <-
          lift (try_except
            (name <- Dict.subscript data "name" ;;
             bd <- Dict.subscript data "birth_date" ;;
             birth_date <- parse_isoformat bd ;;
             weight <-
               (if truthy (Dict.get_or_null data "weight")
                then w <- py_float
                            (match Dict.get data "weight" with
                             | Some v => v
                             | None => Int 0
                             end) ;;
                     ret (Some w)
                else ret None) ;;
             parent_name <- Dict.subscript data "parent_name" ;;
             ret (inr (fun id =>
               {| p__id := id;
                  p_neonate_id := upper neonate_id;
                  p_name := name;
                  p_birth_date := birth_date;
                  p_gestational_age :=
                    Dict.get_or_null data "gestational_age";
                  p_weight := weight;
                  p_parent_name := parent_name;
                  p_parent_phone := Dict.get_or_null data "parent_phone";
                  p_parent_email := Dict.get_or_null data "parent_email";
                  p_status := "Active";
                  p_created_at := now |})))
            (fun e =>
               match e with
               | ValueError =>
                   ret (inl (Message
                               "Invalid date or number format provided.",
                             400%nat))
               | _ => raise e
               end)) ;;
        match built with
        | inl response => ret response
        | inr new_patient =>
            inserted_id <- patients_insert_one new_patient ;;
            ret (Created "Patient record created successfully."
                         inserted_id, 201%nat)
        end
    end.

(** [find().sort("created_at", -1)] *)
Definition get_all_patients : M World (Body * nat) :=
  w <- get ;;
  ret (PatientList
         (Sort.sort (fun x y => String.leb (p_created_at y)
                                           (p_created_at x))
                    (patients_collection w)),
       200%nat).

Definition schedule_appointment (now : string) (data : Dict.t Json.t)
  : M World (Body * nat) :=
  let required_fields := ["patientId"; "datetime"; "type"] in
  if negb (all_present required_fields data)
  then ret (Message
    "Missing required appointment fields (patientId, datetime, type).",
    400%nat)
  else
    pid <- lift (Dict.subscript data "patientId") ;;
    patient_details <- get_patient_details pid ;;
    match patient_details with
    | None =>
        shown <- lift (as_str pid) ;;
        ret (Message ("Patient ID " ++ shown ++ " not found."), 404%nat)
    | Some patient_details =>
        parsed <-
          lift (try_except
                  (dt <- Dict.subscript data "datetime" ;;
                   appointment_datetime <- parse dt ;;
                   ret (Some appointment_datetime))
                  (fun _ => ret None)) ;;
        match parsed with
        | None => ret (Message "Invalid datetime format.", 400%nat)
        | Some appointment_datetime =>
            datetime <- lift (isoformat appointment_datetime) ;;
            type <- lift (Dict.subscript data "type") ;;
            inserted_id <-
              appointments_insert_one (fun id =>
                {| a__id := id;
                   a_patientId := patientId patient_details;
                   a_patientName := patientName patient_details;
                   a_datetime := datetime;
                   a_type := type;
                   a_status := "Scheduled";
                   a_created_at := now |}) ;;
            ret (Created "Appointment scheduled successfully."
                         inserted_id, 201%nat)
        end
    end.

(** [file.save(filepath)] *)
Definition file_save (file : FileStorage) (filepath : string)
  : M World unit :=
  if writable filepath
  then modify (fun w =>
         {| patients_collection := patients_collection w;
            appointments_collection := appointments_collection w;
            images_collection := images_collection w;
            disk := (filepath, stream file) :: disk w;
            trace := trace w ++ [FileSaved filepath] |})
  else raise OSError.

(** [os.path.getsize(filepath)] *)
Definition getsize (filepath : string) : M World nat :=
  w <- get ;;
  match Dict.get (disk w) filepath with
  | Some content => ret (length content)
  | None => raise OSError
  end.

(** The [$set] of the update that follows the insert. *)
Definition set_processed (r : ImageRecord) : ImageRecord :=
  {| i__id := i__id r;
     i_patientId := i_patientId r;
     i_patientName := i_patientName r;
     i_filename := i_filename r;
     i_filepath := i_filepath r;
     i_upload_time := i_upload_time r;
     i_file_size := i_file_size r;
     i_status := "Processed";
     i_ai_result :=
       {| ai_status := "Pending Review";
          ai_prediction := "Low-Risk ROP Stage 1";
          ai_probability := 95 # 100 |} |}.

(** [now] is [datetime.now().isoformat()], [token] is
    [uuid.uuid4().hex]. *)
Definition upload_image (now token : string) (request : UploadRequest)
  : M World (Body * nat) :=
  match Dict.get (files request) "file" with
  | None => ret (Message "No file part in the request.", 400%nat)
  | Some file =>
  match Dict.get (form request) "patientId" with
  | None =>
      ret (Message "Patient ID is required in the form data.", 400%nat)
  | Some form_patientId =>
      let patient_id := upper form_patientId in
      if filename file =? ""
      then ret (Message "No selected file.", 400%nat)
      else
        patient_details <- get_patient_details (Str patient_id) ;;
        match patient_details with
        | None =>
            ret (Message ("Patient ID " ++ patient_id ++ " not found."),
                 404%nat)
        | Some patient_details =>
            let extension := snd (splitext (filename file)) in
            let filename := patient_id ++ "_" ++ token ++ extension in
            let filepath := path_join UPLOAD_FOLDER filename in
            file_save file filepath ;;;
            let ai_status := "Processing" in
            size <- getsize filepath ;;
            let new_image_record := fun id =>
              {| i__id := id;
                 i_patientId := patient_id;
                 i_patientName := patientName patient_details;
                 i_filename := filename;
                 i_filepath := filepath;
                 i_upload_time := now;
                 i_file_size := format_mb size;
                 i_status := "Uploaded";
                 i_ai_result :=
                   {| ai_status := ai_status;
                      ai_prediction := "Unknown";
                      ai_probability := 0 |} |} in
            inserted_id <- images_insert_one new_image_record ;;
            images_update_one_by_id inserted_id set_processed ;;;
            ret (Uploaded
              "Image uploaded successfully and sent for AI processing."
              inserted_id "Processing", 201%nat)
        end
  end
  end.

(** The filter of [get_images_for_review]. *)
Definition review_query (r : ImageRecord) : bool :=
  (ai_status (i_ai_result r) =? "Pending Review")
  && mem (ai_prediction (i_ai_result r)) review_labels
  && negb (i_status r =? "Reviewed").

(** The filter behind [pendingReview] in [get_stats]. *)
Definition pending_review_query (r : ImageRecord) : bool :=
  (ai_status (i_ai_result r) =? "Pending Review")
  && mem (ai_prediction (i_ai_result r)) stats_labels.

Definition mock_review_1 (now : string) : MockReview :=
  {| m__id := "mock_review_1";
     m_patientId := "N012";
     m_patientName := "Baby Smith";
     m_filename := "mock_file_1.jpg";
     m_upload_time := now;
     m_prediction := "High-Risk ROP Stage 3";
     m_probability := 98 # 100;
     m_status := "Processed" |}.

Definition get_images_for_review (now : string) : M World (Body * nat) :=
  w <- get ;;
  let selected := filter review_query (images_collection w) in
  if (length selected =? 0)%nat
  then ret (ReviewList [MockImage (mock_review_1 now)], 200%nat)
  else
    ret (ReviewList
           (map StoredImage
                (Sort.sort (fun x y => String.leb (i_upload_time y)
                                                  (i_upload_time x))
                           selected)),
         200%nat).

(** *** Well-formed requests *)

Definition patient_required_fields : list string :=
  ["name"; "neonate_id"; "birth_date"; "parent_name"].
Definition appointment_required_fields : list string :=
  ["patientId"; "datetime"; "type"].

(** The values of a creation request that are stored as they came. *)
Definition patient_request_values (data : Dict.t Json.t) : list Json.t :=
  [Dict.get_or_null data "name"; Dict.get_or_null data "gestational_age";
   Dict.get_or_null data "parent_name"; Dict.get_or_null data "parent_phone";
   Dict.get_or_null data "parent_email"].

(** A creation request [add_patient] accepts when the id is free: the
    required fields are there, the id is a string, the birth date
    parses, the weight, if given, is a number, and the values to store
    encode. *)
Definition valid_patient_request (data : Dict.t Json.t) : bool :=
  all_present patient_required_fields data
  && match Dict.get data "neonate_id" with
     | Some (Str _) => true
     | _ => false
     end
  && returned (parse_isoformat (Dict.get_or_null data "birth_date"))
  && (if truthy (Dict.get_or_null data "weight")
      then returned (py_float (Dict.get_or_null data "weight"))
      else true)
  && returned (bson_encode (patient_request_values data)).

(** The document a valid creation request leaves in the collection
    ([iso] is the parsed birth date). *)
Definition patient_of (now : string) (data : Dict.t Json.t)
           (nid iso : string) (id : ObjectId) : Patient :=
  {| p__id := id;
     p_neonate_id := upper nid;
     p_name := Dict.get_or_null data "name";
     p_birth_date := iso;
     p_gestational_age := Dict.get_or_null data "gestational_age";
     p_weight :=
       if truthy (Dict.get_or_null data "weight")
       then match py_float (Dict.get_or_null data "weight") with
            | inr q => Some q
            | inl _ => None
            end
       else None;
     p_parent_name := Dict.get_or_null data "parent_name";
     p_parent_phone := Dict.get_or_null data "parent_phone";
     p_parent_email := Dict.get_or_null data "parent_email";
     p_status := "Active";
     p_created_at := now |}.

(** The name and the path [upload_image] generates, and the document
    it inserts. *)
Definition upload_name (token : string) (file : FileStorage)
           (form_patientId : string) : string :=
  upper form_patientId ++ "_" ++ token
    ++ snd (splitext (filename file)).

Definition upload_path (token : string) (file : FileStorage)
           (form_patientId : string) : string :=
  path_join UPLOAD_FOLDER (upload_name token file form_patientId).

Definition uploaded_record (now token : string) (file : FileStorage)
           (form_patientId : string) (patient : Patient) (id : ObjectId)
  : ImageRecord :=
  {| i__id := id;
     i_patientId := upper form_patientId;
     i_patientName := p_name patient;
     i_filename := upload_name token file form_patientId;
     i_filepath := upload_path token file form_patientId;
     i_upload_time := now;
     i_file_size := format_mb (length (stream file));
     i_status := "Uploaded";
     i_ai_result :=
       {| ai_status := "Processing";
          ai_prediction := "Unknown";
          ai_probability := 0 |} |}.

(** The database and the disk after an accepted upload. *)
Definition after_upload (now token : string) (file : FileStorage)
           (form_patientId : string) (patient : Patient) (w : World)
  : World :=
  let id := new_ObjectId (map i__id (images_collection w)) in
  let path := upload_path token file form_patientId in
  {| patients_collection := patients_collection w;
     appointments_collection := appointments_collection w;
     images_collection :=
       images_collection w
         ++ [set_processed
               (uploaded_record now token file form_patientId patient
                  id)];
     disk := (path, stream file) :: disk w;
     trace :=
       trace w
         ++ [FileSaved path; ImageInserted id path; ImageUpdated id] |}.

(** *** The service as a transition system *)

Inductive Request : Type :=
| POST_patients (now : string) (data : Dict.t Json.t)
| GET_patients
| POST_appointments (now : string) (data : Dict.t Json.t)
| POST_images_upload (now token : string) (request : UploadRequest)
| GET_images_review (now : string).

Definition handle (rq : Request) : World -> Response * World :=
  match rq with
  | POST_patients now data => flask (add_patient now data)
  | GET_patients => flask get_all_patients
  | POST_appointments now data => flask (schedule_appointment now data)
  | POST_images_upload now token request =>
      flask (upload_image now token request)
  | GET_images_review now => flask (get_images_for_review now)
  end.

Fixpoint run (rqs : list Request) (w : World) : World :=
  match rqs with
  | [] => w
  | rq :: rest => run rest (snd (handle rq w))
  end.

End Handlers.

Arguments parse : simpl never.
Arguments parse_isoformat : simpl never.
Arguments py_float : simpl never.
Arguments bson_encode : simpl never.

End app.

(* ------------------------------------------------------------------ *)
(** ** A concrete environment

    Stand-ins for the libraries, used to run the embedding on inputs. *)

Module Scenario.

Import Json.

(** A network that answers every input with the same scores. *)
Definition Model : Type := list (list Float.t).
Definition Image : Type := list Byte.byte.
Definition Tensor : Type := list Byte.byte.

(** The outcome of each load attempt is listed beforehand. *)
Definition keras_load_model (outcomes : list (option Model))
           (path : string) (attempt : nat) : Exc Model :=
  match nth_error outcomes attempt with
  | Some (Some m) => inr m
  | _ => inl OSError
  end.

(** The decoder accepts the streams that start with the signature of a
    PNG file. *)
Definition Image_open (b : list Byte.byte) : Exc Image :=
  match b with
  | Byte.x89 :: Byte.x50 :: Byte.x4e :: Byte.x47
    :: Byte.x0d :: Byte.x0a :: Byte.x1a :: Byte.x0a :: _ => inr b
  | _ => inl OSError
  end.
Definition Image_convert (i : Image) (mode : string) : Exc Image := inr i.
Definition Image_resize (i : Image) (size : nat * nat) : Exc Image := inr i.
Definition np_array (i : Image) : Exc Tensor := inr i.
Definition np_divide (t : Tensor) (d : Q) : Exc Tensor := inr t.
Definition np_expand_dims (t : Tensor) (axis : nat) : Exc Tensor := inr t.
Definition predict (m : Model) (t : Tensor) : Exc (list (list Float.t)) :=
  inr m.

Definition preprocess_image :=
  ai_service.preprocess_image Image_open Image_convert Image_resize
    np_array np_divide np_expand_dims.

Definition run_inference (outcomes : list (option Model)) :=
  ai_service.run_inference (keras_load_model outcomes) Image_open
    Image_convert Image_resize np_array np_divide np_expand_dims predict.

Definition serve (outcomes : list (option Model)) :=
  ai_service.serve (keras_load_model outcomes) Image_open
    Image_convert Image_resize np_array np_divide np_expand_dims predict.

(** A PNG file of one red pixel. *)
Definition some_bytes : list Byte.byte :=
  [Byte.x89; Byte.x50; Byte.x4e; Byte.x47; Byte.x0d; Byte.x0a;
   Byte.x1a; Byte.x0a; Byte.x00; Byte.x00; Byte.x00; Byte.x0d;
   Byte.x49; Byte.x48; Byte.x44; Byte.x52; Byte.x00; Byte.x00;
   Byte.x00; Byte.x01; Byte.x00; Byte.x00; Byte.x00; Byte.x01;
   Byte.x08; Byte.x02; Byte.x00; Byte.x00; Byte.x00; Byte.x90;
   Byte.x77; Byte.x53; Byte.xde; Byte.x00; Byte.x00; Byte.x00;
   Byte.x0c; Byte.x49; Byte.x44; Byte.x41; Byte.x54; Byte.x78;
   Byte.xda; Byte.x63; Byte.xf8; Byte.xcf; Byte.xc0; Byte.x00;
   Byte.x00; Byte.x03; Byte.x01; Byte.x01; Byte.x00; Byte.xf7;
   Byte.x03; Byte.x41; Byte.x43; Byte.x00; Byte.x00; Byte.x00;
   Byte.x00; Byte.x49; Byte.x45; Byte.x4e; Byte.x44; Byte.xae;
   Byte.x42; Byte.x60; Byte.x82].

Definition finite (a : list (list Q)) : Model := map (map Float.Fin) a.

(** Stub networks: tied scores, five classes, unnormalised scores, scores
    with more than four decimals, a NaN among the scores. *)
Definition scores_tie : Model := finite [[1 # 10; 7 # 10; 7 # 10; 1 # 10]].
Definition scores_five : Model :=
  finite [[1 # 10; 2 # 10; 3 # 10; 1 # 10; 4 # 10]].
Definition scores_raw : Model := finite [[2; 0; 0; 0]].
Definition scores_thirds : Model :=
  finite [[1 # 6; 2 # 3; 1 # 12; 1 # 12]].
Definition scores_nan : Model :=
  [[Float.Fin (1 # 10); Float.Fin (6 # 10); Float.NaN; Float.Fin (3 # 10)]].

(** Dates are strings that start with a digit. *)
Definition Datetime : Type := string.

Definition parser_parse (s : string) : Exc Datetime :=
  match s with
  | String c _ =>
      if ((48 <=? nat_of_ascii c) && (nat_of_ascii c <=? 57))%nat
      then inr s else inl ValueError
  | EmptyString => inl ValueError
  end.

(** [isoformat] raises on an offset of 99 hours. *)
Definition isoformat (d : Datetime) : Exc string :=
  if substring (String.length d - 6) 6 d =? "+99:00"
  then inl ValueError else inr d.

Definition float_of_str (s : string) : Exc Float.t :=
  if s =? "1.5" then inr (Float.Fin (3 # 2)) else inl ValueError.

Definition nearest_double (z : Z) : Q := inject_Z z.

(** An integer must fit 8 bytes. *)
Fixpoint bson_error (v : Json.t) : option Exn :=
  match v with
  | Int z =>
      if ((- 2 ^ 63 <=? z) && (z <? 2 ^ 63))%Z then None
      else Some OverflowError
  | Arr l =>
      (fix first (l : list Json.t) : option Exn :=
         match l with
         | [] => None
         | x :: r =>
             match bson_error x with
             | Some e => Some e
             | None => first r
             end
         end) l
  | Obj d =>
      (fix first (d : list (string * Json.t)) : option Exn :=
         match d with
         | [] => None
         | (_, x) :: r =>
             match bson_error x with
             | Some e => Some e
             | None => first r
             end
         end) d
  | _ => None
  end.

(** The suffix that starts at the last dot. *)
Fixpoint last_dot_suffix (s : string) : string :=
  match s with
  | EmptyString => EmptyString
  | String c r =>
      let e := last_dot_suffix r in
      if e =? "" then (if Ascii.eqb c "." then s else "") else e
  end.

Definition splitext (name : string) : string * string :=
  let e := last_dot_suffix name in
  (substring 0 (String.length name - String.length e) name, e).

Definition path_join (a b : string) : string :=
  match b with
  | String "/" _ => b
  | _ => a ++ "/" ++ b
  end.

Definition writable (path : string) : bool := true.
Definition format_mb (size : nat) : string := "0.00 MB".

Definition handle :=
  app.handle Str.upper parser_parse isoformat float_of_str nearest_double
    bson_error splitext path_join writable format_mb.

Definition run :=
  app.run Str.upper parser_parse isoformat float_of_str nearest_double
    bson_error splitext path_join writable format_mb.

Definition add_patient :=
  app.add_patient Str.upper parser_parse isoformat float_of_str
    nearest_double bson_error.

Definition patients_ok := app.patients_ok Str.upper.
Definition unknown_patient := app.unknown_patient Str.upper.

Definition baby_doe : Dict.t Json.t :=
  [("name", Str "Baby Doe"); ("neonate_id", Str "n001");
   ("birth_date", Str "2024-09-01"); ("parent_name", Str "John Doe")].

Definition baby_doe_again : Dict.t Json.t :=
  [("name", Str "Baby D."); ("neonate_id", Str "N001");
   ("birth_date", Str "2024-09-01"); ("parent_name", Str "Jane Doe")].

(** A repeat of Baby Doe's identifier that carries nothing else. *)
Definition bare_repeat : Dict.t Json.t := [("neonate_id", Str "n001")].

(** An identifier that is a relative path. *)
Definition baby_dots : Dict.t Json.t :=
  [("name", Str "Baby Dots"); ("neonate_id", Str "../x");
   ("birth_date", Str "2024-09-01"); ("parent_name", Str "Dot Dots")].

Definition visit (pid : string) : Dict.t Json.t :=
  [("patientId", Str pid); ("datetime", Str "2024-09-17T09:00:00");
   ("type", Str "Initial Screening")].

Definition eye : app.FileStorage :=
  {| app.filename := "eye.jpg"; app.stream := some_bytes |}.

Definition fundus : app.UploadRequest :=
  {| app.files := [("file", eye)]; app.form := [("patientId", "n001")] |}.

Definition fundus_dots : app.UploadRequest :=
  {| app.files := [("file", eye)]; app.form := [("patientId", "../x")] |}.

(** The database after Baby Doe's registration. *)
Definition one_patient : app.World :=
  snd (add_patient "2024-09-02T08:00:00" baby_doe app.empty_world).

Definition doe_record : app.Patient :=
  app.patient_of Str.upper float_of_str nearest_double
    "2024-09-02T08:00:00" baby_doe "n001" "2024-09-01" 1%nat.

(** Uploading a fundus image for Baby Doe, and a second one a day
    later. *)
Definition upload_fundus : app.Request :=
  app.POST_images_upload "2024-09-03T10:00:00" "3f2a9c" fundus.

Definition after_upload : app.World := snd (handle upload_fundus one_patient).

Definition upload_fundus_again : app.Request :=
  app.POST_images_upload "2024-09-04T10:00:00" "77b1e0" fundus.

Definition after_second_upload : app.World :=
  snd (handle upload_fundus_again after_upload).

(** The database after Baby Dots' registration, and an upload for Baby
    Dots. *)
Definition dots_patient : app.World :=
  snd (add_patient "2024-09-02T09:00:00" baby_dots app.empty_world).

Definition upload_dots : app.Request :=
  app.POST_images_upload "2024-09-03T11:00:00" "3f2a9c" fundus_dots.

Definition upload_message : string :=
  "Image uploaded successfully and sent for AI processing.".

End Scenario.

(* ------------------------------------------------------------------ *)
(** ** [backend/app.py]: the dashboard, history and file endpoints *)

From Stdlib Require Import Sorted.

Module app_views.

Import Json app.

(** The body of [GET /api/stats]. *)
Record Stats : Type :=
  { totalPatients : nat;
    appointmentsToday : nat;
    pendingReview : nat;
    totalReviewed : nat;
    imagesUploadedToday : nat;
    totalUploads : nat;
    pendingProcessing : nat;
    averageUploadTime : nat }.

(** [collection.count_documents(query)] *)
Definition count_documents {A} (query : A -> bool) (c : list A) : nat :=
  length (filter query c).

(** [since_today v] tells whether the filter [{"$gte": today}], with
    [today] the [datetime] of this midnight, selects the stored value [v];
    it stands for the clock and for the database's comparison of a stored
    string with a date. *)
Definition get_stats (since_today : string -> bool) : M World (Stats * nat) :=
  w <- get ;;
  let appointments_today :=
    count_documents (fun a => since_today (a_datetime a))
                    (appointments_collection w) in
  let total_patients :=
    count_documents (fun _ => true) (patients_collection w) in
  let pending_review :=
    count_documents pending_review_query (images_collection w) in
  let total_reviewed :=
    count_documents (fun r => i_status r =? "Reviewed")
                    (images_collection w) in
  let images_today :=
    count_documents (fun r => since_today (i_upload_time r))
                    (images_collection w) in
  let total_uploads :=
    count_documents (fun _ => true) (images_collection w) in
  let pending_processing :=
    count_documents
      (fun r => (i_status r =? "Uploaded")
                && (ai_status (i_ai_result r) =? "Processing"))
      (images_collection w) in
  ret ({| totalPatients := total_patients;
          appointmentsToday := appointments_today;
          pendingReview := pending_review;
          totalReviewed := total_reviewed;
          imagesUploadedToday := images_today;
          totalUploads := total_uploads;
          pendingProcessing := pending_processing;
          averageUploadTime := 45 |}, 200%nat).

(** The filter of [get_appointments_today]; [today] and [tomorrow] are
    [today.isoformat()] and [tomorrow.isoformat()], compared as strings
    with the stored [datetime]. *)
Definition today_query (today tomorrow : string) (a : Appointment) : bool :=
  String.leb today (a_datetime a) && String.ltb (a_datetime a) tomorrow.

(** [find(query).sort("datetime", 1)] *)
Definition get_appointments_today (today tomorrow : string)
  : M World (list Appointment * nat) :=
  w <- get ;;
  ret (Sort.sort (fun x y => String.leb (a_datetime x) (a_datetime y))
                 (filter (today_query today tomorrow)
                         (appointments_collection w)),
       200%nat).

(** [find().sort("upload_time", -1).limit(10)] *)
Definition get_upload_history : M World (list ImageRecord * nat) :=
  w <- get ;;
  ret (firstn 10
         (Sort.sort (fun x y => String.leb (i_upload_time y)
                                           (i_upload_time x))
                    (images_collection w)),
       200%nat).

(** The answer of [GET /api/image/<filename>]: the file, the handler's
    message, or the page of the router when no route matches. *)
Inductive ImageBody : Type :=
| SentFile (content : list Byte.byte)
| NotFound (message : string)
| NoRoute.

Section Files.

Variable path_join : string -> string -> string.
(** [os.path.isdir] *)
Variable isdir : string -> bool.
(** [flask.send_file(path)]: the response it builds, which depends on the
    headers of the request; a relative path is looked up from the root
    folder of the application. *)
Variable send_file : string -> World -> Exc (ImageBody * nat).

(** [os.path.exists(path)] *)
Definition exists_ (w : World) (path : string) : bool :=
  Dict.contains (disk w) path || isdir path.

Definition get_image_file (filename : string)
  : M World (ImageBody * nat) :=
  w <- get ;;
  let filepath := path_join UPLOAD_FOLDER filename in
  if exists_ w filepath
  then lift (send_file filepath w)
  else ret (NotFound "Image not found.", 404%nat).

(** The route [/api/image/<filename>]: [<filename>] matches a text that
    is not empty and holds no slash; any other path has no route. *)
Definition image_route (filename : string) : M World (ImageBody * nat) :=
  if (filename =? "") || Str.contains filename "/"
  then ret (NoRoute, 404%nat)
  else get_image_file filename.

End Files.

(** *** Invariants of the stored documents *)

(** Every appointment and every image names a stored patient. *)
Definition references_ok (w : World) : Prop :=
  (forall a, In a (appointments_collection w) ->
             exists p, In p (patients_collection w) /\
                       p_neonate_id p = a_patientId a) /\
  (forall r, In r (images_collection w) ->
             exists p, In p (patients_collection w) /\
                       p_neonate_id p = i_patientId r).

(** Every image is in the state the upload leaves it in, its file is on
    the disk, and no two images share an [_id]. *)
Definition images_ok (w : World) : Prop :=
  (forall r, In r (images_collection w) ->
             i_status r = "Processed" /\
             ai_status (i_ai_result r) = "Pending Review" /\
             ai_prediction (i_ai_result r) = "Low-Risk ROP Stage 1" /\
             Dict.contains (disk w) (i_filepath r) = true) /\
  NoDup (map i__id (images_collection w)).

(** The documents of [w] are still in [w'], unchanged and in the same
    order, and so are the names of the files. *)
Definition grows (w w' : World) : Prop :=
  (exists l, patients_collection w' = (patients_collection w ++ l)%list) /\
  (exists l,
      appointments_collection w' = (appointments_collection w ++ l)%list) /\
  (exists l, images_collection w' = (images_collection w ++ l)%list) /\
  (forall k, Dict.contains (disk w) k = true ->
             Dict.contains (disk w') k = true).

End app_views.

(* ------------------------------------------------------------------ *)
(** ** [backend/models.py] *)

Module models.

Import Json.

(** A stored value: an [ObjectId] or a plain value. *)
Inductive Bson : Type :=
| BObjectId (id : app.ObjectId)
| BValue (v : Json.t).

Definition isinstance_ObjectId (b : Bson) : bool :=
  match b with BObjectId _ => true | BValue _ => false end.

(** [d[k] = v]: the value of an existing key is replaced where it is, a
    new key goes to the end. *)
Fixpoint setitem {V} (d : Dict.t V) (k : string) (v : V) : Dict.t V :=
  match d with
  | [] => [(k, v)]
  | (k', v') :: r =>
      if k' =? k then (k, v) :: r else (k', v') :: setitem r k v
  end.

Record PatientDoc : Type :=
  { neonate_id : Json.t;
    name : Json.t;
    birth_date : option string;
    gestational_age : Json.t;
    weight : Json.t;
    parent_name : Json.t;
    parent_phone : Json.t;
    parent_email : Json.t;
    patient_status : string;
    patient_created_at : string }.

Record AppointmentDoc : Type :=
  { appointment_patient_id : app.ObjectId;
    datetime : option string;
    type : Json.t;
    appointment_status : string;
    appointment_created_at : string }.

Record ImageDoc : Type :=
  { patient_id : app.ObjectId;
    filename : Json.t;
    file_size : Json.t;
    file_type : Json.t;
    upload_time : string;
    status : string;
    ai_result : Dict.t Json.t }.

(** The dictionary [run_inference] returns, as [image_schema] reads it. *)
Definition result_dict (r : ai_service.Result) : Dict.t Json.t :=
  [("prediction", Str (ai_service.prediction r));
   ("probability", Num (ai_service.probability r));
   ("status", Str (ai_service.status r))].

Section Schemas.

(** [str(x)] of an [ObjectId] and of a value that is not a string. *)
Variable str_ObjectId : app.ObjectId -> string.
Variable str_value : Json.t -> string.
(** [ObjectId(s)] *)
Variable ObjectId_of : string -> Exc app.ObjectId.
(** [datetime.strptime(s, format)] *)
Variable strptime : string -> string -> Exc string.

Definition py_str (b : Bson) : string :=
  match b with
  | BObjectId id => str_ObjectId id
  | BValue (Str s) => s
  | BValue v => str_value v
  end.

Definition strptime_value (v : Json.t) (format : string) : Exc string :=
  match v with
  | Str s => strptime s format
  | _ => inl TypeError
  end.

Definition serialize_doc (doc : option (Dict.t Bson))
  : Exc (option (Dict.t Bson)) :=
  match doc with
  | None | Some [] => ret doc
  | Some d =>
      id <- Dict.subscript d "_id" ;;
      let d := setitem d "_id" (BValue (Str (py_str id))) in
      match Dict.get d "patient_id" with
      | Some v =>
          if isinstance_ObjectId v
          then ret (Some (setitem d "patient_id"
                                  (BValue (Str (py_str v)))))
          else ret (Some d)
      | None => ret (Some d)
      end
  end.

(** [utcnow] is [datetime.utcnow()]. *)
Definition patient_schema (utcnow : string) (data : Dict.t Json.t)
  : Exc PatientDoc :=
  birth_date <-
    (if truthy (Dict.get_or_null data "birthDate")
     then v <- Dict.subscript data "birthDate" ;;
          d <- strptime_value v "%Y-%m-%d" ;;
          ret (Some d)
     else ret None) ;;
  ret {| neonate_id := Dict.get_or_null data "neonateId";
         name := Dict.get_or_null data "patientName";
         birth_date := birth_date;
         gestational_age := Dict.get_or_null data "gestationalAge";
         weight := Dict.get_or_null data "weight";
         parent_name := Dict.get_or_null data "parentName";
         parent_phone := Dict.get_or_null data "parentPhone";
         parent_email := Dict.get_or_null data "parentEmail";
         patient_status := "Active";
         patient_created_at := utcnow |}.

Definition appointment_schema (utcnow : string) (data : Dict.t Json.t)
           (patient_id : string) : Exc AppointmentDoc :=
  oid <- ObjectId_of patient_id ;;
  datetime <-
    (if truthy (Dict.get_or_null data "dateTime")
     then v <- Dict.subscript data "dateTime" ;;
          d <- strptime_value v "%Y-%m-%d %I:%M %p" ;;
          ret (Some d)
     else ret None) ;;
  ret {| appointment_patient_id := oid;
         datetime := datetime;
         type := match Dict.get data "type" with
                 | Some v => v
                 | None => Str "Initial Screening"
                 end;
         appointment_status := "Scheduled";
         appointment_created_at := utcnow |}.

Definition image_schema (utcnow : string) (data : Dict.t Json.t)
           (patient_id : string) (ai_result : option (Dict.t Json.t))
  : Exc ImageDoc :=
  oid <- ObjectId_of patient_id ;;
  let given := match ai_result with
               | Some ((_ :: _) as d) => Some d
               | _ => None
               end in
  let processed :=
    match given with
    | Some d =>
        match Dict.get d "status" with
        | Some (Str s) => s =? "processed"
        | _ => false
        end
    | None => false
    end in
  ret {| patient_id := oid;
         filename := Dict.get_or_null data "filename";
         file_size := Dict.get_or_null data "fileSize";
         file_type := Dict.get_or_null data "fileType";
         upload_time := utcnow;
         status := if processed then "Processed" else "Processing";
         ai_result := match given with Some d => d | None => [] end |}.

End Schemas.

End models.

(* ------------------------------------------------------------------ *)
(** ** More concrete inputs *)

Module ScenarioMore.

Import Json.

(** A network without output, and Baby Doe's database. *)
Definition no_scores : Scenario.Model := [].

Definition unparsable_date : Dict.t Json.t :=
  [("name", Str "Baby Roe"); ("neonate_id", Str "n002");
   ("birth_date", Str "last week"); ("parent_name", Str "Mary Roe")].

Definition numeric_id : Dict.t Json.t :=
  [("name", Str "Baby Roe"); ("neonate_id", Int 7);
   ("birth_date", Str "2024-09-01"); ("parent_name", Str "Mary Roe")].

(** A weight that is an integer of 401 digits. *)
Definition overweight : Dict.t Json.t :=
  [("name", Str "Baby Roe"); ("neonate_id", Str "n002");
   ("birth_date", Str "2024-09-01"); ("parent_name", Str "Mary Roe");
   ("weight", Int (10 ^ 400))].

Definition vague_visit : Dict.t Json.t :=
  [("patientId", Str "n001"); ("datetime", Str "next Tuesday");
   ("type", Str "Follow-up")].

Definition far_visit : Dict.t Json.t :=
  [("patientId", Str "n001"); ("datetime", Str "2024-09-17T09:00:00+99:00");
   ("type", Str "Follow-up")].

(** A type that is an integer beyond 8 bytes. *)
Definition huge_type_visit : Dict.t Json.t :=
  [("patientId", Str "n001"); ("datetime", Str "2024-09-17T09:00:00");
   ("type", Int (2 ^ 70))].

(** Three requests: a registration, an upload, an appointment. *)
Definition history : list app.Request :=
  [app.POST_patients "2024-09-02T08:00:00" Scenario.baby_doe;
   Scenario.upload_fundus;
   app.POST_appointments "2024-09-05T08:00:00" (Scenario.visit "n001")].

(** Files are served whole from the folder they are saved in; the upload
    folder is the only directory. *)
Definition isdir (path : string) : bool := path =? app.UPLOAD_FOLDER.
Definition send_file (path : string) (w : app.World)
  : Exc (app_views.ImageBody * nat) :=
  match Dict.get (app.disk w) path with
  | Some content => inr (app_views.SentFile content, 200%nat)
  | None => inl OSError
  end.

Definition image_route :=
  app_views.image_route Scenario.path_join isdir send_file.

(** Stand-ins for [bson] and [datetime]. *)
Definition str_ObjectId (id : app.ObjectId) : string :=
  String (ascii_of_nat (48 + id)%nat) EmptyString.
Definition str_value (v : Json.t) : string := "None".
Definition ObjectId_of (s : string) : Exc app.ObjectId :=
  if (String.length s =? 24)%nat then inr 1%nat else inl ValueError.
Definition strptime (s format : string) : Exc string :=
  Scenario.parser_parse s.

Definition serialize_doc := models.serialize_doc str_ObjectId str_value.
Definition image_schema := models.image_schema ObjectId_of.

Definition raw_image_doc : Dict.t models.Bson :=
  [("_id", models.BObjectId 5%nat); ("patient_id", models.BObjectId 7%nat);
   ("filename", models.BValue (Str "eye.jpg"))].

Definition serialized_image_doc : Dict.t models.Bson :=
  [("_id", models.BValue (Str "5")); ("patient_id", models.BValue (Str "7"));
   ("filename", models.BValue (Str "eye.jpg"))].

Definition hex24 : string := "65f0a1b2c3d4e5f601234567".

End ScenarioMore.

(* ------------------------------------------------------------------ *)
(** ** Facts about the numeric functions *)

Unset Implicit Arguments.

(** As [py_unfold], in the goal only. *)
Ltac py_reduce :=
  unfold bind, ret, raise, try_except, lift, get, modify,
    Monad_Exc, MonadExc_Exc, Monad_M, MonadExc_M.

Module FloatFacts.
Import Float.
Local Open Scope Q_scope.

Lemma Qle_bool_false a b : Qle_bool a b = false <-> b < a.
Proof.
  split; intro H.
  - apply Qnot_le_lt. intro L. apply Qle_bool_iff in L. congruence.
  - destruct (Qle_bool a b) eqn:E; [|reflexivity].
    apply Qle_bool_iff in E. exfalso. apply (Qlt_not_le _ _ H E).
Qed.

Lemma le_Fin a b : le (Fin a) (Fin b) <-> a <= b.
Proof. apply Qle_bool_iff. Qed.

Lemma le_not_nan x y : le x y -> isnan x = false /\ isnan y = false.
Proof. destruct x, y; cbn; intros H; try discriminate H; auto. Qed.

Lemma not_nan x : x <> NaN -> isnan x = false.
Proof. destruct x; intros H; try reflexivity. now elim H. Qed.

Lemma le_refl x : isnan x = false -> le x x.
Proof.
  destruct x; cbn; try discriminate; try reflexivity.
  intros _. apply Qle_bool_iff, Qle_refl.
Qed.

Lemma le_trans x y z : le x y -> le y z -> le x z.
Proof.
  unfold le. destruct x, y, z; cbn; try discriminate; try reflexivity.
  rewrite !Qle_bool_iff. apply Qle_trans.
Qed.

Lemma leb_false_lt x y :
  isnan x = false -> isnan y = false -> leb x y = false -> lt y x.
Proof.
  unfold lt. destruct x, y; cbn; try discriminate; auto.
  intros _ _ H. split; [|exact H].
  apply Qle_bool_iff, Qlt_le_weak. now apply Qle_bool_false.
Qed.

Lemma lt_le x y : lt x y -> le x y.
Proof. now intros [H _]. Qed.

Lemma lt_not_le x y : lt x y -> ~ le y x.
Proof. unfold le. intros [_ H] L. congruence. Qed.

Lemma le_lt_trans x y z : le x y -> lt y z -> lt x z.
Proof.
  unfold le, lt.
  destruct x, y, z; cbn; try discriminate; try (intros _ [? ?]; discriminate);
    try (split; reflexivity).
  rewrite !Qle_bool_iff, !Qle_bool_false. intros H [H1 H2]. split; lra.
Qed.

Lemma eq_refl x : eq x x.
Proof. destruct x; cbn; auto. apply Qeq_refl. Qed.

Lemma le_antisym x y : le x y -> le y x -> eq x y.
Proof.
  unfold le. destruct x, y; cbn; try discriminate; auto.
  rewrite !Qle_bool_iff. apply Qle_antisym.
Qed.

Lemma le_eq_r x y z : le x y -> eq y z -> le x z.
Proof.
  unfold le. destruct x, y, z; cbn; try discriminate; try tauto.
  rewrite !Qle_bool_iff. intros H E. now rewrite <- E.
Qed.

Lemma le_eq_l x y z : eq x y -> le x z -> le y z.
Proof.
  unfold le. destruct x, y, z; cbn; try discriminate; try tauto.
  rewrite !Qle_bool_iff. intros E H. now rewrite <- E.
Qed.

End FloatFacts.

Module NpFacts.
Import Np.
Local Open Scope list_scope.
Local Open Scope Q_scope.

Lemma argmax_from_nan xs best_i i :
  argmax_from best_i Float.NaN i xs = best_i.
Proof. now destruct xs. Qed.

Lemma argmax_from_spec xs : forall pre bi b,
    is_first_max pre bi -> nth bi pre Float.NaN = b ->
    ~ In Float.NaN xs ->
    is_first_max (pre ++ xs) (argmax_from bi b (length pre) xs).
Proof.
  induction xs as [|x r IH]; intros pre bi b Hm Hb Hnan; simpl.
  - now rewrite app_nil_r.
  - destruct Hm as (Hlt & Hge & Hfirst). subst b.
    assert (Hlen : S (length pre) = length (pre ++ [x]))
      by (rewrite length_app; simpl; lia).
    assert (Hx : nth (length pre) (pre ++ [x]) Float.NaN = x)
      by (rewrite app_nth2, Nat.sub_diag; [reflexivity | lia]).
    assert (Hold : forall j, (j < length pre)%nat ->
                             nth j (pre ++ [x]) Float.NaN
                             = nth j pre Float.NaN)
      by (intros j Hj; now rewrite app_nth1).
    assert (Hb : Float.isnan (nth bi pre Float.NaN) = false)
      by (apply (FloatFacts.le_not_nan _ _ (Hge bi Hlt))).
    assert (Hxn : Float.isnan x = false).
    { apply FloatFacts.not_nan. intros ->. apply Hnan. now left. }
    assert (Hr : ~ In Float.NaN r) by (intro; apply Hnan; now right).
    replace (pre ++ x :: r) with ((pre ++ [x]) ++ r)
      by (rewrite <- app_assoc; reflexivity).
    rewrite Hlen, Hb.
    destruct (Float.leb x (nth bi pre Float.NaN)) eqn:E; cbn [negb].
    + apply IH; [|now apply Hold|exact Hr].
      repeat split.
      * lia.
      * intros j Hj. rewrite (Hold bi Hlt).
        destruct (Nat.eq_dec j (length pre)) as [->|Hne].
        -- rewrite Hx. exact E.
        -- rewrite Hold by lia. apply Hge. lia.
      * rewrite (Hold bi Hlt), Hold by lia. now apply Hfirst.
      * rewrite (Hold bi Hlt), Hold by lia. now apply Hfirst.
    + apply (FloatFacts.leb_false_lt _ _ Hxn Hb) in E.
      apply IH; [|exact Hx|exact Hr].
      repeat split.
      * lia.
      * intros j Hj. rewrite Hx.
        destruct (Nat.eq_dec j (length pre)) as [->|Hne].
        -- rewrite Hx. now apply FloatFacts.le_refl.
        -- rewrite Hold by lia.
           apply (FloatFacts.le_trans _ _ _ (Hge j ltac:(lia))).
           now apply FloatFacts.lt_le.
      * rewrite Hx, Hold by lia.
        apply (FloatFacts.le_lt_trans _ _ _ (Hge j H) E).
      * rewrite Hx, Hold by lia.
        apply (FloatFacts.le_lt_trans _ _ _ (Hge j H) E).
Qed.

Lemma argmax_row_spec x r :
  ~ In Float.NaN (x :: r) ->
  exists i, argmax_row (x :: r) = inr i /\ is_first_max (x :: r) i.
Proof.
  intros Hnan. eexists. split; [reflexivity|].
  apply (argmax_from_spec r [x] 0%nat x); [|reflexivity|].
  - assert (Hx : Float.isnan x = false).
    { apply FloatFacts.not_nan. intros ->. apply Hnan. now left. }
    repeat split; simpl; try lia.
    intros [|j] Hj; [now apply FloatFacts.le_refl | lia].
  - intro H. apply Hnan. now right.
Qed.

(** A row with a first maximum holds no NaN. *)
Lemma first_max_no_nan row i : is_first_max row i -> ~ In Float.NaN row.
Proof.
  intros (_ & Hge & _) H.
  destruct (In_nth _ _ Float.NaN H) as (j & Hj & E).
  specialize (Hge j Hj). rewrite E in Hge. discriminate Hge.
Qed.

Lemma is_first_max_unique row i j :
  is_first_max row i -> is_first_max row j -> i = j.
Proof.
  intros (Hi & Hgi & Hfi) (Hj & Hgj & Hfj).
  destruct (Nat.lt_trichotomy i j) as [L|[E|L]]; [|exact E|].
  - specialize (Hfj i L). specialize (Hgi j Hj).
    now elim (FloatFacts.lt_not_le _ _ Hfj).
  - specialize (Hfi j L). specialize (Hgj i Hi).
    now elim (FloatFacts.lt_not_le _ _ Hfi).
Qed.

Lemma argmax_row_first_max row i :
  is_first_max row i -> argmax_row row = inr i.
Proof.
  intros Hi. pose proof (first_max_no_nan _ _ Hi) as Hnan.
  destruct row as [|x r].
  - destruct Hi as (H & _). cbn in H. lia.
  - destruct (argmax_row_spec x r Hnan) as (k & Hk & Hm). rewrite Hk.
    f_equal. eapply is_first_max_unique; eauto.
Qed.

Lemma first_max_of_argmax row i :
  ~ In Float.NaN row -> argmax_row row = inr i -> is_first_max row i.
Proof.
  destruct row as [|x r]; [discriminate|]. intros Hnan Hi.
  destruct (argmax_row_spec x r Hnan) as (k & Hk & Hm).
  rewrite Hk in Hi. now injection Hi as <-.
Qed.

(** On a row with a NaN, [np.argmax] answers the position of the first
    NaN. *)
Lemma argmax_from_first_nan xs : forall bi b i k,
    Float.isnan b = false -> is_first_nan xs k ->
    argmax_from bi b i xs = (i + k)%nat.
Proof.
  induction xs as [|x r IH]; intros bi b i k Hb (Hk & Hfirst).
  - destruct k; discriminate Hk.
  - cbn [argmax_from]. rewrite Hb. destruct k as [|k].
    + cbn in Hk. injection Hk as ->. cbn.
      rewrite argmax_from_nan. lia.
    + cbn in Hk.
      assert (Hx : Float.isnan x = false).
      { apply FloatFacts.not_nan. apply (Hfirst 0%nat). lia. }
      assert (Hr : is_first_nan r k).
      { split; [exact Hk|]. intros j Hj. apply (Hfirst (S j)). lia. }
      destruct (negb (Float.leb x b)).
      * rewrite (IH i x (S i) k Hx Hr). lia.
      * rewrite (IH bi b (S i) k Hb Hr). lia.
Qed.

Lemma argmax_row_first_nan row i :
  is_first_nan row i -> argmax_row row = inr i.
Proof.
  destruct row as [|x r]; intros (Hi & Hfirst).
  - destruct i; discriminate Hi.
  - cbn. f_equal. destruct i as [|i].
    + cbn in Hi. injection Hi as ->. apply argmax_from_nan.
    + apply (argmax_from_first_nan r 0%nat x 1%nat i).
      * apply FloatFacts.not_nan. apply (Hfirst 0%nat). lia.
      * split; [exact Hi|]. intros j Hj. apply (Hfirst (S j)). lia.
Qed.

Lemma maximum_le a b :
  Float.isnan a = false -> Float.isnan b = false ->
  Float.le a (maximum a b) /\ Float.le b (maximum a b) /\
  (maximum a b = a \/ maximum a b = b).
Proof.
  intros Ha Hb. unfold maximum. rewrite Ha, orb_false_r.
  destruct (Float.leb b a) eqn:E.
  - repeat split; auto. now apply FloatFacts.le_refl.
  - apply (FloatFacts.leb_false_lt _ _ Hb Ha) in E.
    repeat split; auto.
    + now apply FloatFacts.lt_le.
    + now apply FloatFacts.le_refl.
Qed.

Lemma fold_max_spec r : forall x,
    ~ In Float.NaN (x :: r) ->
    is_max (x :: r) (fold_left maximum r x).
Proof.
  induction r as [|y r IH]; intros x Hnan; simpl.
  - assert (Hx : Float.isnan x = false).
    { apply FloatFacts.not_nan. intros ->. apply Hnan. now left. }
    split; [exists x; split; [now left | apply FloatFacts.eq_refl]|].
    intros z [<-|[]]. now apply FloatFacts.le_refl.
  - assert (Hx : Float.isnan x = false).
    { apply FloatFacts.not_nan. intros ->. apply Hnan. now left. }
    assert (Hy : Float.isnan y = false).
    { apply FloatFacts.not_nan. intros ->. apply Hnan. right. now left. }
    destruct (maximum_le x y Hx Hy) as (Lx & Ly & Hm).
    destruct (IH (maximum x y)) as ((w & Hw & Ew) & Hall).
    { intros [E|H].
      - destruct Hm as [Hm|Hm]; rewrite Hm in E; subst;
          discriminate.
      - apply Hnan. right. now right. }
    split.
    + exists w. split; [|exact Ew].
      destruct Hw as [<-|Hw]; [|right; now right].
      destruct Hm as [->| ->]; [now left | right; now left].
    + intros z [<-|[<-|Hz]].
      * apply (FloatFacts.le_trans _ _ _ Lx). apply Hall. now left.
      * apply (FloatFacts.le_trans _ _ _ Ly). apply Hall. now left.
      * apply Hall. now right.
Qed.

Lemma fold_max_nan r : forall x,
    In Float.NaN (x :: r) -> fold_left maximum r x = Float.NaN.
Proof.
  induction r as [|y r IH]; intros x H; simpl.
  - destruct H as [->|[]]. reflexivity.
  - apply IH. destruct H as [->|[->|H]].
    + left. unfold maximum. destruct y; reflexivity.
    + left. unfold maximum. destruct x; reflexivity.
    + now right.
Qed.

Lemma max_spec a mx :
  max a = inr mx -> ~ In Float.NaN (concat a) -> is_max (concat a) mx.
Proof.
  unfold max. destruct (concat a) as [|x r]; [discriminate|].
  intros [= <-]. apply fold_max_spec.
Qed.

Lemma max_nan a mx :
  max a = inr mx -> In Float.NaN (concat a) -> mx = Float.NaN.
Proof.
  unfold max. destruct (concat a) as [|x r]; [discriminate|].
  intros [= <-]. apply fold_max_nan.
Qed.

Lemma max_returns a x :
  In x (concat a) -> exists mx, max a = inr mx.
Proof.
  unfold max. destruct (concat a); [intros []|eauto].
Qed.

Lemma is_max_no_nan xs mx : is_max xs mx -> ~ In Float.NaN xs.
Proof. intros (_ & H) Hn. specialize (H _ Hn). discriminate H. Qed.

Lemma is_max_unique xs a b : is_max xs a -> is_max xs b -> Float.eq a b.
Proof.
  intros ((x & Hx & Ex) & Ha) ((y & Hy & Ey) & Hb).
  specialize (Ha y Hy). specialize (Hb x Hx).
  apply FloatFacts.le_antisym.
  - apply (FloatFacts.le_eq_l _ _ _ Ex Hb).
  - apply (FloatFacts.le_eq_l _ _ _ Ey Ha).
Qed.

Lemma round_half_even_comp q q' :
  q == q' -> round_half_even q = round_half_even q'.
Proof.
  intro E. unfold round_half_even.
  assert (F : Qfloor q = Qfloor q') by (now rewrite E).
  rewrite F.
  assert (C : Qcompare (q - inject_Z (Qfloor q')) (1 # 2)
              = Qcompare (q' - inject_Z (Qfloor q')) (1 # 2))
    by (now rewrite E).
  now rewrite C.
Qed.

Lemma round_decimal_comp x y n :
  x == y -> round_decimal x n = round_decimal y n.
Proof.
  intro E. unfold round_decimal.
  rewrite (round_half_even_comp (x * inject_Z (10 ^ Z.of_nat n))
                                (y * inject_Z (10 ^ Z.of_nat n)));
    [reflexivity | now rewrite E].
Qed.

Lemma round_comp x y n : Float.eq x y -> round x n = round y n.
Proof.
  destruct x, y; cbn; try tauto; try reflexivity.
  intro E. f_equal. now apply round_decimal_comp.
Qed.

Lemma round_half_even_bounds q (a b : Z) :
  inject_Z a <= q -> q <= inject_Z b ->
  (a <= round_half_even q <= b)%Z.
Proof.
  intros Ha Hb. unfold round_half_even.
  pose proof (Qfloor_le q) as Hfl.
  pose proof (Qlt_floor q) as Hlt.
  assert (La : (a <= Qfloor q)%Z).
  { rewrite <- (Qfloor_Z a). now apply Qfloor_resp_le. }
  assert (Lb : (Qfloor q <= b)%Z).
  { rewrite <- (Qfloor_Z b). now apply Qfloor_resp_le. }
  assert (Up : 0 < q - inject_Z (Qfloor q) -> (Qfloor q + 1 <= b)%Z).
  { intro P. 
    assert (inject_Z (Qfloor q) < inject_Z b) by lra.
    rewrite <- Zlt_Qlt in H. lia. }
  destruct (Qcompare (q - inject_Z (Qfloor q)) (1 # 2)) eqn:C.
  - apply Qeq_alt in C. destruct (Z.even (Qfloor q)); [lia|].
    split; [lia|]. apply Up. lra.
  - lia.
  - apply Qgt_alt in C. split; [lia|]. apply Up. lra.
Qed.

Lemma round_decimal_unit_interval x n :
  0 <= x <= 1 -> 0 <= round_decimal x n <= 1.
Proof.
  intros [H0 H1]. unfold round_decimal.
  set (s := (10 ^ Z.of_nat n)%Z).
  assert (Hs : (0 < s)%Z) by (apply Z.pow_pos_nonneg; lia).
  assert (Hsq : inject_Z 0 < inject_Z s) by (now rewrite <- Zlt_Qlt).
  change (inject_Z 0) with 0 in Hsq.
  destruct (round_half_even_bounds (x * inject_Z s) 0 s) as [L U].
  - change (inject_Z 0) with 0. nra.
  - nra.
  - set (z := round_half_even (x * inject_Z s)) in *.
    assert (Lq : inject_Z 0 <= inject_Z z) by (now rewrite <- Zle_Qle).
    change (inject_Z 0) with 0 in Lq.
    assert (Uq : inject_Z z <= inject_Z s) by (now rewrite <- Zle_Qle).
    split.
    + apply Qle_shift_div_l; [exact Hsq | lra].
    + apply Qle_shift_div_r; [exact Hsq | lra].
Qed.

Lemma round_unit_interval x n :
  Float.le (Float.Fin 0) x /\ Float.le x (Float.Fin 1) ->
  Float.le (Float.Fin 0) (round x n) /\
  Float.le (round x n) (Float.Fin 1).
Proof.
  destruct x as [q| | |]; cbn; intros [H0 H1]; try discriminate.
  apply FloatFacts.le_Fin in H0, H1.
  destruct (round_decimal_unit_interval q n (conj H0 H1)).
  split; now apply FloatFacts.le_Fin.
Qed.

Lemma argmax_axis1_head row rest l :
  argmax_axis1 (row :: rest) = inr l ->
  exists i js, l = i :: js /\ argmax_row row = inr i.
Proof.
  cbn. py_unfold. destruct (argmax_row row) as [|i]; [discriminate|].
  destruct (argmax_axis1 rest) as [|js]; [discriminate|].
  intros [= <-]. eauto.
Qed.

Lemma argmax_row_returns row : row <> [] -> exists i, argmax_row row = inr i.
Proof. destruct row; [congruence | cbn; eauto]. Qed.

Lemma argmax_axis1_returns a :
  Forall (fun r => r <> []) a -> exists l, argmax_axis1 a = inr l.
Proof.
  induction 1 as [|row rest Hrow _ (js & IH)]; [now exists []|].
  cbn [argmax_axis1]. py_unfold. rewrite IH.
  destruct (argmax_row_returns row Hrow) as (i & ->). eauto.
Qed.

Lemma first_max_is_max row i :
  is_first_max row i -> is_max row (nth i row Float.NaN).
Proof.
  intros (Hi & Hge & _). split.
  - exists (nth i row Float.NaN).
    split; [now apply nth_In | apply FloatFacts.eq_refl].
  - intros x Hx. destruct (In_nth _ _ Float.NaN Hx) as (j & Hj & <-).
    now apply Hge.
Qed.

Lemma is_max_bounds xs mx lo hi :
  is_max xs mx ->
  (forall x, In x xs -> Float.le lo x /\ Float.le x hi) ->
  Float.le lo mx /\ Float.le mx hi.
Proof.
  intros ((x & Hx & E) & _) Hb. destruct (Hb x Hx) as [L U]. split.
  - apply (FloatFacts.le_eq_r _ _ _ L E).
  - apply (FloatFacts.le_eq_l _ _ _ E U).
Qed.

End NpFacts.

Module RoundFacts.

Import Np.
Local Open Scope Q_scope.

Lemma round_half_even_error q :
  inject_Z (round_half_even q) - q <= 1 # 2 /\
  q - inject_Z (round_half_even q) <= 1 # 2.
Proof.
  unfold round_half_even.
  pose proof (Qfloor_le q) as Hfl. pose proof (Qlt_floor q) as Hlt.
  assert (Hinj : inject_Z (Qfloor q + 1) == inject_Z (Qfloor q) + 1)
    by (rewrite inject_Z_plus; reflexivity).
  rewrite Hinj in Hlt.
  destruct (Qcompare (q - inject_Z (Qfloor q)) (1 # 2)) eqn:C.
  - apply Qeq_alt in C.
    destruct (Z.even (Qfloor q)); [|rewrite Hinj]; split; lra.
  - apply Qlt_alt in C. split; lra.
  - apply Qgt_alt in C. rewrite Hinj. split; lra.
Qed.

(** At a tie the even neighbour is taken. *)
Lemma round_half_even_tie q :
  inject_Z (round_half_even q) - q == 1 # 2 \/
  q - inject_Z (round_half_even q) == 1 # 2 ->
  Z.even (round_half_even q) = true.
Proof.
  unfold round_half_even.
  pose proof (Qfloor_le q) as Hfl. pose proof (Qlt_floor q) as Hlt.
  assert (Hinj : inject_Z (Qfloor q + 1) == inject_Z (Qfloor q) + 1)
    by (rewrite inject_Z_plus; reflexivity).
  rewrite Hinj in Hlt.
  destruct (Qcompare (q - inject_Z (Qfloor q)) (1 # 2)) eqn:C.
  - intros _. destruct (Z.even (Qfloor q)) eqn:E; [exact E|].
    rewrite Z.even_add, E. reflexivity.
  - apply Qlt_alt in C. intros [H|H]; lra.
  - apply Qgt_alt in C. rewrite Hinj. intros [H|H]; lra.
Qed.

(** Rounding to four decimals gives a multiple of 10^-4 that differs from
    the score by at most 0.00005, the even multiple when two are as
    near. *)
Lemma round4_spec x :
  exists k : Z,
    round_decimal x 4 = inject_Z k / 10000 /\
    x - (1 # 20000) <= round_decimal x 4 /\
    round_decimal x 4 <= x + (1 # 20000) /\
    (round_decimal x 4 - x == 1 # 20000 \/
     x - round_decimal x 4 == 1 # 20000 -> Z.even k = true).
Proof.
  exists (round_half_even (x * 10000)).
  unfold round_decimal. change (inject_Z (10 ^ Z.of_nat 4)) with 10000.
  destruct (round_half_even_error (x * 10000)) as [H1 H2].
  pose proof (round_half_even_tie (x * 10000)) as Ht.
  set (z := inject_Z (round_half_even (x * 10000))) in *.
  assert (Hz : z / 10000 == z * (1 # 10000)) by reflexivity.
  split; [reflexivity|]. split; [|split].
  - rewrite Hz. lra.
  - rewrite Hz. lra.
  - rewrite Hz. intros [H|H]; apply Ht; [left|right]; lra.
Qed.

Lemma round4_error x :
  x - (1 # 20000) <= round_decimal x 4 /\
  round_decimal x 4 <= x + (1 # 20000).
Proof.
  destruct (round4_spec x) as (_ & _ & H1 & H2 & _). now split.
Qed.

End RoundFacts.

(* ------------------------------------------------------------------ *)
(** ** Facts about the inference pipeline *)

Section PipelineFacts.

Variables Model Image Tensor : Type.
Variable keras_load_model : string -> nat -> Exc Model.
Variable Image_open : list Byte.byte -> Exc Image.
Variable Image_convert : Image -> string -> Exc Image.
Variable Image_resize : Image -> nat * nat -> Exc Image.
Variable np_array : Image -> Exc Tensor.
Variable np_divide : Tensor -> Q -> Exc Tensor.
Variable np_expand_dims : Tensor -> nat -> Exc Tensor.
Variable predict : Model -> Tensor -> Exc (list (list Float.t)).

Import ai_service.

#[local] Abbreviation load_model := (load_model keras_load_model).
#[local] Abbreviation preprocess_image :=
  (preprocess_image Image_open Image_convert Image_resize np_array
     np_divide np_expand_dims).
#[local] Abbreviation classify := (classify predict).
#[local] Abbreviation run_inference :=
  (run_inference keras_load_model Image_open Image_convert Image_resize
     np_array np_divide np_expand_dims predict).
#[local] Abbreviation serve :=
  (serve keras_load_model Image_open Image_convert Image_resize
     np_array np_divide np_expand_dims predict).
#[local] Abbreviation import_module := (import_module keras_load_model).

(** *** [load_model] *)

Lemma load_model_first_ok (p : Proc Model) m :
  model p = PyNone _ ->
  keras_load_model MODEL_PATH (length (load_log p)) = inr m ->
  load_model p =
    (inr (Loaded m),
     {| model := Loaded m; load_log := (load_log p ++ [true])%list |}).
Proof.
  intros Hn Hk. unfold ai_service.load_model, tf_load_model, set_model.
  py_unfold. cbn. rewrite Hn. cbn. rewrite Hk. reflexivity.
Qed.

Lemma load_model_first_fails (p : Proc Model) e :
  model p = PyNone _ ->
  keras_load_model MODEL_PATH (length (load_log p)) = inl e ->
  load_model p =
    (inr (PyFalse _),
     {| model := PyFalse _; load_log := (load_log p ++ [false])%list |}).
Proof.
  intros Hn Hk. unfold ai_service.load_model, tf_load_model, set_model.
  py_unfold. cbn. rewrite Hn. cbn. rewrite Hk. reflexivity.
Qed.

Lemma load_model_cached (p : Proc Model) :
  model p <> PyNone _ -> load_model p = (inr (model p), p).
Proof.
  intros Hn. unfold ai_service.load_model. py_unfold.
  destruct p as [v l]; cbn in *.
  destruct v; [congruence | reflexivity | reflexivity].
Qed.

(** [load_model] returns the global it leaves behind, never [None], and
    calls the loader at most once, only when the global was [None]. *)
Lemma load_model_returns (p : Proc Model) :
  exists v p',
    load_model p = (inr v, p') /\ model p' = v /\ v <> PyNone _ /\
    (model p <> PyNone _ -> p' = p) /\
    (model p = PyNone _ ->
     load_log p' =
       (load_log p
          ++ [returned (keras_load_model MODEL_PATH (length (load_log p)))])
       %list).
Proof.
  destruct (model p) eqn:E.
  - destruct (keras_load_model MODEL_PATH (length (load_log p))) eqn:K.
    + rewrite (load_model_first_fails p _ E K).
      do 2 eexists. split; [reflexivity|]. cbn.
      repeat split; try congruence.
    + rewrite (load_model_first_ok p _ E K).
      do 2 eexists. split; [reflexivity|]. cbn.
      repeat split; try congruence.
  - rewrite load_model_cached by congruence.
    do 2 eexists. split; [reflexivity|].
    repeat split; try congruence.
  - rewrite load_model_cached by congruence.
    do 2 eexists. split; [reflexivity|].
    repeat split; try congruence.
Qed.

(** *** [preprocess_image] *)

Lemma preprocess_image_returns image_bytes :
  exists o, preprocess_image image_bytes = inr o.
Proof.
  unfold ai_service.preprocess_image. py_unfold.
  destruct (Image_open image_bytes) as [|i0]; [eauto|].
  destruct (Image_convert i0 "RGB") as [|i1]; [eauto|].
  destruct (Image_resize i1 (224, 224)%nat) as [|i2]; [eauto|].
  destruct (np_array i2) as [|t0]; [eauto|].
  destruct (np_divide t0 255) as [|t1]; [eauto|].
  destruct (np_expand_dims t1 0) as [|t2]; eauto.
Qed.

Lemma preprocess_image_decode_failure image_bytes e :
  Image_open image_bytes = inl e ->
  preprocess_image image_bytes = inr None.
Proof.
  intros H. unfold ai_service.preprocess_image. py_unfold.
  now rewrite H.
Qed.

(** *** [run_inference] *)

Lemma run_inference_unavailable image_bytes (p p' : Proc Model) :
  load_model p = (inr (PyFalse _), p') ->
  run_inference image_bytes p = (inr model_error, p').
Proof.
  intros H. unfold ai_service.run_inference. py_unfold.
  cbv beta iota. now rewrite H.
Qed.

Lemma run_inference_no_input image_bytes (p p' : Proc Model) m :
  load_model p = (inr (Loaded m), p') ->
  preprocess_image image_bytes = inr None ->
  run_inference image_bytes p = (inr preprocessing_error, p').
Proof.
  intros H Hp. unfold ai_service.run_inference. py_unfold.
  cbv beta iota. rewrite H. cbv beta iota. now rewrite Hp.
Qed.

Lemma run_inference_classifies image_bytes (p p' : Proc Model) m t :
  load_model p = (inr (Loaded m), p') ->
  preprocess_image image_bytes = inr (Some t) ->
  run_inference image_bytes p =
    (match classify m t with
     | inr r => inr r
     | inl _ => inr inference_exception
     end, p').
Proof.
  intros H Hp. unfold ai_service.run_inference. py_unfold.
  cbv beta iota. rewrite H. cbv beta iota. rewrite Hp.
  destruct (ai_service.classify predict m t); reflexivity.
Qed.

(** No call of [run_inference] raises, and none touches the process
    beyond what its [load_model] does. *)
Lemma run_inference_returns image_bytes (p : Proc Model) :
  exists r, run_inference image_bytes p = (inr r, snd (load_model p)).
Proof.
  destruct (load_model_returns p) as (v & p' & Hl & _ & Hv & _).
  rewrite Hl. cbv [snd].
  destruct v as [| |m]; [congruence| |].
  - eexists. now apply run_inference_unavailable.
  - destruct (preprocess_image_returns image_bytes) as ([t|] & Hp).
    + rewrite (run_inference_classifies _ _ _ _ _ Hl Hp).
      destruct (ai_service.classify predict m t); eauto.
    + eexists. eapply run_inference_no_input; eauto.
Qed.

(** Once the global is [False], every call answers "Model Error" and
    leaves the process as it was. *)
Lemma run_inference_after_failed_load image_bytes (p : Proc Model) :
  model p = PyFalse _ ->
  run_inference image_bytes p = (inr model_error, p).
Proof.
  intros H. apply run_inference_unavailable.
  rewrite load_model_cached by congruence. now rewrite H.
Qed.

Lemma serve_cons b rest (p : Proc Model) :
  serve (b :: rest) p =
    (fst (run_inference b p) :: fst (serve rest (snd (run_inference b p))),
     snd (serve rest (snd (run_inference b p)))).
Proof.
  cbn [ai_service.serve].
  destruct (run_inference b p) as [r p1]. cbn [fst snd].
  destruct (serve rest p1) as [rs p2]. reflexivity.
Qed.

Lemma serve_after_failed_load requests : forall p : Proc Model,
    model p = PyFalse _ ->
    serve requests p = (map (fun _ => inr model_error) requests, p).
Proof.
  induction requests as [|b rest IH]; intros p H; [reflexivity|].
  rewrite serve_cons, (run_inference_after_failed_load b p H).
  cbn [fst snd map]. now rewrite (IH p H).
Qed.

Lemma serve_keeps_loaded requests : forall p : Proc Model,
    model p <> PyNone _ -> snd (serve requests p) = p.
Proof.
  induction requests as [|b rest IH]; intros p H; [reflexivity|].
  destruct (run_inference_returns b p) as (r & Hr).
  rewrite serve_cons, Hr, load_model_cached by exact H.
  cbn [fst snd]. exact (IH p H).
Qed.

(** *** The body of the [try] *)

Lemma classify_inv m t r :
  classify m t = inr r ->
  exists predictions indices i mx label,
    predict m t = inr predictions /\
    Np.argmax_axis1 predictions = inr indices /\
    getitem indices 0 = inr i /\
    Np.max predictions = inr mx /\
    getitem class_labels i = inr label /\
    r = {| prediction := label; probability := Np.round mx 4;
           status := "processed" |}.
Proof.
  intros H. unfold ai_service.classify in H.
  unfold bind, ret, Monad_Exc in H.
  destruct (predict m t) as [|predictions] eqn:E1; [discriminate|].
  destruct (Np.argmax_axis1 predictions) as [|indices] eqn:E2;
    [discriminate|].
  destruct (getitem indices 0) as [|i] eqn:E3; [discriminate|].
  destruct (Np.max predictions) as [|mx] eqn:E4; [discriminate|].
  destruct (getitem class_labels i) as [|label] eqn:E5; [discriminate|].
  injection H as <-. exists predictions, indices, i, mx, label.
  repeat split; assumption.
Qed.

Lemma classify_rows m t row rest i :
  predict m t = inr (row :: rest) ->
  Np.argmax_row row = inr i ->
  Forall (fun r => r <> []) rest ->
  exists mx,
    Np.max (row :: rest) = inr mx /\
    classify m t =
      (label <- getitem class_labels i ;;
       ret {| prediction := label; probability := Np.round mx 4;
              status := "processed" |}).
Proof.
  intros Hp Hi Hrest.
  assert (Hrow : row <> []) by (intros ->; discriminate Hi).
  destruct (NpFacts.argmax_axis1_returns (row :: rest)) as (l & Hl);
    [now constructor|].
  destruct (NpFacts.argmax_axis1_head _ _ _ Hl) as (k & js & -> & Hk).
  rewrite Hi in Hk. injection Hk as <-.
  destruct row as [|x row]; [congruence|].
  destruct (NpFacts.max_returns ((x :: row) :: rest) x) as (mx & Hmx);
    [now left|].
  exists mx. split; [exact Hmx|].
  unfold ai_service.classify. py_unfold.
  rewrite Hp, Hl. cbn [getitem nth_error]. now rewrite Hmx.
Qed.

Lemma classify_first_row m t row rest i :
  predict m t = inr (row :: rest) ->
  Np.is_first_max row i ->
  Forall (fun r => r <> []) rest ->
  exists mx,
    Np.max (row :: rest) = inr mx /\
    classify m t =
      (label <- getitem class_labels i ;;
       ret {| prediction := label; probability := Np.round mx 4;
              status := "processed" |}).
Proof.
  intros Hp Hi. apply classify_rows; [exact Hp|].
  now apply NpFacts.argmax_row_first_max.
Qed.

(** *** The properties of the specification *)

(** C2, as amended.  When preprocessing fails, as it does when the decoder
    rejects the bytes, [run_inference] does not raise; it answers
    "Preprocessing Error" when the model is loaded, and "Model Error" when
    the model is unavailable, because the model is looked at before the
    image is. *)
Theorem run_inference_undecodable image_bytes (p : Proc Model) :
  preprocess_image image_bytes = inr None ->
  (exists r, fst (run_inference image_bytes p) = inr r) /\
  (forall m, fst (load_model p) = inr (Loaded m) ->
             fst (run_inference image_bytes p) = inr preprocessing_error) /\
  (fst (load_model p) = inr (PyFalse _) ->
   fst (run_inference image_bytes p) = inr model_error).
Proof.
  intros Hp. split; [|split].
  - destruct (run_inference_returns image_bytes p) as (r & ->).
    now exists r.
  - intros m Hm. destruct (load_model p) as [v p'] eqn:Hl.
    cbn in Hm. subst v.
    now rewrite (run_inference_no_input image_bytes p p' m Hl Hp).
  - intros Hm. destruct (load_model p) as [v p'] eqn:Hl.
    cbn in Hm. subst v.
    now rewrite (run_inference_unavailable image_bytes p p' Hl).
Qed.

Lemma serve_load_log requests : forall p : Proc Model,
    exists l,
      load_log (snd (serve requests p)) = (load_log p ++ l)%list /\
      (length l <= 1)%nat /\
      (model p <> PyNone _ -> l = []).
Proof.
  destruct requests as [|b rest]; intros p.
  - exists []. cbn. rewrite app_nil_r. repeat split; auto.
  - rewrite serve_cons. cbn [snd].
    destruct (run_inference_returns b p) as (r & ->). cbn [snd].
    destruct (load_model_returns p) as (v & p' & Hl & Hv & Hne & Hsame & Hlog).
    rewrite Hl. cbn [snd].
    rewrite serve_keeps_loaded by congruence.
    destruct (model p) eqn:E.
    + rewrite Hlog by reflexivity. eexists. repeat split; [cbn; lia|].
      congruence.
    + rewrite Hsame by congruence. exists []. rewrite app_nil_r.
      repeat split; auto.
    + rewrite Hsame by congruence. exists []. rewrite app_nil_r.
      repeat split; auto.
Qed.

(** C3.  Over any sequence of calls a process attempts the load at most
    once; a process that imported the module has made exactly one attempt,
    however many requests it serves, so a model is loaded at most once;
    and when the first attempt fails, the global is [False], every later
    call of [run_inference] answers "Model Error", and no call attempts
    the load again. *)
Theorem failed_load_is_cached (p : Proc Model) requests :
  (exists l,
      load_log (snd (serve requests p)) = (load_log p ++ l)%list /\
      (length l <= 1)%nat) /\
  load_log (snd (serve requests import_module))
  = [returned (keras_load_model MODEL_PATH 0)] /\
  (model p = PyNone _ ->
   returned (keras_load_model MODEL_PATH (length (load_log p))) = false ->
   let p1 := snd (load_model p) in
   model p1 = PyFalse _ /\
   load_log p1 = (load_log p ++ [false])%list /\
   serve requests p1 = (map (fun _ => inr model_error) requests, p1)).
Proof.
  split; [|split].
  - destruct (serve_load_log requests p) as (l & H1 & H2 & _). eauto.
  - unfold ai_service.import_module.
    destruct (load_model_returns (fresh_process Model))
      as (v & p' & Hl & Hv & Hne & _ & Hlog).
    rewrite Hl. cbn [snd].
    rewrite serve_keeps_loaded by congruence.
    now rewrite Hlog.
  - intros Hn Hf.
    destruct (keras_load_model MODEL_PATH (length (load_log p))) as [e|m]
      eqn:K; [|discriminate].
    rewrite (load_model_first_fails p e Hn K). cbn [snd model load_log].
    repeat split. now apply serve_after_failed_load.
Qed.




End PipelineFacts.

(** *** The pipeline on concrete inputs *)

Module PipelineExamples.

Import ai_service.
Import Scenario(scores_tie, scores_five, scores_raw, scores_thirds,
                scores_nan).

(** A list of finite scores holds no NaN. *)
Ltac no_nan := cbn; intuition discriminate.

(** C2 as stated fails: with the model unavailable, bytes the decoder
    rejects are answered with "Model Error". *)
Lemma undecodable_bytes_model_unavailable :
  Scenario.Image_open [] = inl OSError /\
  fst (Scenario.run_inference [None] []
         (import_module (Scenario.keras_load_model [None])))
  = inr model_error /\
  model_error <> preprocessing_error.
Proof.
  split; [reflexivity|]. split; [reflexivity|]. discriminate.
Qed.

Lemma run_inference_undecodable_witness :
  Scenario.preprocess_image [] = inr None /\
  fst (Scenario.run_inference [Some scores_tie] []
         (fresh_process Scenario.Model))
  = inr preprocessing_error.
Proof.
  split; [reflexivity|].
  exact (proj1 (proj2
    (run_inference_undecodable _ _ _
       (Scenario.keras_load_model [Some scores_tie]) Scenario.Image_open
       Scenario.Image_convert Scenario.Image_resize Scenario.np_array
       Scenario.np_divide Scenario.np_expand_dims Scenario.predict
       [] (fresh_process Scenario.Model) eq_refl))
    scores_tie eq_refl).
Defined.

(** The second attempt would succeed; it is never made. *)
Lemma failed_load_is_cached_witness :
  let p1 := import_module
              (Scenario.keras_load_model [None; Some scores_tie]) in
  model p1 = PyFalse _ /\
  load_log p1 = [false] /\
  Scenario.serve [None; Some scores_tie] [Scenario.some_bytes; []] p1
  = ([inr model_error; inr model_error], p1).
Proof.
  exact (proj2 (proj2
    (failed_load_is_cached _ _ _
       (Scenario.keras_load_model [None; Some scores_tie])
       Scenario.Image_open
       Scenario.Image_convert Scenario.Image_resize Scenario.np_array
       Scenario.np_divide Scenario.np_expand_dims Scenario.predict
       (fresh_process Scenario.Model) [Scenario.some_bytes; []]))
    eq_refl eq_refl).
Defined.






End PipelineExamples.

(* ------------------------------------------------------------------ *)
(** ** Facts about strings, sorting and identifiers *)

Module StrFacts.

Lemma upper_ascii_idem c :
  Str.upper_ascii (Str.upper_ascii c) = Str.upper_ascii c.
Proof.
  destruct c as [[] [] [] [] [] [] [] []]; reflexivity.
Qed.

Lemma upper_idem s : Str.upper (Str.upper s) = Str.upper s.
Proof.
  induction s as [|c r IH]; cbn; [reflexivity|].
  now rewrite upper_ascii_idem, IH.
Qed.

Lemma upper_ascii_not_lower c :
  let n := nat_of_ascii (Str.upper_ascii c) in
  ((97 <=? n) && (n <=? 122))%nat = false.
Proof.
  unfold Str.upper_ascii.
  destruct ((97 <=? nat_of_ascii c) && (nat_of_ascii c <=? 122))%nat eqn:E;
    [|exact E].
  apply andb_true_iff in E. destruct E as [L U].
  apply Nat.leb_le in L, U. cbn zeta.
  rewrite nat_ascii_embedding by lia.
  apply andb_false_iff. left. apply Nat.leb_gt. lia.
Qed.

(** No letter a-z is left in an upper-cased ASCII string. *)
Lemma upper_no_lower s : Str.has_lower (Str.upper s) = false.
Proof.
  induction s as [|c r IH]; [reflexivity|]. cbn [Str.upper Str.has_lower].
  rewrite IH, orb_false_r. apply upper_ascii_not_lower.
Qed.

Lemma upper_length s : String.length (Str.upper s) = String.length s.
Proof. induction s; cbn; congruence. Qed.

(** Character by character: a letter a-z is moved to the capital 32
    places below it, any other character is kept. *)
Lemma upper_get s i c :
  String.get i s = Some c ->
  String.get i (Str.upper s)
  = Some (if ((97 <=? nat_of_ascii c) && (nat_of_ascii c <=? 122))%nat
          then ascii_of_nat (nat_of_ascii c - 32) else c).
Proof.
  revert i. induction s as [|x r IH]; intros [|i] H; cbn in H;
    try discriminate.
  - injection H as <-. reflexivity.
  - cbn [Str.upper String.get]. now apply IH.
Qed.

Lemma contains_app a b c :
  Str.contains (a ++ b) c = Str.contains a c || Str.contains b c.
Proof.
  induction a as [|x a IH]; [reflexivity|]. cbn.
  now rewrite IH, orb_assoc.
Qed.

(** A name with an underscore is not empty and is neither of the two
    dot entries of a folder. *)
Lemma underscore_name s :
  Str.contains s "_" = true -> s <> "" /\ s <> "." /\ s <> "..".
Proof. intros H. repeat split; intros ->; discriminate H. Qed.

End StrFacts.

Module SortFacts.

Lemma insert_perm {A} (le : A -> A -> bool) x l :
  Permutation (x :: l) (Sort.insert le x l).
Proof.
  induction l as [|y r IH]; cbn; [reflexivity|].
  destruct (le x y); [reflexivity|].
  rewrite perm_swap. now constructor.
Qed.

Lemma sort_perm {A} (le : A -> A -> bool) l :
  Permutation l (Sort.sort le l).
Proof.
  induction l as [|x r IH]; cbn; [constructor|].
  rewrite <- insert_perm. now constructor.
Qed.

Lemma In_sort {A} (le : A -> A -> bool) l x :
  In x (Sort.sort le l) <-> In x l.
Proof.
  split; apply Permutation_in;
    [symmetry|]; apply sort_perm.
Qed.

End SortFacts.

Module IdFacts.

Import app.

Lemma new_ObjectId_fresh ids x : In x ids -> (x < new_ObjectId ids)%nat.
Proof.
  unfold new_ObjectId. induction ids as [|y r IH]; cbn; [intros []|].
  intros [->|H]; [lia|]. specialize (IH H). lia.
Qed.

Lemma update_first_fresh {A} (sel : A -> bool) f l x :
  (forall y, In y l -> sel y = false) -> sel x = true ->
  update_first sel f (l ++ [x]) = (l ++ [f x])%list.
Proof.
  intros Hl Hx. induction l as [|y r IH]; cbn.
  - now rewrite Hx.
  - rewrite (Hl y) by now left. f_equal. apply IH.
    intros z Hz. apply Hl. now right.
Qed.

Lemma find_fresh {A} (sel : A -> bool) l x :
  (forall y, In y l -> sel y = false) -> sel x = true ->
  find sel (l ++ [x]) = Some x.
Proof.
  intros Hl Hx. induction l as [|y r IH]; cbn.
  - now rewrite Hx.
  - rewrite (Hl y) by now left. apply IH.
    intros z Hz. apply Hl. now right.
Qed.

Lemma find_none_iff {A} (sel : A -> bool) l :
  find sel l = None <-> forall y, In y l -> sel y = false.
Proof.
  split.
  - intros H y Hy. now apply (find_none sel l H).
  - intros H. destruct (find sel l) eqn:E; [|reflexivity].
    apply find_some in E. destruct E as [Hin Hs].
    rewrite (H _ Hin) in Hs. discriminate.
Qed.

End IdFacts.

(* ------------------------------------------------------------------ *)
(** ** Facts about the request handlers *)

Section HandlerFacts.

Variable upper : string -> string.
Variable Datetime : Type.
Variable parser_parse : string -> Exc Datetime.
Variable isoformat : Datetime -> Exc string.
Variable float_of_str : string -> Exc Float.t.
Variable nearest_double : Z -> Q.
Variable bson_error : Json.t -> option Exn.
Variable splitext : string -> string * string.
Variable path_join : string -> string -> string.
Variable writable : string -> bool.
Variable format_mb : nat -> string.

Import Json app.

#[local] Abbreviation get_patient_details := (get_patient_details upper).
#[local] Abbreviation eq_nocase := (eq_nocase upper).
#[local] Abbreviation patients_ok := (patients_ok upper).
#[local] Abbreviation unknown_patient := (unknown_patient upper).
#[local] Abbreviation parse := (parse parser_parse).
#[local] Abbreviation parse_isoformat :=
  (parse_isoformat parser_parse isoformat).
#[local] Abbreviation py_float := (py_float float_of_str nearest_double).
#[local] Abbreviation bson_encode := (bson_encode bson_error).
#[local] Abbreviation add_patient :=
  (add_patient upper parser_parse isoformat float_of_str nearest_double
     bson_error).
#[local] Abbreviation schedule_appointment :=
  (schedule_appointment upper parser_parse isoformat bson_error).
#[local] Abbreviation upload_image :=
  (upload_image upper splitext path_join writable format_mb).
#[local] Abbreviation valid_patient_request :=
  (valid_patient_request parser_parse isoformat float_of_str nearest_double
     bson_error).
#[local] Abbreviation patient_of :=
  (patient_of upper float_of_str nearest_double).
#[local] Abbreviation upload_name := (upload_name upper splitext).
#[local] Abbreviation upload_path := (upload_path upper splitext path_join).
#[local] Abbreviation uploaded_record :=
  (uploaded_record upper splitext path_join format_mb).
#[local] Abbreviation after_upload :=
  (after_upload upper splitext path_join format_mb).
#[local] Abbreviation handle :=
  (handle upper parser_parse isoformat float_of_str nearest_double
     bson_error splitext path_join writable format_mb).
#[local] Abbreviation run :=
  (run upper parser_parse isoformat float_of_str nearest_double
     bson_error splitext path_join writable format_mb).

(** *** Required fields *)

Lemma all_present_get fields data field :
  all_present fields data = true -> In field fields ->
  exists v, Dict.get data field = Some v /\ truthy v = true.
Proof.
  unfold all_present. rewrite forallb_forall. intros H Hin.
  specialize (H field Hin). apply andb_true_iff in H as [Hc Ht].
  unfold Dict.contains, Dict.get_or_null in *.
  destruct (Dict.get data field) as [v|]; [eauto | discriminate].
Qed.

(** *** Looking a patient up *)

Lemma stored_unknown w id :
  Str.idempotent upper ->
  unknown_patient w id -> stored w (upper id) = None.
Proof.
  intros Hi H. apply IdFacts.find_none_iff. intros p Hp.
  apply String.eqb_neq. intros E. apply (H p Hp).
  unfold app.eq_nocase. now rewrite E, Hi.
Qed.

Lemma stored_known w p id :
  Forall (fun p => upper (p_neonate_id p) = p_neonate_id p)
         (patients_collection w) ->
  In p (patients_collection w) ->
  eq_nocase id (p_neonate_id p) ->
  exists q, stored w (upper id) = Some q.
Proof.
  intros Hn Hin E. destruct (stored w (upper id)) eqn:F; [eauto|].
  exfalso. pose proof (find_none _ _ F p Hin) as Hne. cbn in Hne.
  apply String.eqb_neq in Hne. apply Hne.
  rewrite Forall_forall in Hn. rewrite <- (Hn p Hin). symmetry. exact E.
Qed.

Lemma get_patient_details_str s w :
  get_patient_details (Str s) w =
    (inr (match stored w (upper s) with
          | Some patient =>
              Some {| patientName := p_name patient;
                      patientId := p_neonate_id patient;
                      details__id := p__id patient |}
          | None => None
          end), w).
Proof.
  unfold app.get_patient_details, patients_find_one, stored. py_reduce. cbn.
  destruct (find _ _); reflexivity.
Qed.

(** *** [add_patient] *)

Lemma add_patient_missing now data w :
  all_present patient_required_fields data = false ->
  add_patient now data w =
    (inr (Message "Missing required patient fields.", 400%nat), w).
Proof.
  intros H. unfold app.add_patient.
  change (all_present _ data) with (all_present patient_required_fields data).
  rewrite H. reflexivity.
Qed.

Lemma add_patient_conflict now data nid w q :
  all_present patient_required_fields data = true ->
  Dict.get data "neonate_id" = Some (Str nid) ->
  stored w (upper nid) = Some q ->
  add_patient now data w =
    (inr (Message ("Patient ID " ++ nid ++ " already exists."), 409%nat), w).
Proof.
  intros Hall Hid Hq. unfold app.add_patient.
  change (all_present _ data) with (all_present patient_required_fields data).
  rewrite Hall. unfold Dict.subscript, patients_find_one. py_reduce.
  rewrite Hid. cbn. unfold stored in Hq. rewrite Hq. reflexivity.
Qed.

Lemma add_patient_creates now data nid w :
  valid_patient_request data = true ->
  Dict.get data "neonate_id" = Some (Str nid) ->
  stored w (upper nid) = None ->
  exists iso,
    parse_isoformat (Dict.get_or_null data "birth_date") = inr iso /\
    add_patient now data w =
      let id := new_ObjectId (map p__id (patients_collection w)) in
      (inr (Created "Patient record created successfully." id, 201%nat),
       {| patients_collection :=
            (patients_collection w
               ++ [patient_of now data nid iso id])%list;
          appointments_collection := appointments_collection w;
          images_collection := images_collection w;
          disk := disk w;
          trace := (trace w ++ [PatientInserted id])%list |}).
Proof.
  intros Hv Hid Hs. unfold app.valid_patient_request in Hv.
  apply andb_true_iff in Hv as [Hv Henc].
  apply andb_true_iff in Hv as [Hv Hw].
  apply andb_true_iff in Hv as [Hv Hb].
  apply andb_true_iff in Hv as [Hall _].
  destruct (all_present_get _ _ "name" Hall) as (vn & Hn & _);
    [cbn; auto|].
  destruct (all_present_get _ _ "parent_name" Hall) as (vp & Hp & _);
    [cbn; auto|].
  destruct (all_present_get _ _ "birth_date" Hall) as (vb & Hbd & _);
    [cbn; auto|].
  destruct (parse_isoformat (Dict.get_or_null data "birth_date"))
    as [|iso] eqn:Hiso; [discriminate|].
  exists iso. split; [reflexivity|].
  unfold app.add_patient.
  change (all_present _ data) with (all_present patient_required_fields data).
  rewrite Hall. unfold Dict.subscript, patients_find_one. py_reduce.
  rewrite Hid. cbn. unfold stored in Hs. rewrite Hs.
  rewrite Hn, Hbd. cbn.
  unfold Dict.get_or_null in Hiso. rewrite Hbd in Hiso. rewrite Hiso.
  unfold patients_insert_one, patient_values, app.patient_of.
  unfold patient_request_values in Henc.
  unfold Dict.get_or_null in *.
  rewrite Hn, Hp in *.
  destruct (Dict.get data "weight") as [v|] eqn:Hwt; cbn in *.
  - destruct (truthy v).
    + destruct (py_float v); [discriminate|]. cbn.
      destruct (bson_encode _); [discriminate|]. reflexivity.
    + cbn. destruct (bson_encode _); [discriminate|]. reflexivity.
  - destruct (bson_encode _); [discriminate|]. reflexivity.
Qed.

(** What [add_patient] can do: create the patient, answer 400 or 409, or
    raise; in the last two cases nothing is written. *)
Ltac rejected :=
  right; left; do 2 eexists; (split; [|reflexivity]); auto.
Ltac raised := right; right; eexists; reflexivity.

Lemma add_patient_cases now data w :
  (exists nid p,
      Dict.get data "neonate_id" = Some (Str nid) /\
      stored w (upper nid) = None /\
      p_neonate_id p = upper nid /\
      p__id p = new_ObjectId (map p__id (patients_collection w)) /\
      p_name p = Dict.get_or_null data "name" /\
      p_status p = "Active" /\
      p_created_at p = now /\
      add_patient now data w =
        (inr (Created "Patient record created successfully." (p__id p),
              201%nat),
         {| patients_collection := (patients_collection w ++ [p])%list;
            appointments_collection := appointments_collection w;
            images_collection := images_collection w;
            disk := disk w;
            trace := (trace w ++ [PatientInserted (p__id p)])%list |})) \/
  (exists message code,
      (code = 400 \/ code = 409)%nat /\
      add_patient now data w = (inr (Message message, code), w)) \/
  (exists e, add_patient now data w = (inl e, w)).
Proof.
  unfold app.add_patient.
  unfold Dict.subscript, patients_find_one, patients_insert_one.
  py_reduce.
  destruct (negb _); [rejected|].
  destruct (Dict.get data "neonate_id") as [v|] eqn:Hid;
    [|raised].
  destruct v as [| | | |nid| |]; try (raised; fail).
  cbn [as_str].
  destruct (find _ (patients_collection w)) eqn:Hs;
    [rejected|].
  unfold Dict.get_or_null.
  destruct (Dict.get data "name") as [vn|]; cbn;
    [|raised].
  destruct (Dict.get data "birth_date"); cbn; [|raised].
  destruct (parse_isoformat _) as [e|iso]; cbn;
    [destruct e; try (raised; fail); rejected|].
  assert (Hdone : forall weight parent_name,
    exists nid0 p,
      Some (Str nid) = Some (Str nid0) /\
      stored w (upper nid0) = None /\
      p_neonate_id p = upper nid0 /\
      p__id p = new_ObjectId (map p__id (patients_collection w)) /\
      p_name p = vn /\
      p_status p = "Active" /\
      p_created_at p = now /\
      (inr (Created "Patient record created successfully."
              (new_ObjectId (map p__id (patients_collection w))), 201%nat),
       {| patients_collection :=
           (patients_collection w ++
            [{| p__id := new_ObjectId (map p__id (patients_collection w));
                p_neonate_id := upper nid;
                p_name := vn;
                p_birth_date := iso;
                p_gestational_age :=
                  match Dict.get data "gestational_age" with
                  | Some v => v
                  | None => Null
                  end;
                p_weight := weight;
                p_parent_name := parent_name;
                p_parent_phone :=
                  match Dict.get data "parent_phone" with
                  | Some v => v
                  | None => Null
                  end;
                p_parent_email :=
                  match Dict.get data "parent_email" with
                  | Some v => v
                  | None => Null
                  end;
                p_status := "Active";
                p_created_at := now |}])%list;
         appointments_collection := appointments_collection w;
         images_collection := images_collection w;
         disk := disk w;
         trace :=
           (trace w ++
            [PatientInserted
               (new_ObjectId (map p__id (patients_collection w)))])%list |})
      = (inr (Created "Patient record created successfully." (p__id p),
              201%nat) : Exc (Body * nat),
         {| patients_collection := (patients_collection w ++ [p])%list;
            appointments_collection := appointments_collection w;
            images_collection := images_collection w;
            disk := disk w;
            trace := (trace w ++ [PatientInserted (p__id p)])%list |})).
  { intros weight parent_name. exists nid.
    match goal with
    | |- context [(patients_collection w ++ [?q])%list] => exists q
    end.
    repeat split; try reflexivity. exact Hs. }
  destruct (truthy _); cbn.
  - destruct (py_float _) as [e|q]; cbn;
      [destruct e; try (raised; fail); rejected|].
    destruct (Dict.get data "parent_name"); cbn; [|raised].
    destruct (bson_encode _); [raised|].
    left. apply Hdone.
  - destruct (Dict.get data "parent_name"); cbn; [|raised].
    destruct (bson_encode _); [raised|].
    left. apply Hdone.
Qed.

(** Whatever the request, [add_patient] leaves the database as it was or
    appends one patient whose upper-case identifier was free. *)
Lemma add_patient_effect now data w :
  Str.idempotent upper ->
  snd (add_patient now data w) = w \/
  exists p,
    stored w (p_neonate_id p) = None /\
    upper (p_neonate_id p) = p_neonate_id p /\
    snd (add_patient now data w) =
      {| patients_collection := (patients_collection w ++ [p])%list;
         appointments_collection := appointments_collection w;
         images_collection := images_collection w;
         disk := disk w;
         trace := (trace w ++ [PatientInserted (p__id p)])%list |}.
Proof.
  intros Hi.
  destruct (add_patient_cases now data w)
    as [(nid & p & _ & Hs & Hp & _ & _ & _ & _ & ->)
       |[(message & code & _ & ->)|(e & ->)]]; [|now left|now left].
  right. exists p. rewrite Hp. repeat split; [exact Hs | apply Hi].
Qed.

(** *** [schedule_appointment] *)

Lemma schedule_appointment_missing now data w :
  all_present appointment_required_fields data = false ->
  schedule_appointment now data w =
    (inr (Message
       "Missing required appointment fields (patientId, datetime, type).",
       400%nat), w).
Proof.
  intros H. unfold app.schedule_appointment.
  change (all_present _ data)
    with (all_present appointment_required_fields data).
  rewrite H. reflexivity.
Qed.

Lemma schedule_appointment_unknown now data pid w :
  all_present appointment_required_fields data = true ->
  Dict.get data "patientId" = Some (Str pid) ->
  stored w (upper pid) = None ->
  schedule_appointment now data w =
    (inr (Message ("Patient ID " ++ pid ++ " not found."), 404%nat), w).
Proof.
  intros Hall Hid Hs. unfold app.schedule_appointment.
  change (all_present _ data)
    with (all_present appointment_required_fields data).
  rewrite Hall. unfold Dict.subscript. py_reduce.
  rewrite Hid. cbn [negb]. cbv beta iota.
  rewrite get_patient_details_str, Hs. reflexivity.
Qed.

(** What [schedule_appointment] can do: create the appointment, answer
    400 or 404, or raise; in the last two cases nothing is written. *)
Lemma schedule_appointment_cases now data w :
  (exists pid p a,
      Dict.get data "patientId" = Some (Str pid) /\
      stored w (upper pid) = Some p /\
      a__id a = new_ObjectId (map a__id (appointments_collection w)) /\
      a_patientId a = p_neonate_id p /\
      a_patientName a = p_name p /\
      a_status a = "Scheduled" /\
      a_created_at a = now /\
      (exists dt d, Dict.get data "datetime" = Some (Str dt) /\
                    parser_parse dt = inr d /\
                    isoformat d = inr (a_datetime a)) /\
      Dict.get data "type" = Some (a_type a) /\
      bson_error (a_type a) = None /\
      schedule_appointment now data w =
        (inr (Created "Appointment scheduled successfully." (a__id a),
              201%nat),
         {| patients_collection := patients_collection w;
            appointments_collection :=
              (appointments_collection w ++ [a])%list;
            images_collection := images_collection w;
            disk := disk w;
            trace := (trace w ++ [AppointmentInserted (a__id a)])%list |}))
  \/
  (exists message code,
      (code = 400 \/ code = 404)%nat /\
      schedule_appointment now data w = (inr (Message message, code), w)) \/
  (exists e, schedule_appointment now data w = (inl e, w)).
Proof.
  unfold app.schedule_appointment.
  unfold Dict.subscript, appointments_insert_one. py_reduce.
  destruct (negb _); [rejected|].
  destruct (Dict.get data "patientId") as [v|] eqn:Hid; [|raised].
  destruct v as [| | | |pid| |]; try (raised; fail).
  rewrite get_patient_details_str.
  destruct (stored w (upper pid)) as [p|] eqn:Hs; [|rejected].
  destruct (Dict.get data "datetime") as [vd|] eqn:Hd; cbn; [|rejected].
  unfold app.parse.
  destruct vd as [| | | |dt| |]; cbn; try (rejected; fail).
  destruct (parser_parse dt) as [e|d] eqn:Hparse; cbn;
    [rejected|].
  destruct (isoformat d) as [e|iso] eqn:Hiso; cbn; [raised|].
  destruct (Dict.get data "type") as [ty|] eqn:Hty; [|raised].
  unfold appointment_values, app.bson_encode. cbn.
  destruct (bson_error ty) eqn:Hty'; cbn; [raised|].
  left. exists pid, p.
  match goal with
  | |- context [(appointments_collection w ++ [?q])%list] => exists q
  end.
  cbn. split; [reflexivity|]. split; [exact Hs|].
  do 5 (split; [reflexivity|]).
  split; [exists dt, d; repeat split; assumption|].
  split; [reflexivity|]. split; [exact Hty'|]. reflexivity.
Qed.

(** No request writes an appointment for a patient that is not stored. *)
Lemma schedule_appointment_no_write now data w :
  (forall pid, Dict.get data "patientId" = Some (Str pid) ->
               stored w (upper pid) = None) ->
  snd (schedule_appointment now data w) = w.
Proof.
  intros Hs.
  destruct (schedule_appointment_cases now data w)
    as [(pid & p & a & Hid & Hp & _)
       |[(message & code & _ & ->)|(e & ->)]]; [|reflexivity|reflexivity].
  rewrite (Hs pid Hid) in Hp. discriminate.
Qed.

Lemma schedule_appointment_patients now data w :
  patients_collection (snd (schedule_appointment now data w))
  = patients_collection w.
Proof.
  destruct (schedule_appointment_cases now data w)
    as [(pid & p & a & _ & _ & _ & _ & _ & _ & _ & _ & _ & _ & ->)
       |[(message & code & _ & ->)|(e & ->)]]; reflexivity.
Qed.

(** *** [upload_image] *)

Lemma upload_image_accepts now token request w file form_patientId patient :
  Dict.get (files request) "file" = Some file ->
  Dict.get (form request) "patientId" = Some form_patientId ->
  filename file <> "" ->
  stored w (upper (upper form_patientId)) = Some patient ->
  writable (upload_path token file form_patientId)
  = true ->
  upload_image now token request w =
    (inr (Uploaded
            "Image uploaded successfully and sent for AI processing."
            (new_ObjectId (map i__id (images_collection w))) "Processing",
          201%nat),
     after_upload now token file
       form_patientId patient w).
Proof.
  intros Hf Hp Hn Hs Hw. unfold app.upload_image. rewrite Hf, Hp.
  apply String.eqb_neq in Hn. rewrite Hn. py_reduce.
  rewrite get_patient_details_str, Hs.
  unfold file_save, getsize, images_insert_one, images_update_one_by_id.
  py_reduce. unfold app.upload_path, app.upload_name in Hw. rewrite Hw.
  cbn [disk Dict.get]. rewrite String.eqb_refl.
  unfold app.after_upload. cbn. f_equal. f_equal.
  - rewrite IdFacts.update_first_fresh; [reflexivity| |cbn; apply Nat.eqb_refl].
    intros r Hr. apply Nat.eqb_neq.
    pose proof (IdFacts.new_ObjectId_fresh (map i__id (images_collection w))
                  (i__id r) (in_map _ _ _ Hr)). lia.
  - now rewrite <- !app_assoc.
Qed.

Lemma upload_image_accepted_inv now token request w body w' :
  upload_image now token request w = (inr (body, 201%nat), w') ->
  exists file form_patientId patient,
    Dict.get (files request) "file" = Some file /\
    Dict.get (form request) "patientId" = Some form_patientId /\
    filename file <> "" /\
    stored w (upper (upper form_patientId)) = Some patient /\
    writable (upload_path token file form_patientId)
    = true /\
    body = Uploaded
             "Image uploaded successfully and sent for AI processing."
             (new_ObjectId (map i__id (images_collection w))) "Processing"
    /\
    w' = after_upload now token file
           form_patientId patient w.
Proof.
  intros H.
  destruct (Dict.get (files request) "file") as [file|] eqn:Hf;
    [|unfold app.upload_image in H; rewrite Hf in H; discriminate].
  destruct (Dict.get (form request) "patientId") as [pid|] eqn:Hp;
    [|unfold app.upload_image in H; rewrite Hf, Hp in H; discriminate].
  destruct (filename file =? "") eqn:Hn;
    [unfold app.upload_image in H; rewrite Hf, Hp, Hn in H; discriminate|].
  destruct (stored w (upper (upper pid))) as [patient|] eqn:Hs.
  - destruct (writable (upload_path token file pid))
      eqn:Hw.
    + apply String.eqb_neq in Hn.
      rewrite (upload_image_accepts now token request w file pid patient
                 Hf Hp Hn Hs Hw) in H.
      injection H as <- <-.
      exists file, pid, patient. repeat split; assumption.
    + unfold app.upload_image in H. rewrite Hf, Hp, Hn in H.
      unfold bind, Monad_M in H.
      rewrite get_patient_details_str, Hs in H.
      unfold file_save, raise, MonadExc_M in H.
      unfold app.upload_path, app.upload_name in Hw. rewrite Hw in H.
      discriminate.
  - unfold app.upload_image in H. rewrite Hf, Hp, Hn in H.
    unfold bind, Monad_M in H.
    rewrite get_patient_details_str, Hs in H. discriminate.
Qed.

Lemma upload_image_patients now token request w :
  patients_collection (snd (upload_image now token request w))
  = patients_collection w.
Proof.
  unfold app.upload_image.
  destruct (Dict.get (files request) "file") as [file|]; [|reflexivity].
  destruct (Dict.get (form request) "patientId") as [pid|]; [|reflexivity].
  destruct (filename file =? ""); [reflexivity|].
  py_reduce. rewrite get_patient_details_str.
  destruct (stored w _); [|reflexivity].
  unfold file_save, getsize. py_reduce.
  destruct (writable _); [|reflexivity].
  cbn [disk Dict.get]. rewrite String.eqb_refl. reflexivity.
Qed.

(** *** The framework *)

Lemma flask_reply h w body code w' :
  flask h w = (Reply body code, w') <-> h w = (inr (body, code), w').
Proof.
  unfold flask. destruct (h w) as [[e|[b c]] w0]; split; intros H;
    try discriminate; injection H as <- <- <-; reflexivity.
Qed.

Lemma snd_flask h w : snd (flask h w) = snd (h w).
Proof.
  unfold flask. destruct (h w) as [[e|[b c]] w0]; reflexivity.
Qed.

(** *** The invariant on patient identifiers *)

Lemma patients_ok_empty : patients_ok empty_world.
Proof. split; constructor. Qed.

Lemma patients_ok_ext w w' :
  patients_collection w' = patients_collection w ->
  patients_ok w -> patients_ok w'.
Proof. unfold patients_ok. now intros ->. Qed.

Lemma patients_ok_append w w' p :
  patients_collection w' = (patients_collection w ++ [p])%list ->
  stored w (p_neonate_id p) = None ->
  upper (p_neonate_id p) = p_neonate_id p ->
  patients_ok w -> patients_ok w'.
Proof.
  intros E Hs Hu [Hn Hd]. unfold patients_ok. rewrite E. split.
  - apply Forall_app. split; [exact Hn | now constructor].
  - rewrite map_app. cbn [map].
    apply NoDup_incl_NoDup with
      (l := upper (p_neonate_id p)
            :: map (fun q => upper (p_neonate_id q))
                   (patients_collection w)).
    + constructor; [|exact Hd]. intros Hin.
      apply in_map_iff in Hin as (q & Eq & Hq).
      pose proof (find_none _ _ Hs q Hq) as Hne. cbn in Hne.
      apply String.eqb_neq in Hne. apply Hne.
      rewrite Forall_forall in Hn. now rewrite <- (Hn q Hq), Eq.
    + rewrite length_app. cbn. lia.
    + intros x [<-|Hx]; apply in_or_app; [right; now left | now left].
Qed.

Lemma handle_patients_ok rq w :
  Str.idempotent upper ->
  patients_ok w -> patients_ok (snd (handle rq w)).
Proof.
  intros Hi Hok. destruct rq as [now data| |now data|now token request|now];
    cbn [app.handle]; rewrite snd_flask.
  - destruct (add_patient_effect now data w Hi) as [->|(p & Hs & Hu & ->)];
      [exact Hok|].
    eapply patients_ok_append; eauto. reflexivity.
  - exact Hok.
  - eapply patients_ok_ext; [apply schedule_appointment_patients|exact Hok].
  - eapply patients_ok_ext; [apply upload_image_patients|exact Hok].
  - unfold get_images_for_review. py_reduce.
    destruct (_ =? _)%nat; exact Hok.
Qed.

Lemma run_patients_ok history :
  Str.idempotent upper ->
  forall w, patients_ok w -> patients_ok (run history w).
Proof.
  intros Hi.
  induction history as [|rq rest IH]; intros w Hok; cbn; [exact Hok|].
  apply IH. now apply handle_patients_ok.
Qed.

(** *** The review queue *)

Lemma review_list now w :
  exists l,
    handle (GET_images_review now) w = (Reply (ReviewList l) 200%nat, w) /\
    (forall r, In (StoredImage r) l <->
               In r (images_collection w) /\ review_query r = true).
Proof.
  cbn [app.handle]. unfold get_images_for_review, flask. py_reduce.
  destruct (filter review_query (images_collection w)) as [|x rest] eqn:F.
  - cbn. eexists. split; [reflexivity|]. intros r. split.
    + intros [H|[]]. discriminate.
    + intros H. apply filter_In in H. rewrite F in H. destruct H.
  - cbn [length Nat.eqb]. eexists. split; [reflexivity|]. intros r.
    rewrite <- F, <- filter_In, in_map_iff. split.
    + intros (y & [= ->] & Hy). now apply SortFacts.In_sort in Hy.
    + intros H. exists r. split; [reflexivity|].
      now apply SortFacts.In_sort.
Qed.

Lemma after_upload_find now token file form_patientId patient w :
  images_find_by_id (new_ObjectId (map i__id (images_collection w)))
    (after_upload now token file
       form_patientId patient w)
  = Some (set_processed
            (uploaded_record now token file
               form_patientId patient
               (new_ObjectId (map i__id (images_collection w))))).
Proof.
  unfold images_find_by_id, app.after_upload. cbn [images_collection].
  apply IdFacts.find_fresh; [|cbn; apply Nat.eqb_refl].
  intros r Hr. apply Nat.eqb_neq.
  pose proof (IdFacts.new_ObjectId_fresh (map i__id (images_collection w))
                (i__id r) (in_map _ _ _ Hr)). lia.
Qed.


(** *** The properties of the specification *)

(** C1, as amended.  An accepted upload leaves a record whose
    [ai_result.status] is "Pending Review" whatever the label, and whose
    label is the fixed "Low-Risk ROP Stage 1", not a high-risk one.  The
    high-risk labels act in the review listing: it returns a stored record
    exactly when its [ai_result.status] is "Pending Review", its label is
    high-risk and its status is not "Reviewed"; the uploaded record is not
    among them. *)
Theorem upload_marks_pending_review now token request w body w' :
  handle (POST_images_upload now token request) w
  = (Reply body 201%nat, w') ->
  exists message id rec,
    body = Uploaded message id "Processing" /\
    images_find_by_id id w' = Some rec /\
    ai_status (i_ai_result rec) = "Pending Review" /\
    ai_prediction (i_ai_result rec) = "Low-Risk ROP Stage 1" /\
    mem (ai_prediction (i_ai_result rec)) review_labels = false /\
    forall now', exists l,
      handle (GET_images_review now') w'
      = (Reply (ReviewList l) 200%nat, w') /\
      (forall r, In (StoredImage r) l <->
                 In r (images_collection w') /\
                 ai_status (i_ai_result r) = "Pending Review" /\
                 mem (ai_prediction (i_ai_result r)) review_labels = true /\
                 i_status r <> "Reviewed") /\
      ~ In (StoredImage rec) l.
Proof.
  intros H. cbn [app.handle] in H. apply flask_reply in H.
  apply upload_image_accepted_inv in H
    as (file & pid & patient & _ & _ & _ & _ & _ & -> & ->).
  do 3 eexists. split; [reflexivity|].
  split; [apply after_upload_find|].
  do 3 (split; [reflexivity|]).
  intros now'.
  destruct (review_list now' (after_upload now token file pid patient w))
    as (l & Hl & Hin).
  exists l. split; [exact Hl|]. split.
  - intros r. rewrite Hin. unfold review_query.
    rewrite !andb_true_iff, negb_true_iff, String.eqb_eq, String.eqb_neq.
    tauto.
  - intros Hrec. apply Hin in Hrec as [_ Hq]. discriminate.
Qed.

(** Every database the service reaches from an empty one satisfies the
    invariant. *)
Lemma reachable_patients_ok history :
  Str.idempotent upper -> patients_ok (run history empty_world).
Proof. intros Hi. apply run_patients_ok, patients_ok_empty. exact Hi. Qed.

Lemma add_patient_duplicate_no_write now data nid w q :
  Dict.get data "neonate_id" = Some (Str nid) ->
  stored w (upper nid) = Some q ->
  snd (add_patient now data w) = w.
Proof.
  intros Hid Hq.
  destruct (all_present patient_required_fields data) eqn:Hall.
  - now rewrite (add_patient_conflict now data nid w q Hall Hid Hq).
  - now rewrite (add_patient_missing now data w Hall).
Qed.

(** C6, as amended.  In a database whose stored identifiers are in upper
    case and pairwise different, a valid creation request with an
    identifier not yet stored is answered 201 and the patient is in the
    listing afterwards.  A creation request whose identifier equals a
    stored one up to letter case writes nothing; it is answered 409 when
    it carries the required fields, and 400 when it lacks one.  Every
    request leaves the stored identifiers in upper case and pairwise
    different. *)
Theorem patient_ids_unique w :
  Str.idempotent upper ->
  patients_ok w ->
  (forall now data nid,
      valid_patient_request data = true ->
      Dict.get data "neonate_id" = Some (Str nid) ->
      unknown_patient w nid ->
      exists id w' p l,
        handle (POST_patients now data) w
        = (Reply (Created "Patient record created successfully." id)
                 201%nat, w') /\
        handle GET_patients w' = (Reply (PatientList l) 200%nat, w') /\
        In p l /\
        p__id p = id /\
        p_neonate_id p = upper nid /\
        p_name p = Dict.get_or_null data "name" /\
        p_parent_name p = Dict.get_or_null data "parent_name" /\
        p_created_at p = now) /\
  (forall now data nid p,
      Dict.get data "neonate_id" = Some (Str nid) ->
      In p (patients_collection w) ->
      eq_nocase nid (p_neonate_id p) ->
      snd (handle (POST_patients now data) w) = w /\
      (all_present patient_required_fields data = true ->
       handle (POST_patients now data) w
       = (Reply (Message ("Patient ID " ++ nid ++ " already exists."))
                409%nat, w)) /\
      (all_present patient_required_fields data = false ->
       handle (POST_patients now data) w
       = (Reply (Message "Missing required patient fields.") 400%nat, w))) /\
  (forall rq, patients_ok (snd (handle rq w))).
Proof.
  intros Hi Hok. split; [|split].
  - intros now data nid Hv Hid Hu.
    destruct (add_patient_creates now data nid w Hv Hid
                (stored_unknown w nid Hi Hu)) as (iso & _ & Hc).
    cbv zeta in Hc.
    do 2 eexists.
    exists (patient_of now data nid iso
              (new_ObjectId (map p__id (patients_collection w)))).
    eexists. split; [|split; [|split]].
    + cbn [app.handle]. apply flask_reply. exact Hc.
    + reflexivity.
    + apply SortFacts.In_sort. cbn [patients_collection].
      apply in_or_app. right. now left.
    + repeat split.
  - intros now data nid p Hid Hin Heq.
    destruct (stored_known w p nid (proj1 Hok) Hin Heq) as (q & Hq).
    cbn [app.handle]. split; [|split].
    + rewrite snd_flask.
      now apply add_patient_duplicate_no_write with (nid := nid) (q := q).
    + intros Hall. apply flask_reply.
      now apply add_patient_conflict with (q := q).
    + intros Hall. apply flask_reply. now apply add_patient_missing.
  - intros rq. now apply handle_patients_ok.
Qed.

(** C7, as amended.  A scheduling request that carries the three required
    fields, with a string as [patientId] that matches no stored patient up
    to letter case, is answered 404 and changes nothing; a request that
    lacks one of the three fields is answered 400, whether the patient is
    stored or not, since the fields are checked before the patient is
    looked up; and no request whose [patientId] matches no stored patient
    writes anything. *)
Theorem appointment_unknown_patient w now data :
  Str.idempotent upper ->
  (forall pid,
      all_present appointment_required_fields data = true ->
      Dict.get data "patientId" = Some (Str pid) ->
      unknown_patient w pid ->
      handle (POST_appointments now data) w
      = (Reply (Message ("Patient ID " ++ pid ++ " not found."))
               404%nat, w)) /\
  (all_present appointment_required_fields data = false ->
   handle (POST_appointments now data) w
   = (Reply (Message
        "Missing required appointment fields (patientId, datetime, type).")
        400%nat, w)) /\
  ((forall pid, Dict.get data "patientId" = Some (Str pid) ->
                unknown_patient w pid) ->
   snd (handle (POST_appointments now data) w) = w).
Proof.
  intros Hi. split; [|split].
  - intros pid Hall Hid Hu. cbn [app.handle]. apply flask_reply.
    apply schedule_appointment_unknown; auto using stored_unknown.
  - intros Hall. cbn [app.handle]. apply flask_reply.
    now apply schedule_appointment_missing.
  - intros Hu. cbn [app.handle]. rewrite snd_flask.
    apply schedule_appointment_no_write.
    intros pid Hid. apply stored_unknown; [exact Hi|]. now apply Hu.
Qed.


(** C9.  The body of an accepted upload's answer reports the status
    "Processing", while the record stored by then has status "Processed"
    and [ai_result.status] "Pending Review". *)
Theorem upload_reply_is_stale now token request w body w' :
  handle (POST_images_upload now token request) w
  = (Reply body 201%nat, w') ->
  exists message id rec,
    body = Uploaded message id "Processing" /\
    images_find_by_id id w' = Some rec /\
    i_status rec = "Processed" /\
    ai_status (i_ai_result rec) = "Pending Review" /\
    "Processing" <> ai_status (i_ai_result rec).
Proof.
  intros H. cbn [app.handle] in H. apply flask_reply in H.
  apply upload_image_accepted_inv in H
    as (file & pid & patient & _ & _ & _ & _ & _ & -> & ->).
  do 3 eexists. split; [reflexivity|].
  split; [apply after_upload_find|].
  repeat split. discriminate.
Qed.

End HandlerFacts.

(** *** The handlers on concrete requests *)

Module HandlerExamples.

Import Json app.

(** A fact of the handlers at the stand-ins of [Scenario]. *)
#[local] Notation "'in_scenario' fact" :=
  (fact Str.upper Scenario.Datetime Scenario.parser_parse Scenario.isoformat
        Scenario.float_of_str Scenario.nearest_double Scenario.bson_error
        Scenario.splitext Scenario.path_join Scenario.writable
        Scenario.format_mb)
  (at level 10, fact at level 9).

Lemma upper_idempotent : Str.idempotent Str.upper.
Proof. exact StrFacts.upper_idem. Defined.

Lemma upper_on_ascii : Str.upper_on_ascii Str.upper.
Proof. intros s _. reflexivity. Defined.

(** The stand-in for [os.path.join] on a name without a slash. *)
Lemma scenario_join n :
  Str.contains n "/" = false ->
  Scenario.path_join UPLOAD_FOLDER n = UPLOAD_FOLDER ++ "/" ++ n.
Proof.
  destruct n as [|c n]; [reflexivity|]. cbn [Str.contains].
  destruct c as [[] [] [] [] [] [] [] []]; try reflexivity.
  discriminate.
Defined.

Lemma one_patient_ok : Scenario.patients_ok Scenario.one_patient.
Proof.
  split; cbn.
  - repeat constructor.
  - repeat constructor. intros [].
Defined.

Lemma upload_fundus_accepted :
  Scenario.handle Scenario.upload_fundus Scenario.one_patient
  = (Reply (Uploaded Scenario.upload_message 1%nat "Processing") 201%nat,
     Scenario.after_upload).
Proof. reflexivity. Defined.

(** C1 as stated fails: the stored record is "Pending Review" although
    its label is not one of the high-risk labels. *)
Lemma low_risk_upload_is_pending_review :
  exists rec,
    status_code (fst (Scenario.handle Scenario.upload_fundus
                        Scenario.one_patient)) = 201%nat /\
    images_find_by_id 1%nat Scenario.after_upload = Some rec /\
    ai_status (i_ai_result rec) = "Pending Review" /\
    ai_prediction (i_ai_result rec) = "Low-Risk ROP Stage 1" /\
    mem (ai_prediction (i_ai_result rec)) review_labels = false.
Proof.
  eexists. repeat split.
Qed.

Lemma upload_marks_pending_review_witness :
  exists message id rec,
    Uploaded Scenario.upload_message 1%nat "Processing"
    = Uploaded message id "Processing" /\
    images_find_by_id id Scenario.after_upload = Some rec /\
    ai_status (i_ai_result rec) = "Pending Review" /\
    ai_prediction (i_ai_result rec) = "Low-Risk ROP Stage 1" /\
    mem (ai_prediction (i_ai_result rec)) review_labels = false /\
    forall now', exists l,
      Scenario.handle (GET_images_review now') Scenario.after_upload
      = (Reply (ReviewList l) 200%nat, Scenario.after_upload) /\
      (forall r, In (StoredImage r) l <->
                 In r (images_collection Scenario.after_upload) /\
                 ai_status (i_ai_result r) = "Pending Review" /\
                 mem (ai_prediction (i_ai_result r)) review_labels = true /\
                 i_status r <> "Reviewed") /\
      ~ In (StoredImage rec) l.
Proof.
  exact (in_scenario upload_marks_pending_review
           "2024-09-03T10:00:00" "3f2a9c" Scenario.fundus
           Scenario.one_patient _ _ upload_fundus_accepted).
Defined.

(** C6 as stated fails: a repeat of a stored identifier that lacks the
    required fields is answered 400, not 409. *)
Lemma repeat_without_fields_is_400 :
  In Scenario.doe_record (patients_collection Scenario.one_patient) /\
  eq_nocase Str.upper "n001" (p_neonate_id Scenario.doe_record) /\
  Dict.get Scenario.bare_repeat "neonate_id" = Some (Str "n001") /\
  Scenario.handle (POST_patients "2024-09-04T08:00:00" Scenario.bare_repeat)
                  Scenario.one_patient
  = (Reply (Message "Missing required patient fields.") 400%nat,
     Scenario.one_patient).
Proof.
  split; [now left|]. repeat split.
Qed.

Lemma patient_ids_unique_witness :
  Scenario.patients_ok Scenario.one_patient /\
  Scenario.handle (POST_patients "2024-09-04T08:00:00"
                                 Scenario.baby_doe_again)
                  Scenario.one_patient
  = (Reply (Message "Patient ID N001 already exists.") 409%nat,
     Scenario.one_patient) /\
  Scenario.handle (POST_patients "2024-09-04T08:00:00" Scenario.bare_repeat)
                  Scenario.one_patient
  = (Reply (Message "Missing required patient fields.") 400%nat,
     Scenario.one_patient) /\
  exists id w' p l,
    Scenario.handle (POST_patients "2024-09-02T08:00:00" Scenario.baby_doe)
                    empty_world
    = (Reply (Created "Patient record created successfully." id) 201%nat,
       w') /\
    Scenario.handle GET_patients w' = (Reply (PatientList l) 200%nat, w') /\
    In p l /\ p__id p = id /\ p_neonate_id p = "N001" /\
    p_name p = Str "Baby Doe" /\ p_parent_name p = Str "John Doe" /\
    p_created_at p = "2024-09-02T08:00:00".
Proof.
  split; [exact one_patient_ok|].
  destruct (in_scenario patient_ids_unique Scenario.one_patient
              upper_idempotent one_patient_ok) as (_ & Hdup & _).
  destruct (in_scenario patient_ids_unique empty_world
              upper_idempotent (patients_ok_empty Str.upper))
    as (Hnew & _ & _).
  split; [|split].
  - exact (proj1 (proj2
      (Hdup "2024-09-04T08:00:00" Scenario.baby_doe_again "N001"
            Scenario.doe_record eq_refl (or_introl eq_refl) eq_refl))
      eq_refl).
  - exact (proj2 (proj2
      (Hdup "2024-09-04T08:00:00" Scenario.bare_repeat "n001"
            Scenario.doe_record eq_refl (or_introl eq_refl) eq_refl))
      eq_refl).
  - refine (Hnew "2024-09-02T08:00:00" Scenario.baby_doe "n001"
                 eq_refl eq_refl _).
    intros p [].
Defined.

(** C7 as stated fails: an unknown patient and a missing field give 400. *)
Lemma unknown_patient_missing_fields :
  Scenario.unknown_patient Scenario.one_patient "zz99" /\
  Scenario.handle (POST_appointments "2024-09-05T08:00:00"
                                     [("patientId", Str "zz99")])
                  Scenario.one_patient
  = (Reply (Message
       "Missing required appointment fields (patientId, datetime, type).")
       400%nat, Scenario.one_patient).
Proof.
  split; [|reflexivity].
  intros p [<-|[]]. cbv. discriminate.
Qed.

Lemma appointment_unknown_patient_witness :
  Scenario.unknown_patient Scenario.one_patient "zz99" /\
  Scenario.handle (POST_appointments "2024-09-05T08:00:00"
                                     (Scenario.visit "zz99"))
                  Scenario.one_patient
  = (Reply (Message "Patient ID zz99 not found.") 404%nat,
     Scenario.one_patient) /\
  Scenario.handle (POST_appointments "2024-09-05T08:00:00"
                                     [("patientId", Str "n001")])
                  Scenario.one_patient
  = (Reply (Message
       "Missing required appointment fields (patientId, datetime, type).")
       400%nat, Scenario.one_patient).
Proof.
  assert (Hu : Scenario.unknown_patient Scenario.one_patient "zz99")
    by (intros p [<-|[]]; cbv; discriminate).
  split; [exact Hu|]. split.
  - exact (proj1
      (in_scenario appointment_unknown_patient Scenario.one_patient
         "2024-09-05T08:00:00" (Scenario.visit "zz99") upper_idempotent)
      "zz99" eq_refl eq_refl Hu).
  - exact (proj1 (proj2
      (in_scenario appointment_unknown_patient Scenario.one_patient
         "2024-09-05T08:00:00" [("patientId", Str "n001")]
         upper_idempotent))
      eq_refl).
Defined.



Lemma upload_reply_is_stale_witness :
  exists message id rec,
    Uploaded Scenario.upload_message 1%nat "Processing"
    = Uploaded message id "Processing" /\
    images_find_by_id id Scenario.after_upload = Some rec /\
    i_status rec = "Processed" /\
    ai_status (i_ai_result rec) = "Pending Review" /\
    "Processing" <> ai_status (i_ai_result rec).
Proof.
  exact (in_scenario upload_reply_is_stale
           "2024-09-03T10:00:00" "3f2a9c" Scenario.fundus
           Scenario.one_patient _ _ upload_fundus_accepted).
Defined.

End HandlerExamples.

(* ------------------------------------------------------------------ *)
(** ** More facts: order on strings, sorted listings *)

Module OrderFacts.

Lemma ascii_compare_lt_trans a b c :
  Ascii.compare a b = Lt -> Ascii.compare b c = Lt ->
  Ascii.compare a c = Lt.
Proof.
  unfold Ascii.compare. rewrite !N.compare_lt_iff. lia.
Qed.

Lemma compare_lt_trans a : forall b c,
    String.compare a b = Lt -> String.compare b c = Lt ->
    String.compare a c = Lt.
Proof.
  induction a as [|x a IH]; intros [|y b] [|z c]; cbn; try congruence.
  destruct (Ascii.compare x y) eqn:Hxy; try discriminate;
    destruct (Ascii.compare y z) eqn:Hyz; try discriminate; intros H1 H2.
  - apply Ascii.compare_eq_iff in Hxy, Hyz. subst.
    rewrite (proj2 (N.compare_eq_iff _ _) eq_refl : Ascii.compare z z = Eq).
    eauto.
  - apply Ascii.compare_eq_iff in Hxy. subst. now rewrite Hyz.
  - apply Ascii.compare_eq_iff in Hyz. subst. now rewrite Hxy.
  - now rewrite (ascii_compare_lt_trans _ _ _ Hxy Hyz).
Qed.

Lemma compare_refl a : String.compare a a = Eq.
Proof.
  induction a as [|x a IH]; cbn; [reflexivity|].
  now rewrite (proj2 (N.compare_eq_iff _ _) eq_refl : Ascii.compare x x = Eq).
Qed.

Lemma leb_cases a b :
  String.leb a b = true <-> String.compare a b = Lt \/ a = b.
Proof.
  unfold String.leb. split.
  - destruct (String.compare a b) eqn:E; try discriminate; intros _.
    + right. now apply String.compare_eq_iff.
    + now left.
  - intros [->| ->]; [reflexivity|]. now rewrite compare_refl.
Qed.

Lemma leb_trans a b c :
  String.leb a b = true -> String.leb b c = true -> String.leb a c = true.
Proof.
  rewrite !leb_cases. intros [H1| ->] [H2| ->]; auto.
  left. eapply compare_lt_trans; eauto.
Qed.

Lemma ltb_leb_false a b : String.ltb a b = true -> String.leb b a = false.
Proof.
  unfold String.ltb, String.leb. rewrite (String.compare_antisym b a).
  destruct (String.compare a b); cbn; congruence.
Qed.

End OrderFacts.

Module SortedFacts.

Section Insertion.

Variable A : Type.
Variable le : A -> A -> bool.
Hypothesis le_total : forall x y, le x y = true \/ le y x = true.

#[local] Abbreviation R := (fun x y : A => le x y = true).

Lemma insert_hd x l a :
  HdRel R a l -> R a x -> HdRel R a (Sort.insert le x l).
Proof.
  intros Hl Hx. destruct l as [|y r]; cbn; [now constructor|].
  destruct (le x y); constructor; [exact Hx|].
  now inversion Hl.
Qed.

Lemma insert_sorted x l : Sorted R l -> Sorted R (Sort.insert le x l).
Proof.
  induction 1 as [|y r Hs IH Hh]; cbn; [repeat constructor|].
  destruct (le x y) eqn:E.
  - constructor; [now constructor|]. now constructor.
  - constructor; [exact IH|]. apply insert_hd; [exact Hh|].
    destruct (le_total x y) as [H|H]; [congruence | exact H].
Qed.

Lemma sort_sorted l : Sorted R (Sort.sort le l).
Proof.
  induction l as [|x r IH]; cbn; [constructor|].
  now apply insert_sorted.
Qed.

Hypothesis le_trans :
  forall x y z, le x y = true -> le y z = true -> le x z = true.

Lemma sort_strongly_sorted l : StronglySorted R (Sort.sort le l).
Proof.
  apply Sorted_StronglySorted; [|apply sort_sorted].
  intros x y z. apply le_trans.
Qed.

(** In a sorted list every element of a prefix is before every element
    of the rest. *)
Lemma strongly_sorted_split l1 : forall l2 a b,
    StronglySorted R (l1 ++ l2) -> In a l1 -> In b l2 -> R a b.
Proof.
  induction l1 as [|x r IH]; intros l2 a b Hs Ha Hb; [destruct Ha|].
  cbn in Hs. apply StronglySorted_inv in Hs as [Hs Hall].
  destruct Ha as [->|Ha].
  - rewrite Forall_forall in Hall. apply Hall.
    apply in_or_app. now right.
  - eapply IH; eauto.
Qed.

(** An element that no other is before goes to the front. *)
Lemma sort_snoc_front l x :
  (forall y, In y l -> le y x = false) ->
  Sort.sort le (l ++ [x]) = x :: Sort.sort le l.
Proof.
  intros H. unfold Sort.sort. rewrite fold_right_app. cbn.
  induction l as [|y r IH]; cbn; [reflexivity|].
  rewrite IH by (intros z Hz; apply H; now right).
  cbn. now rewrite (H y (or_introl eq_refl)).
Qed.

End Insertion.

Lemma sorted_firstn {A} (R : A -> A -> Prop) n : forall l,
    Sorted R l -> Sorted R (firstn n l).
Proof.
  induction n as [|n IH]; intros l Hs; cbn; [constructor|].
  destruct l as [|x r]; [constructor|].
  apply Sorted_inv in Hs as [Hs Hh]. constructor; [now apply IH|].
  destruct r as [|y r]; destruct n; cbn; constructor.
  now inversion Hh.
Qed.

End SortedFacts.

(* ------------------------------------------------------------------ *)
(** ** More facts about the inference pipeline *)

Section PipelineMore.

Variables Model Image Tensor : Type.
Variable keras_load_model : string -> nat -> Exc Model.
Variable Image_open : list Byte.byte -> Exc Image.
Variable Image_convert : Image -> string -> Exc Image.
Variable Image_resize : Image -> nat * nat -> Exc Image.
Variable np_array : Image -> Exc Tensor.
Variable np_divide : Tensor -> Q -> Exc Tensor.
Variable np_expand_dims : Tensor -> nat -> Exc Tensor.
Variable predict : Model -> Tensor -> Exc (list (list Float.t)).

Import ai_service.

#[local] Abbreviation load_model := (load_model keras_load_model).
#[local] Abbreviation preprocess_image :=
  (preprocess_image Image_open Image_convert Image_resize np_array
     np_divide np_expand_dims).
#[local] Abbreviation classify := (classify predict).
#[local] Abbreviation run_inference :=
  (run_inference keras_load_model Image_open Image_convert Image_resize
     np_array np_divide np_expand_dims predict).
#[local] Abbreviation serve :=
  (serve keras_load_model Image_open Image_convert Image_resize
     np_array np_divide np_expand_dims predict).

(** X1.  [run_inference] raises on no input and in no state of the
    process: it returns one of the three failure dictionaries, each with
    probability 0, or a "processed" dictionary whose label is one of the
    four class labels. *)
Theorem run_inference_result_shapes image_bytes (p : Proc Model) :
  exists r,
    fst (run_inference image_bytes p) = inr r /\
    (r = model_error \/ r = preprocessing_error \/
     r = inference_exception \/
     (status r = "processed" /\ In (prediction r) class_labels)).
Proof.
  destruct (load_model_returns _ keras_load_model p)
    as (v & p' & Hl & _ & Hv & _).
  destruct v as [| |m]; [congruence| |].
  - exists model_error. split; [|now left].
    now rewrite (run_inference_unavailable _ _ _ keras_load_model Image_open
                   Image_convert Image_resize np_array np_divide
                   np_expand_dims predict image_bytes p p' Hl).
  - destruct (preprocess_image_returns _ _ Image_open Image_convert
                Image_resize np_array np_divide np_expand_dims image_bytes)
      as ([t|] & Hp).
    + rewrite (run_inference_classifies _ _ _ keras_load_model Image_open
                 Image_convert Image_resize np_array np_divide
                 np_expand_dims predict image_bytes p p' m t Hl Hp).
      cbn [fst]. destruct (classify m t) as [e|r] eqn:Hc.
      * exists inference_exception. split; [reflexivity|]. auto.
      * exists r. split; [reflexivity|]. do 3 right.
        destruct (classify_inv _ _ predict m t r Hc)
          as (preds & indices & i & mx & label & _ & _ & _ & _ & H5 & ->).
        split; [reflexivity|]. cbn [prediction].
        unfold getitem in H5.
        destruct (nth_error class_labels i) eqn:En; [|discriminate].
        injection H5 as <-. eapply nth_error_In; eauto.
    + exists preprocessing_error. split; [|auto].
      now rewrite (run_inference_no_input _ _ _ keras_load_model Image_open
                     Image_convert Image_resize np_array np_divide
                     np_expand_dims predict image_bytes p p' m Hl Hp).
Qed.

(** X2.  A load that succeeds is cached as well: the global holds the
    model, and however many requests follow, the loader is not called
    again and every request is answered with that model. *)
Theorem successful_load_is_cached (p : Proc Model) m requests :
  model p = PyNone _ ->
  keras_load_model MODEL_PATH (length (load_log p)) = inr m ->
  let p1 := snd (load_model p) in
  model p1 = Loaded m /\
  load_log p1 = (load_log p ++ [true])%list /\
  serve requests p1
  = (map (fun image_bytes => fst (run_inference image_bytes p1)) requests,
     p1).
Proof.
  intros Hn Hk.
  rewrite (load_model_first_ok _ keras_load_model p m Hn Hk).
  cbn [snd model load_log]. split; [reflexivity|]. split; [reflexivity|].
  set (p1 := {| model := Loaded m; load_log := (load_log p ++ [true])%list |}).
  assert (Hp1 : model p1 <> PyNone _) by (cbn; congruence).
  induction requests as [|b rest IH]; [reflexivity|].
  rewrite (serve_cons _ _ _ keras_load_model Image_open Image_convert
             Image_resize np_array np_divide np_expand_dims predict).
  destruct (run_inference_returns _ _ _ keras_load_model Image_open
              Image_convert Image_resize np_array np_divide np_expand_dims
              predict b p1) as (r & Hr).
  rewrite (load_model_cached _ keras_load_model p1 Hp1) in Hr.
  cbn [snd] in Hr. rewrite Hr. cbn [fst snd map].
  rewrite IH. cbn [fst snd]. now rewrite Hr.
Qed.

(** X3.  [load_model] is idempotent: a second call returns what the first
    returned and leaves the process as the first left it. *)
Theorem load_model_idempotent (p : Proc Model) :
  load_model (snd (load_model p)) = (fst (load_model p), snd (load_model p)).
Proof.
  destruct (load_model_returns _ keras_load_model p)
    as (v & p' & Hl & Hv & Hne & _).
  rewrite Hl. cbn [fst snd].
  rewrite load_model_cached by congruence. now rewrite Hv.
Qed.

(** X4.  With the model loaded and the image preprocessed, a prediction
    that raises, that has no row, or whose first row is empty is answered
    "Inference Exception". *)
Theorem run_inference_degenerate_prediction image_bytes (p : Proc Model)
        m t :
  fst (load_model p) = inr (Loaded m) ->
  preprocess_image image_bytes = inr (Some t) ->
  (exists e, predict m t = inl e) \/
  predict m t = inr [] \/
  (exists rest, predict m t = inr ([] :: rest)) ->
  fst (run_inference image_bytes p) = inr inference_exception.
Proof.
  intros Hm Hp Hd.
  destruct (load_model p) as [v p'] eqn:Hl. cbn in Hm. subst v.
  rewrite (run_inference_classifies _ _ _ keras_load_model Image_open
             Image_convert Image_resize np_array np_divide
             np_expand_dims predict image_bytes p p' m t Hl Hp).
  cbn [fst]. unfold ai_service.classify. py_reduce.
  destruct Hd as [(e & ->)|[->|(rest & ->)]]; reflexivity.
Qed.


(** X28.  A NaN among the scores of the first row is taken for the
    greatest: when the first NaN sits at an index of the label list, the
    answer is "processed" with the label of that index and the
    probability NaN. *)
Theorem nan_score_is_processed image_bytes (p : Proc Model)
        m t row rest i :
  fst (load_model p) = inr (Loaded m) ->
  preprocess_image image_bytes = inr (Some t) ->
  predict m t = inr (row :: rest) ->
  Forall (fun r => r <> []) rest ->
  Np.is_first_nan row i ->
  (i < length class_labels)%nat ->
  fst (run_inference image_bytes p) =
    inr {| prediction := nth i class_labels "";
           probability := Float.NaN;
           status := "processed" |}.
Proof.
  intros Hm Hp Hpred Hrest Hi Hlt.
  destruct (load_model p) as [v p'] eqn:Hl. cbn in Hm. subst v.
  rewrite (run_inference_classifies _ _ _ keras_load_model Image_open
             Image_convert Image_resize np_array np_divide
             np_expand_dims predict image_bytes p p' m t Hl Hp).
  cbn [fst].
  destruct (classify_rows _ _ predict m t row rest i Hpred
              (NpFacts.argmax_row_first_nan _ _ Hi) Hrest)
    as (mx & Hmx & ->).
  assert (Hnan : mx = Float.NaN).
  { apply (NpFacts.max_nan _ _ Hmx). cbn [concat]. apply in_or_app. left.
    destruct Hi as (Hi & _). now apply nth_error_In in Hi. }
  subst mx. unfold getitem.
  destruct (nth_error class_labels i) as [label|] eqn:En;
    [|apply nth_error_None in En; lia].
  py_reduce. cbn [Np.round]. now rewrite (nth_error_nth _ _ "" En).
Qed.

End PipelineMore.

(* ------------------------------------------------------------------ *)
(** ** More facts about the request handlers *)

Section HandlerMore.

Variable upper : string -> string.
Variable Datetime : Type.
Variable parser_parse : string -> Exc Datetime.
Variable isoformat : Datetime -> Exc string.
Variable float_of_str : string -> Exc Float.t.
Variable nearest_double : Z -> Q.
Variable bson_error : Json.t -> option Exn.
Variable splitext : string -> string * string.
Variable path_join : string -> string -> string.
Variable writable : string -> bool.
Variable format_mb : nat -> string.
Variable isdir : string -> bool.
Variable send_file :
  string -> app.World -> Exc (app_views.ImageBody * nat).

Import Json app app_views.

#[local] Abbreviation parse := (parse parser_parse).
#[local] Abbreviation parse_isoformat :=
  (parse_isoformat parser_parse isoformat).
#[local] Abbreviation add_patient :=
  (add_patient upper parser_parse isoformat float_of_str nearest_double
     bson_error).
#[local] Abbreviation schedule_appointment :=
  (schedule_appointment upper parser_parse isoformat bson_error).
#[local] Abbreviation upload_image :=
  (upload_image upper splitext path_join writable format_mb).
#[local] Abbreviation handle :=
  (handle upper parser_parse isoformat float_of_str nearest_double
     bson_error splitext path_join writable format_mb).
#[local] Abbreviation run :=
  (run upper parser_parse isoformat float_of_str nearest_double
     bson_error splitext path_join writable format_mb).
#[local] Abbreviation upload_path := (upload_path upper splitext path_join).
#[local] Abbreviation after_upload :=
  (after_upload upper splitext path_join format_mb).
#[local] Abbreviation image_route :=
  (image_route path_join isdir send_file).

(** *** What each writing handler can do *)

Ltac rejected :=
  right; left; do 2 eexists; (split; [|reflexivity]); auto.
Ltac raised := right; right; eexists; reflexivity.

Lemma upload_image_cases now token request w :
  (exists file form_patientId patient,
      Dict.get (files request) "file" = Some file /\
      Dict.get (form request) "patientId" = Some form_patientId /\
      filename file <> "" /\
      stored w (upper (upper form_patientId)) = Some patient /\
      upload_image now token request w =
        (inr (Uploaded
                "Image uploaded successfully and sent for AI processing."
                (new_ObjectId (map i__id (images_collection w)))
                "Processing", 201%nat),
         after_upload now token file form_patientId patient w)) \/
  (exists message code,
      (code = 400 \/ code = 404)%nat /\
      upload_image now token request w = (inr (Message message, code), w))
  \/
  (exists e, upload_image now token request w = (inl e, w)).
Proof.
  destruct (Dict.get (files request) "file") as [file|] eqn:Hf;
    [|unfold app.upload_image; rewrite Hf; rejected].
  destruct (Dict.get (form request) "patientId") as [pid|] eqn:Hp;
    [|unfold app.upload_image; rewrite Hf, Hp; rejected].
  destruct (filename file =? "") eqn:Hn;
    [unfold app.upload_image; rewrite Hf, Hp, Hn; rejected|].
  destruct (stored w (upper (upper pid))) as [patient|] eqn:Hs.
  - destruct (writable (upload_path token file pid))
      eqn:Hw.
    + left. exists file, pid, patient. apply String.eqb_neq in Hn.
      repeat split; try assumption.
      now apply upload_image_accepts.
    + unfold app.upload_image. rewrite Hf, Hp, Hn.
      py_reduce. rewrite get_patient_details_str, Hs.
      unfold file_save. py_reduce.
      unfold app.upload_path, app.upload_name in Hw. rewrite Hw. raised.
  - unfold app.upload_image. rewrite Hf, Hp, Hn.
    py_reduce. rewrite get_patient_details_str, Hs. rejected.
Qed.

(** The four things a request can do to the database. *)
Lemma handle_cases rq w :
  (status_code (fst (handle rq w)) <> 201%nat /\ snd (handle rq w) = w) \/
  (status_code (fst (handle rq w)) = 201%nat /\
   exists nid p,
     stored w (upper nid) = None /\
     p_neonate_id p = upper nid /\
     snd (handle rq w) =
       {| patients_collection := (patients_collection w ++ [p])%list;
          appointments_collection := appointments_collection w;
          images_collection := images_collection w;
          disk := disk w;
          trace := (trace w ++ [PatientInserted (p__id p)])%list |}) \/
  (status_code (fst (handle rq w)) = 201%nat /\
   exists pid p a,
     stored w (upper pid) = Some p /\
     a_patientId a = p_neonate_id p /\
     snd (handle rq w) =
       {| patients_collection := patients_collection w;
          appointments_collection :=
            (appointments_collection w ++ [a])%list;
          images_collection := images_collection w;
          disk := disk w;
          trace := (trace w ++ [AppointmentInserted (a__id a)])%list |}) \/
  (status_code (fst (handle rq w)) = 201%nat /\
   exists now token file form_patientId patient,
     stored w (upper (upper form_patientId)) = Some patient /\
     snd (handle rq w) =
       after_upload now token file form_patientId patient w).
Proof.
  destruct rq as [now data| |now data|now token request|now];
    cbn [app.handle]; unfold flask.
  - destruct (add_patient_cases upper _ parser_parse isoformat float_of_str
                nearest_double bson_error now data w)
      as [(nid & p & _ & Hs & Hp & _ & _ & _ & _ & ->)
         |[(message & code & Hc & ->)|(e & ->)]]; cbn.
    + right; left. split; [reflexivity|]. exists nid, p. auto.
    + left. split; [destruct Hc; subst; discriminate | reflexivity].
    + left. split; [discriminate | reflexivity].
  - left. split; [discriminate | reflexivity].
  - destruct (schedule_appointment_cases upper _ parser_parse isoformat
                bson_error now data w)
      as [(pid & p & a & _ & Hs & _ & Ha & _ & _ & _ & _ & _ & _ & ->)
         |[(message & code & Hc & ->)|(e & ->)]]; cbn.
    + right; right; left. split; [reflexivity|]. exists pid, p, a. auto.
    + left. split; [destruct Hc; subst; discriminate | reflexivity].
    + left. split; [discriminate | reflexivity].
  - destruct (upload_image_cases now token request w)
      as [(file & pid & patient & _ & _ & _ & Hs & ->)
         |[(message & code & Hc & ->)|(e & ->)]]; cbn.
    + do 3 right. split; [reflexivity|].
      exists now, token, file, pid, patient. auto.
    + left. split; [destruct Hc; subst; discriminate | reflexivity].
    + left. split; [discriminate | reflexivity].
  - left. unfold get_images_for_review. py_reduce.
    destruct (_ =? _)%nat; cbn; split; (discriminate || reflexivity).
Qed.

Lemma stored_In w key p :
  stored w key = Some p ->
  In p (patients_collection w) /\ p_neonate_id p = key.
Proof.
  intros H. apply find_some in H as [Hin Heq].
  split; [exact Hin|]. now apply String.eqb_eq.
Qed.

(** *** Rejected requests, and what no request does *)

(** X6.  A request that is not answered 201 changes nothing: no document
    is written and no file is saved. *)
Theorem rejected_request_changes_nothing rq w :
  status_code (fst (handle rq w)) <> 201%nat ->
  snd (handle rq w) = w.
Proof.
  intros H.
  destruct (handle_cases rq w)
    as [[_ Hw]|[[Hc _]|[[Hc _]|[Hc _]]]]; congruence.
Qed.

Lemma grows_refl w : grows w w.
Proof.
  repeat split; try (exists []; now rewrite app_nil_r). auto.
Qed.

Lemma grows_trans w1 w2 w3 : grows w1 w2 -> grows w2 w3 -> grows w1 w3.
Proof.
  intros ((l1 & H1) & (l2 & H2) & (l3 & H3) & H4)
         ((m1 & G1) & (m2 & G2) & (m3 & G3) & G4).
  repeat split.
  - exists (l1 ++ m1)%list. now rewrite G1, H1, app_assoc.
  - exists (l2 ++ m2)%list. now rewrite G2, H2, app_assoc.
  - exists (l3 ++ m3)%list. now rewrite G3, H3, app_assoc.
  - auto.
Qed.

Lemma handle_grows rq w : grows w (snd (handle rq w)).
Proof.
  destruct (handle_cases rq w)
    as [[_ ->]
       |[[_ (nid & p & _ & _ & ->)]
        |[[_ (pid & p & a & _ & _ & ->)]
         |[_ (now & token & file & fp & patient & _ & ->)]]]].
  - apply grows_refl.
  - repeat split; cbn; try (exists []; now rewrite app_nil_r); eauto.
  - repeat split; cbn; try (exists []; now rewrite app_nil_r); eauto.
  - unfold app.after_upload. repeat split; cbn [patients_collection
      appointments_collection images_collection disk];
      try (exists []; now rewrite app_nil_r); eauto.
    intros k Hk. unfold Dict.contains in *. cbn [Dict.get].
    destruct (_ =? k); [reflexivity | exact Hk].
Qed.

(** X7.  No sequence of requests removes or rewrites a stored patient,
    appointment or image, or removes a file: the collections only grow at
    the end. *)
Theorem nothing_is_removed history : forall w, grows w (run history w).
Proof.
  induction history as [|rq rest IH]; intros w; cbn [app.run].
  - apply grows_refl.
  - eapply grows_trans; [apply handle_grows | apply IH].
Qed.

(** *** Invariants of the stored documents *)

Lemma references_ok_empty : references_ok empty_world.
Proof. split; intros x []. Qed.

Lemma handle_references_ok rq w :
  Str.idempotent upper ->
  references_ok w -> references_ok (snd (handle rq w)).
Proof.
  intros Hidem [Ha Hi].
  destruct (handle_cases rq w)
    as [[_ ->]
       |[[_ (nid & p & _ & _ & ->)]
        |[[_ (pid & p & a & Hs & Hp & ->)]
         |[_ (now & token & file & fp & patient & Hs & ->)]]]].
  - now split.
  - split; cbn; intros x Hx.
    + destruct (Ha x Hx) as (q & Hq & E). exists q.
      split; [apply in_or_app; now left | exact E].
    + destruct (Hi x Hx) as (q & Hq & E). exists q.
      split; [apply in_or_app; now left | exact E].
  - apply stored_In in Hs as [Hin _].
    split; cbn; [|exact Hi]. intros x Hx.
    apply in_app_or in Hx as [Hx|[<-|[]]]; [now apply Ha|].
    exists p. now split.
  - apply stored_In in Hs as [Hin Hk].
    rewrite Hidem in Hk.
    unfold app.after_upload. split; cbn [patients_collection
      appointments_collection images_collection]; [exact Ha|].
    intros x Hx. apply in_app_or in Hx as [Hx|[<-|[]]]; [now apply Hi|].
    exists patient. split; [exact Hin | exact Hk].
Qed.

(** X8.  Whatever requests a service that starts with an empty database
    has served, every appointment and every image record names a stored
    patient, by the identifier the patient is stored under. *)
Theorem references_hold history :
  Str.idempotent upper ->
  references_ok (run history empty_world).
Proof.
  intros Hidem.
  assert (H : forall w, references_ok w -> references_ok (run history w)).
  { induction history as [|rq rest IH]; intros w Hw; cbn [app.run];
      [exact Hw|]. apply IH. now apply handle_references_ok. }
  apply H, references_ok_empty.
Qed.

Lemma images_ok_empty : images_ok empty_world.
Proof. split; [intros x [] | constructor]. Qed.

Lemma handle_images_ok rq w : images_ok w -> images_ok (snd (handle rq w)).
Proof.
  intros [Hi Hd].
  destruct (handle_cases rq w)
    as [[_ ->]
       |[[_ (nid & p & _ & _ & ->)]
        |[[_ (pid & p & a & _ & _ & ->)]
         |[_ (now & token & file & fp & patient & _ & ->)]]]];
    try (split; [exact Hi | exact Hd]).
  unfold app.after_upload. split; cbn [images_collection disk].
  - intros x Hx. apply in_app_or in Hx as [Hx|[<-|[]]].
    + destruct (Hi x Hx) as (H1 & H2 & H3 & H4).
      repeat split; try assumption.
      unfold Dict.contains in *. cbn [Dict.get].
      destruct (_ =? i_filepath x); [reflexivity | exact H4].
    + repeat split. unfold Dict.contains. cbn [Dict.get set_processed
        uploaded_record i_filepath]. now rewrite String.eqb_refl.
  - rewrite map_app. cbn [map set_processed uploaded_record i__id].
    apply NoDup_incl_NoDup with
      (l := new_ObjectId (map i__id (images_collection w))
            :: map i__id (images_collection w)).
    + constructor; [|exact Hd]. intros Hin.
      apply IdFacts.new_ObjectId_fresh in Hin. lia.
    + rewrite length_app. cbn. lia.
    + intros x [<-|Hx]; apply in_or_app; [right; now left | now left].
Qed.

Lemma reachable_images_ok history : images_ok (run history empty_world).
Proof.
  assert (H : forall w, images_ok w -> images_ok (run history w)).
  { induction history as [|rq rest IH]; intros w Hw; cbn [app.run];
      [exact Hw|]. apply IH. now apply handle_images_ok. }
  apply H, images_ok_empty.
Qed.

(** X9.  Whatever requests a service that starts with an empty database
    has served, every image record is "Processed" with the result
    "Pending Review" and the label "Low-Risk ROP Stage 1", its file is on
    the disk under the recorded path, and no two records share an
    [_id]. *)
Theorem images_hold history : images_ok (run history empty_world).
Proof. apply reachable_images_ok. Qed.

(** *** The review queue and the dashboard *)

Lemma review_list_cases now w :
  (filter review_query (images_collection w) = [] /\
   handle (GET_images_review now) w
   = (Reply (ReviewList [MockImage (mock_review_1 now)]) 200%nat, w)) \/
  (exists r rest,
      review_query r = true /\ In r (images_collection w) /\
      handle (GET_images_review now) w
      = (Reply (ReviewList (StoredImage r :: rest)) 200%nat, w)).
Proof.
  cbn [app.handle]. unfold get_images_for_review, flask. py_reduce.
  destruct (filter review_query (images_collection w)) as [|x l] eqn:F.
  - left. now split.
  - right. cbn [length Nat.eqb].
    pose proof (SortFacts.sort_perm
      (fun x y => String.leb (i_upload_time y) (i_upload_time x))
      (x :: l)) as Hp.
    destruct (Sort.sort _ (x :: l)) as [|y r] eqn:E.
    + apply Permutation_length in Hp. discriminate.
    + assert (Hy : In y (x :: l)).
      { eapply Permutation_in; [symmetry; exact Hp | now left]. }
      rewrite <- F in Hy. apply filter_In in Hy as [Hin Hq].
      cbn [map]. do 2 eexists. split; [exact Hq|]. split; [exact Hin|].
      reflexivity.
Qed.

(** X10.  The review listing is never empty and changes nothing: it
    starts with a stored record that qualifies, or, when no stored record
    qualifies, it is the single mock record. *)
Theorem review_is_never_empty now w :
  exists entry rest,
    handle (GET_images_review now) w
    = (Reply (ReviewList (entry :: rest)) 200%nat, w) /\
    ((exists r, entry = StoredImage r /\ review_query r = true /\
                In r (images_collection w)) \/
     (entry = MockImage (mock_review_1 now) /\ rest = [] /\
      filter review_query (images_collection w) = [])).
Proof.
  destruct (review_list_cases now w) as [[F ->]|(r & rest & Hq & Hin & ->)].
  - do 2 eexists. split; [reflexivity|]. right. auto.
  - do 2 eexists. split; [reflexivity|]. left. eauto.
Qed.

Lemma reachable_no_review history :
  filter review_query (images_collection (run history empty_world)) = [].
Proof.
  destruct (reachable_images_ok history) as [Hi _].
  induction (images_collection (run history empty_world))
    as [|x l IH]; cbn; [reflexivity|].
  destruct (Hi x (or_introl eq_refl)) as (_ & _ & H3 & _).
  unfold review_query at 1. rewrite H3. cbn.
  rewrite andb_false_r. cbn. apply IH. intros y Hy. apply Hi. now right.
Qed.

(** X11.  Through the service alone no record ever reaches the review
    queue: after any requests on an initially empty database the listing
    is exactly the mock record. *)
Theorem review_shows_only_the_mock history now :
  handle (GET_images_review now) (run history empty_world)
  = (Reply (ReviewList [MockImage (mock_review_1 now)]) 200%nat,
     run history empty_world).
Proof.
  destruct (review_list_cases now (run history empty_world))
    as [[_ H]|(r & rest & Hq & Hin & _)]; [exact H|].
  pose proof (reachable_no_review history) as F.
  assert (Hr : In r (filter review_query
                       (images_collection (run history empty_world))))
    by (apply filter_In; now split).
  rewrite F in Hr. destruct Hr.
Qed.

Lemma count_documents_none A (q : A -> bool) l :
  (forall r, In r l -> q r = false) -> count_documents q l = 0%nat.
Proof.
  intros Hq. unfold count_documents.
  induction l as [|x l IH]; [reflexivity|].
  cbn. rewrite (Hq x (or_introl eq_refl)). apply IH.
  intros y Hy. apply Hq. now right.
Qed.

Lemma count_documents_all A (l : list A) :
  count_documents (fun _ => true) l = length l.
Proof.
  unfold count_documents. induction l; cbn; congruence.
Qed.

(** X12.  On the dashboard of a service that started with an empty
    database, [pendingReview], [totalReviewed] and [pendingProcessing] are
    0 whatever was uploaded, while [totalUploads] and [totalPatients]
    count the stored images and patients. *)
Theorem stats_of_reachable_database history since_today :
  exists s,
    get_stats since_today (run history empty_world)
    = (inr (s, 200%nat), run history empty_world) /\
    pendingReview s = 0%nat /\
    totalReviewed s = 0%nat /\
    pendingProcessing s = 0%nat /\
    totalUploads s = length (images_collection (run history empty_world)) /\
    totalPatients s
    = length (patients_collection (run history empty_world)) /\
    (imagesUploadedToday s <= totalUploads s)%nat.
Proof.
  destruct (reachable_images_ok history) as [Hi _].
  set (w := run history empty_world) in *.
  pose proof (count_documents_none ImageRecord) as Hzero.
  pose proof count_documents_all as Hall.
  eexists. split; [reflexivity|]. cbn [pendingReview totalReviewed
    pendingProcessing totalUploads totalPatients imagesUploadedToday].
  split; [|split; [|split; [|split; [|split]]]].
  - apply Hzero. intros r Hr. destruct (Hi r Hr) as (_ & _ & H3 & _).
    unfold pending_review_query. rewrite H3. cbn. apply andb_false_r.
  - apply Hzero. intros r Hr. destruct (Hi r Hr) as (H1 & _).
    now rewrite H1.
  - apply Hzero. intros r Hr. destruct (Hi r Hr) as (H1 & _).
    now rewrite H1.
  - apply Hall.
  - apply Hall.
  - rewrite Hall. unfold count_documents. apply filter_length_le.
Qed.

(** X13.  An accepted upload raises [totalUploads] by one and leaves
    [totalPatients], [pendingReview], [totalReviewed] and
    [pendingProcessing] as they were. *)
Theorem upload_counts_once now token request w body w' since_today :
  handle (POST_images_upload now token request) w
  = (Reply body 201%nat, w') ->
  exists s s',
    get_stats since_today w = (inr (s, 200%nat), w) /\
    get_stats since_today w' = (inr (s', 200%nat), w') /\
    totalUploads s' = S (totalUploads s) /\
    totalPatients s' = totalPatients s /\
    pendingReview s' = pendingReview s /\
    totalReviewed s' = totalReviewed s /\
    pendingProcessing s' = pendingProcessing s.
Proof.
  intros H. cbn [app.handle] in H. apply flask_reply in H.
  apply upload_image_accepted_inv in H
    as (file & pid & patient & _ & _ & _ & _ & _ & _ & ->).
  do 2 eexists. split; [reflexivity|]. split; [reflexivity|].
  unfold app.after_upload, count_documents.
  cbn [totalUploads totalPatients pendingReview totalReviewed
       pendingProcessing images_collection patients_collection].
  rewrite !filter_app, !length_app. cbn. repeat split; lia.
Qed.

(** *** Listings *)

#[local] Abbreviation newest_first :=
  (fun x y : ImageRecord =>
     String.leb (i_upload_time y) (i_upload_time x)).

Lemma newest_first_total x y :
  newest_first x y = true \/ newest_first y x = true.
Proof. apply String.leb_total. Qed.

Lemma newest_first_trans x y z :
  newest_first x y = true -> newest_first y z = true ->
  newest_first x z = true.
Proof. intros H1 H2. exact (OrderFacts.leb_trans _ _ _ H2 H1). Qed.

(** X14.  The upload history holds at most ten records, all stored,
    newest first, and they are the most recent ones: a stored record left
    out is not newer than any record listed; with ten records or fewer,
    all are listed. *)
Theorem upload_history_most_recent w :
  exists l,
    get_upload_history w = (inr (l, 200%nat), w) /\
    (length l <= 10)%nat /\
    (forall r, In r l -> In r (images_collection w)) /\
    Sorted (fun x y => String.leb (i_upload_time y) (i_upload_time x)
                       = true) l /\
    (forall r r', In r' l -> In r (images_collection w) -> ~ In r l ->
                  String.leb (i_upload_time r) (i_upload_time r') = true) /\
    ((length (images_collection w) <= 10)%nat ->
     Permutation (images_collection w) l).
Proof.
  eexists. split; [reflexivity|].
  set (sorted := Sort.sort newest_first (images_collection w)).
  pose proof (SortFacts.sort_perm newest_first (images_collection w))
    as Hperm. fold sorted in Hperm.
  split; [apply firstn_le_length|]. split; [|split; [|split]].
  - intros r Hr. apply (SortFacts.In_sort newest_first).
    fold sorted. rewrite <- (firstn_skipn 10 sorted).
    apply in_or_app. now left.
  - apply SortedFacts.sorted_firstn.
    apply (SortedFacts.sort_sorted _ newest_first newest_first_total).
  - intros r r' Hr' Hr Hout.
    assert (Hs : In r sorted) by (eapply Permutation_in; eauto).
    rewrite <- (firstn_skipn 10 sorted) in Hs.
    apply in_app_or in Hs as [Hs|Hs]; [contradiction|].
    apply (SortedFacts.strongly_sorted_split _ newest_first
             (firstn 10 sorted) (skipn 10 sorted) r' r); auto.
    rewrite firstn_skipn.
    apply (SortedFacts.sort_strongly_sorted _ newest_first
             newest_first_total newest_first_trans).
  - intros Hlen. rewrite firstn_all2; [exact Hperm|].
    now rewrite <- (Permutation_length Hperm).
Qed.

(** X15.  After an accepted upload whose time stamp is later than that of
    every stored record, the new record is the first of the upload
    history. *)
Theorem newest_upload_heads_history now token request w body w' :
  handle (POST_images_upload now token request) w
  = (Reply body 201%nat, w') ->
  (forall r, In r (images_collection w) ->
             String.ltb (i_upload_time r) now = true) ->
  exists message id rec rest,
    body = Uploaded message id "Processing" /\
    images_find_by_id id w' = Some rec /\
    get_upload_history w' = (inr (rec :: rest, 200%nat), w').
Proof.
  intros H Hnew. cbn [app.handle] in H. apply flask_reply in H.
  apply upload_image_accepted_inv in H
    as (file & pid & patient & _ & _ & _ & _ & _ & -> & ->).
  do 4 eexists. split; [reflexivity|].
  split; [apply after_upload_find|].
  unfold get_upload_history. py_reduce. unfold app.after_upload at 1.
  cbn [images_collection].
  rewrite (SortedFacts.sort_snoc_front _ newest_first).
  - reflexivity.
  - intros y Hy. cbn [set_processed uploaded_record i_upload_time].
    apply OrderFacts.ltb_leb_false. now apply Hnew.
Qed.


(** X17.  Round trip, where [send_file] answers the path of a stored file
    with the whole file (the application serves from the folder it saves
    in, and the request asks for no part or newer version): after an
    accepted upload, the route of the images answers the generated file
    name with the bytes that were uploaded, provided the name holds no
    slash; a name with a slash has no route, so that the file of a patient
    whose identifier holds one cannot be fetched. *)
Theorem uploaded_image_is_served now token request w body w' :
  handle (POST_images_upload now token request) w
  = (Reply body 201%nat, w') ->
  (forall path content,
      Dict.get (disk w') path = Some content ->
      send_file path w' = inr (SentFile content, 200%nat)) ->
  exists file message id rec,
    Dict.get (files request) "file" = Some file /\
    body = Uploaded message id "Processing" /\
    images_find_by_id id w' = Some rec /\
    (Str.contains (i_filename rec) "/" = false ->
     image_route (i_filename rec) w'
     = (inr (SentFile (stream file), 200%nat), w')) /\
    (Str.contains (i_filename rec) "/" = true ->
     image_route (i_filename rec) w' = (inr (NoRoute, 404%nat), w')).
Proof.
  intros H Hsend. cbn [app.handle] in H. apply flask_reply in H.
  apply upload_image_accepted_inv in H
    as (file & pid & patient & Hf & _ & _ & _ & _ & -> & ->).
  exists file. do 3 eexists. split; [exact Hf|]. split; [reflexivity|].
  split; [apply after_upload_find|].
  cbn [set_processed uploaded_record i_filename].
  assert (Hne : (app.upload_name upper splitext token file pid =? "")
                = false).
  { apply String.eqb_neq.
    apply (StrFacts.underscore_name
             (app.upload_name upper splitext token file pid)).
    unfold app.upload_name. rewrite StrFacts.contains_app.
    apply orb_true_iff. right. reflexivity. }
  unfold app_views.image_route. rewrite Hne. cbn [orb]. split.
  - intros ->. unfold app_views.get_image_file, exists_. py_reduce.
    change (path_join UPLOAD_FOLDER
              (app.upload_name upper splitext token file pid))
      with (upload_path token file pid).
    assert (Hget : Dict.get (disk (after_upload now token file pid patient w))
                            (upload_path token file pid)
                   = Some (stream file)).
    { unfold app.after_upload. cbn [disk Dict.get].
      now rewrite String.eqb_refl. }
    unfold Dict.contains. rewrite Hget. cbn [orb].
    now rewrite (Hsend _ _ Hget).
  - intros ->. reflexivity.
Qed.

(** X18.  The patient listing is a rearrangement of the stored patients,
    newest [created_at] first, and reading it changes nothing. *)
Theorem patient_listing_sorted w :
  exists l,
    handle GET_patients w = (Reply (PatientList l) 200%nat, w) /\
    Permutation (patients_collection w) l /\
    Sorted (fun x y => String.leb (p_created_at y) (p_created_at x)
                       = true) l.
Proof.
  eexists. split; [reflexivity|]. split.
  - apply SortFacts.sort_perm.
  - apply (SortedFacts.sort_sorted _
             (fun x y => String.leb (p_created_at y) (p_created_at x))).
    intros x y. apply String.leb_total.
Qed.

(** *** Malformed values *)

(** X19.  A creation request with the required fields and a free
    identifier whose birth date the parser rejects, or whose weight is a
    string that is no number, is answered 400 and writes nothing. *)
Theorem add_patient_bad_date_or_weight now data nid bd w :
  all_present patient_required_fields data = true ->
  Dict.get data "neonate_id" = Some (Str nid) ->
  stored w (upper nid) = None ->
  Dict.get data "birth_date" = Some (Str bd) ->
  parse_isoformat (Str bd) = inl ValueError \/
  (returned (parse_isoformat (Str bd)) = true /\
   exists s, Dict.get data "weight" = Some (Str s) /\ s <> "" /\
             float_of_str s = inl ValueError) ->
  handle (POST_patients now data) w
  = (Reply (Message "Invalid date or number format provided.") 400%nat, w).
Proof.
  intros Hall Hid Hs Hbd Hbad.
  destruct (all_present_get _ _ "name" Hall) as (vn & Hn & _);
    [cbn; auto|].
  cbn [app.handle]. apply flask_reply.
  unfold app.add_patient.
  change (all_present _ data) with (all_present patient_required_fields data).
  rewrite Hall. unfold Dict.subscript, patients_find_one. py_reduce.
  rewrite Hid. cbn. unfold stored in Hs. rewrite Hs, Hn, Hbd. cbn.
  destruct Hbad as [->|[Hok (s & Hw & Hne & Hf)]]; [reflexivity|].
  destruct (parse_isoformat (Str bd)) as [|iso]; [discriminate|].
  unfold Dict.get_or_null. rewrite Hw. cbn.
  apply String.eqb_neq in Hne. rewrite Hne. cbn.
  unfold app.py_float. now rewrite Hf.
Qed.

(** X20.  A creation request whose [neonate_id] is present and truthy but
    not a string is not answered by the handler: the attribute error
    reaches the framework (500); so do the type error of a birth date
    that is not a string and the overflow of a weight that is an integer
    beyond the doubles.  Nothing is written. *)
Theorem add_patient_type_errors now data w :
  all_present patient_required_fields data = true ->
  (forall nid, Dict.get data "neonate_id" <> Some (Str nid)) \/
  (exists nid,
      Dict.get data "neonate_id" = Some (Str nid) /\
      stored w (upper nid) = None /\
      ((forall bd, Dict.get data "birth_date" <> Some (Str bd)) \/
       (returned (parse_isoformat (Dict.get_or_null data "birth_date"))
        = true /\
        exists z, Dict.get data "weight" = Some (Int z) /\
                  (2 ^ 1024 - 2 ^ 970 <= Z.abs z)%Z))) ->
  exists e,
    (e = AttributeError \/ e = TypeError \/ e = OverflowError) /\
    handle (POST_patients now data) w = (InternalServerError e, w).
Proof.
  intros Hall Hbad.
  destruct (all_present_get _ _ "neonate_id" Hall) as (vi & Hi & _);
    [cbn; auto|].
  destruct (all_present_get _ _ "name" Hall) as (vn & Hn & _);
    [cbn; auto|].
  destruct (all_present_get _ _ "birth_date" Hall) as (vb & Hb & _);
    [cbn; auto 6|].
  cbn [app.handle]. unfold flask, app.add_patient.
  change (all_present _ data) with (all_present patient_required_fields data).
  rewrite Hall. unfold Dict.subscript, patients_find_one. py_reduce.
  rewrite Hi. cbn [negb].
  destruct Hbad as [Hno|(nid & Hid & Hs & [Hno|(Hok & z & Hw & Hz)])].
  - exists AttributeError. split; [now left|].
    destruct vi as [| | | |nid| |]; try reflexivity.
    exfalso. exact (Hno nid Hi).
  - exists TypeError. split; [right; now left|].
    rewrite Hi in Hid. injection Hid as ->. cbn.
    unfold stored in Hs. rewrite Hs, Hn, Hb. cbn.
    unfold app.parse_isoformat, app.parse. py_reduce.
    destruct vb as [| | | |bd| |]; try reflexivity.
    exfalso. exact (Hno bd Hb).
  - exists OverflowError. split; [right; now right|].
    rewrite Hi in Hid. injection Hid as ->. cbn.
    unfold stored in Hs. rewrite Hs, Hn, Hb. cbn.
    unfold Dict.get_or_null in Hok |- *. rewrite Hb in Hok.
    destruct (parse_isoformat vb) as [|iso]; [discriminate|].
    rewrite Hw. cbn [truthy].
    assert (Hz0 : (z =? 0)%Z = false).
    { apply Z.eqb_neq. intros ->.
      apply Z.leb_le in Hz. vm_compute in Hz. discriminate Hz. }
    rewrite Hz0. cbn [negb].
    unfold app.py_float, float_of_int.
    apply Z.ltb_ge in Hz. rewrite Hz. reflexivity.
Qed.

(** X21.  A scheduling request with the required fields, a patient found
    under the upper-cased [patientId] and a [datetime] the parser accepts
    and whose ISO form is [iso]: when the driver can encode the type, the
    request is answered 201, and the appointment appended carries the
    identifier and the name as stored with the patient, the date in ISO
    form, the requested type and the status "Scheduled"; when the driver
    cannot encode the type, its exception reaches the framework (500) and
    nothing is written. *)
Theorem schedule_appointment_created now data pid p dt d iso ty w :
  all_present appointment_required_fields data = true ->
  Dict.get data "patientId" = Some (Str pid) ->
  stored w (upper pid) = Some p ->
  Dict.get data "datetime" = Some (Str dt) ->
  parser_parse dt = inr d ->
  isoformat d = inr iso ->
  Dict.get data "type" = Some ty ->
  (bson_error ty = None ->
   exists a,
     handle (POST_appointments now data) w
     = (Reply (Created "Appointment scheduled successfully." (a__id a))
              201%nat,
        {| patients_collection := patients_collection w;
           appointments_collection :=
             (appointments_collection w ++ [a])%list;
           images_collection := images_collection w;
           disk := disk w;
           trace := (trace w ++ [AppointmentInserted (a__id a)])%list |}) /\
     a_patientId a = upper pid /\
     a_patientName a = p_name p /\
     a_datetime a = iso /\
     a_type a = ty /\
     a_status a = "Scheduled" /\
     a_created_at a = now /\
     ~ In (a__id a) (map a__id (appointments_collection w))) /\
  (forall e, bson_error ty = Some e ->
             handle (POST_appointments now data) w
             = (InternalServerError e, w)).
Proof.
  intros Hall Hid Hs Hd Hparse Hiso Hty.
  cbn [app.handle]. unfold flask, app.schedule_appointment.
  change (all_present _ data)
    with (all_present appointment_required_fields data).
  rewrite Hall. unfold Dict.subscript, appointments_insert_one. py_reduce.
  rewrite Hid. cbn [negb]. cbv beta iota.
  rewrite get_patient_details_str, Hs, Hd. cbn.
  unfold app.parse. rewrite Hparse, Hiso, Hty.
  unfold appointment_values, app.bson_encode. cbn. split.
  - intros Henc. rewrite Henc.
    match goal with
    | |- context [(appointments_collection w ++ [?q])%list] => exists q
    end.
    split; [reflexivity|]. cbn.
    destruct (stored_In w _ p Hs) as [_ ->].
    repeat split; try assumption.
    intros Hin. apply IdFacts.new_ObjectId_fresh in Hin. lia.
  - intros e ->. reflexivity.
Qed.

(** X22.  For a known patient, a [datetime] value the parser rejects, or
    one that is not a string at all, is answered 400 "Invalid datetime
    format."; a value the parser accepts but whose [isoformat] raises is
    not answered by the handler, for that call is made after the [try]:
    the exception reaches the framework (500).  In both cases nothing is
    written. *)
Theorem schedule_appointment_bad_datetime now data pid p v w :
  all_present appointment_required_fields data = true ->
  Dict.get data "patientId" = Some (Str pid) ->
  stored w (upper pid) = Some p ->
  Dict.get data "datetime" = Some v ->
  (returned (parse v) = false ->
   handle (POST_appointments now data) w
   = (Reply (Message "Invalid datetime format.") 400%nat, w)) /\
  (forall d e,
      parse v = inr d -> isoformat d = inl e ->
      handle (POST_appointments now data) w = (InternalServerError e, w)).
Proof.
  intros Hall Hid Hs Hd.
  cbn [app.handle]. unfold flask, app.schedule_appointment.
  change (all_present _ data)
    with (all_present appointment_required_fields data).
  rewrite Hall. unfold Dict.subscript. py_reduce.
  rewrite Hid. cbn [negb]. cbv beta iota.
  rewrite get_patient_details_str, Hs, Hd. cbn. split.
  - intros Hbad. destruct (parse v); [reflexivity | discriminate].
  - intros d e -> ->. reflexivity.
Qed.

End HandlerMore.

(* ------------------------------------------------------------------ *)
(** ** Facts about the schema helpers *)

Module SetitemFacts.

Import models.

Lemma get_setitem_same {V} (d : Dict.t V) k v :
  Dict.get (setitem d k v) k = Some v.
Proof.
  induction d as [|[k' v'] r IH]; cbn.
  - now rewrite String.eqb_refl.
  - destruct (k' =? k) eqn:E; cbn; [now rewrite String.eqb_refl|].
    now rewrite E.
Qed.

Lemma get_setitem_other {V} (d : Dict.t V) k v k0 :
  k0 <> k -> Dict.get (setitem d k v) k0 = Dict.get d k0.
Proof.
  intros Hne. induction d as [|[k' v'] r IH]; cbn.
  - apply String.eqb_neq in Hne. rewrite String.eqb_sym in Hne.
    now rewrite Hne.
  - destruct (k' =? k) eqn:E; cbn.
    + apply String.eqb_eq in E. subst k'.
      apply String.eqb_neq in Hne. rewrite String.eqb_sym in Hne.
      now rewrite Hne.
    + destruct (k' =? k0); [reflexivity | exact IH].
Qed.

Lemma setitem_same {V} (d : Dict.t V) k v :
  Dict.get d k = Some v -> setitem d k v = d.
Proof.
  induction d as [|[k' v'] r IH]; cbn; [discriminate|].
  destruct (k' =? k) eqn:E.
  - intros [= ->]. apply String.eqb_eq in E. now subst.
  - intros H. now rewrite IH.
Qed.

End SetitemFacts.

Section SchemaFacts.

Variable str_ObjectId : app.ObjectId -> string.
Variable str_value : Json.t -> string.
Variable ObjectId_of : string -> Exc app.ObjectId.
Variable strptime : string -> string -> Exc string.

Import Json models.

#[local] Abbreviation py_str := (py_str str_ObjectId str_value).
#[local] Abbreviation serialize_doc :=
  (serialize_doc str_ObjectId str_value).
#[local] Abbreviation patient_schema := (patient_schema strptime).
#[local] Abbreviation appointment_schema :=
  (appointment_schema ObjectId_of strptime).
#[local] Abbreviation image_schema := (image_schema ObjectId_of).

(** What [serialize_doc] does to a document that has an [_id]. *)
Lemma serialize_doc_with_id d v :
  d <> [] -> Dict.get d "_id" = Some v ->
  serialize_doc (Some d) =
    inr (Some
      (match Dict.get d "patient_id" with
       | Some (BObjectId i) =>
           setitem (setitem d "_id" (BValue (Str (py_str v))))
                   "patient_id" (BValue (Str (str_ObjectId i)))
       | _ => setitem d "_id" (BValue (Str (py_str v)))
       end)).
Proof.
  intros Hne Hid. unfold models.serialize_doc.
  destruct d as [|kv r]; [congruence|].
  unfold Dict.subscript. py_reduce. rewrite Hid.
  rewrite SetitemFacts.get_setitem_other by discriminate.
  destruct (Dict.get (kv :: r) "patient_id") as [[i|j]|]; reflexivity.
Qed.

(** X23.  [serialize_doc] returns [None] and the empty document as they
    are and raises [KeyError] on a document without [_id]; otherwise it
    returns the document with [_id] replaced by its string, an [ObjectId]
    under [patient_id] replaced by its string, and every other key as it
    was. *)
Theorem serialize_doc_effect :
  serialize_doc None = inr None /\
  serialize_doc (Some []) = inr (Some []) /\
  (forall d, d <> [] -> Dict.get d "_id" = None ->
             serialize_doc (Some d) = inl KeyError) /\
  (forall d v, d <> [] -> Dict.get d "_id" = Some v ->
     exists d',
       serialize_doc (Some d) = inr (Some d') /\
       Dict.get d' "_id" = Some (BValue (Str (py_str v))) /\
       (forall i, Dict.get d "patient_id" = Some (BObjectId i) ->
                  Dict.get d' "patient_id"
                  = Some (BValue (Str (str_ObjectId i)))) /\
       (forall j, Dict.get d "patient_id" = Some (BValue j) ->
                  Dict.get d' "patient_id" = Some (BValue j)) /\
       (forall k, k <> "_id" -> k <> "patient_id" ->
                  Dict.get d' k = Dict.get d k)).
Proof.
  split; [reflexivity|]. split; [reflexivity|]. split.
  - intros d Hne Hid. unfold models.serialize_doc.
    destruct d as [|kv r]; [congruence|].
    unfold Dict.subscript. py_reduce. now rewrite Hid.
  - intros d v Hne Hid. rewrite (serialize_doc_with_id d v Hne Hid).
    eexists. split; [reflexivity|].
    destruct (Dict.get d "patient_id") as [[i|j]|] eqn:Hp.
    + split; [rewrite SetitemFacts.get_setitem_other by discriminate;
              apply SetitemFacts.get_setitem_same|].
      split; [intros i0 [= <-]; apply SetitemFacts.get_setitem_same|].
      split; [discriminate|].
      intros k H1 H2. now rewrite !SetitemFacts.get_setitem_other.
    + split; [apply SetitemFacts.get_setitem_same|].
      split; [discriminate|].
      split; [intros j0 [= <-];
              now rewrite SetitemFacts.get_setitem_other by discriminate|].
      intros k H1 H2. now rewrite SetitemFacts.get_setitem_other.
    + split; [apply SetitemFacts.get_setitem_same|].
      split; [discriminate|]. split; [discriminate|].
      intros k H1 H2. now rewrite SetitemFacts.get_setitem_other.
Qed.

Lemma setitem_not_nil {V} (d : Dict.t V) k v : setitem d k v <> [].
Proof.
  destruct d as [|[k' v'] r]; cbn; [discriminate|].
  destruct (k' =? k); discriminate.
Qed.

Lemma serialize_doc_fixed d v :
  d <> [] -> Dict.get d "_id" = Some v ->
  forall d',
    serialize_doc (Some d) = inr (Some d') ->
    serialize_doc (Some d') = inr (Some d').
Proof.
  intros Hne Hid d' H.
  pose proof (eq_trans (eq_sym H) (serialize_doc_with_id d v Hne Hid)) as E.
  injection E as E.
  assert (H1 : Dict.get (setitem d "_id" (BValue (Str (py_str v)))) "_id"
               = Some (BValue (Str (py_str v))))
    by apply SetitemFacts.get_setitem_same.
  assert (Hp1 : Dict.get (setitem d "_id" (BValue (Str (py_str v))))
                  "patient_id"
                = Dict.get d "patient_id")
    by (apply SetitemFacts.get_setitem_other; discriminate).
  remember (setitem d "_id" (BValue (Str (py_str v)))) as d1 eqn:Hd1.
  assert (Hn1 : d1 <> []) by (subst d1; apply setitem_not_nil).
  destruct (Dict.get d "patient_id") as [[i|j]|] eqn:Hp.
  - assert (H2 : Dict.get d' "_id" = Some (BValue (Str (py_str v))))
      by (subst d';
          rewrite SetitemFacts.get_setitem_other by discriminate;
          exact H1).
    assert (Hp2 : Dict.get d' "patient_id"
                  = Some (BValue (Str (str_ObjectId i))))
      by (subst d'; apply SetitemFacts.get_setitem_same).
    assert (Hn2 : d' <> []) by (subst d'; apply setitem_not_nil).
    refine (eq_trans (serialize_doc_with_id d' _ Hn2 H2) _).
    rewrite Hp2. cbn [models.py_str].
    now rewrite (SetitemFacts.setitem_same d' _ _ H2).
  - subst d'.
    refine (eq_trans (serialize_doc_with_id d1 _ Hn1 H1) _).
    rewrite Hp1. cbn [models.py_str].
    now rewrite (SetitemFacts.setitem_same d1 _ _ H1).
  - subst d'.
    refine (eq_trans (serialize_doc_with_id d1 _ Hn1 H1) _).
    rewrite Hp1. cbn [models.py_str].
    now rewrite (SetitemFacts.setitem_same d1 _ _ H1).
Qed.

(** X24.  [serialize_doc] is idempotent: serializing what it returned
    returns the same document. *)
Theorem serialize_doc_idempotent doc doc' :
  serialize_doc doc = inr doc' -> serialize_doc doc' = inr doc'.
Proof.
  destruct doc as [d|]; [|intros [= <-]; reflexivity].
  assert (Hd : d = [] \/ d <> [])
    by (destruct d; [now left | right; discriminate]).
  destruct Hd as [->|Hne]; [intros [= <-]; reflexivity|].
  destruct (Dict.get d "_id") as [v|] eqn:Hid.
  - intros H. destruct doc' as [d'|].
    + now apply (serialize_doc_fixed d v Hne Hid).
    + pose proof (eq_trans (eq_sym H) (serialize_doc_with_id d v Hne Hid))
        as E. discriminate.
  - intros H. exfalso. revert H. unfold models.serialize_doc.
    destruct d as [|kv r]; [congruence|].
    unfold Dict.subscript. py_reduce. rewrite Hid. discriminate.
Qed.

(** X25.  [image_schema] marks a record "Processed" exactly when the
    result it is given has status "processed"; given one of the failure
    results of [run_inference], or no result, the record stays
    "Processing", never "Failed". *)
Theorem image_schema_status utcnow data pid oid :
  ObjectId_of pid = inr oid ->
  (forall r,
      exists doc,
        image_schema utcnow data pid (Some (result_dict r)) = inr doc /\
        ai_result doc = result_dict r /\
        (status doc = "Processed" <-> ai_service.status r = "processed") /\
        (status doc = "Processed" \/ status doc = "Processing")) /\
  (forall r,
      r = ai_service.model_error \/ r = ai_service.preprocessing_error \/
      r = ai_service.inference_exception ->
      exists doc,
        image_schema utcnow data pid (Some (result_dict r)) = inr doc /\
        status doc = "Processing") /\
  (forall given, given = None \/ given = Some [] ->
      exists doc,
        image_schema utcnow data pid given = inr doc /\
        status doc = "Processing" /\ ai_result doc = []).
Proof using ObjectId_of.
  intros Hoid. split; [|split].
  - intros r. unfold models.image_schema. py_reduce. rewrite Hoid.
    eexists. split; [reflexivity|]. cbn.
    split; [reflexivity|].
    destruct (ai_service.status r =? "processed") eqn:E.
    + apply String.eqb_eq in E.
      split; [split; [intros _; exact E | reflexivity] | now left].
    + apply String.eqb_neq in E. split; [|now right].
      split; [discriminate | contradiction].
  - intros r Hr. unfold models.image_schema. py_reduce. rewrite Hoid.
    eexists. split; [reflexivity|].
    destruct Hr as [->|[->| ->]]; reflexivity.
  - intros given Hg. unfold models.image_schema. py_reduce. rewrite Hoid.
    eexists. split; [reflexivity|].
    destruct Hg as [->| ->]; split; reflexivity.
Qed.

(** X26.  [patient_schema] raises only through the date: without a
    [birthDate], or with a null or empty one, it returns a document with
    no birth date and the status "Active"; with a [birthDate] string it
    returns exactly when [strptime] accepts the string, and raises what
    [strptime] raises otherwise. *)
Theorem patient_schema_birth_date utcnow data :
  (truthy (Dict.get_or_null data "birthDate") = false ->
   exists doc, patient_schema utcnow data = inr doc /\
               birth_date doc = None /\ patient_status doc = "Active") /\
  (forall s, Dict.get data "birthDate" = Some (Str s) -> s <> "" ->
     match strptime s "%Y-%m-%d" with
     | inr d => exists doc, patient_schema utcnow data = inr doc /\
                            birth_date doc = Some d /\
                            neonate_id doc
                            = Dict.get_or_null data "neonateId"
     | inl e => patient_schema utcnow data = inl e
     end).
Proof.
  split.
  - intros Hf. unfold models.patient_schema. py_reduce. rewrite Hf.
    eexists. split; [reflexivity|]. split; reflexivity.
  - intros s Hs Hne. unfold models.patient_schema, Dict.subscript,
      Dict.get_or_null. py_reduce. rewrite Hs. cbn.
    apply String.eqb_neq in Hne. rewrite Hne. cbn.
    destruct (strptime s "%Y-%m-%d"); [reflexivity|].
    eexists. split; [reflexivity|]. split; reflexivity.
Qed.

(** X27.  [appointment_schema] converts the patient id first, so an
    invalid id raises whatever the date is; and the type is "Initial
    Screening" only when the key is absent: a type that is given, even
    null, is kept. *)
Theorem appointment_schema_edges utcnow data pid :
  (forall e, ObjectId_of pid = inl e ->
             appointment_schema utcnow data pid = inl e) /\
  (forall doc, appointment_schema utcnow data pid = inr doc ->
     ObjectId_of pid = inr (appointment_patient_id doc) /\
     appointment_status doc = "Scheduled" /\
     (Dict.get data "type" = None -> type doc = Str "Initial Screening") /\
     (forall v, Dict.get data "type" = Some v -> type doc = v)).
Proof.
  split.
  - intros e He. unfold models.appointment_schema. py_reduce.
    now rewrite He.
  - intros doc. unfold models.appointment_schema. py_reduce.
    destruct (ObjectId_of pid) as [|oid]; [discriminate|].
    destruct (truthy _).
    + destruct (Dict.subscript data "dateTime"); [discriminate|].
      destruct (strptime_value _ _ _); [discriminate|].
      intros [= <-]. cbn. split; [reflexivity|]. split; [reflexivity|].
      split; [now intros ->|now intros v ->].
    + intros [= <-]. cbn. split; [reflexivity|]. split; [reflexivity|].
      split; [now intros ->|now intros v ->].
Qed.

End SchemaFacts.

(* ------------------------------------------------------------------ *)
(** ** The added facts on concrete inputs *)

Module MoreExamples.

Import Json app app_views.

#[local] Notation "'in_scenario' fact" :=
  (fact Str.upper Scenario.Datetime Scenario.parser_parse Scenario.isoformat
        Scenario.float_of_str Scenario.nearest_double Scenario.bson_error
        Scenario.splitext Scenario.path_join Scenario.writable
        Scenario.format_mb)
  (at level 10, fact at level 9).

Ltac no_nan := cbn; intuition discriminate.

Lemma successful_load_is_cached_witness :
  let p1 := snd (ai_service.load_model
                   (Scenario.keras_load_model
                      [Some Scenario.scores_tie; None])
                   (ai_service.fresh_process Scenario.Model)) in
  ai_service.model p1 = ai_service.Loaded Scenario.scores_tie /\
  ai_service.load_log p1 = [true] /\
  Scenario.serve [Some Scenario.scores_tie; None]
                 [Scenario.some_bytes; []] p1
  = (map (fun image_bytes =>
            fst (Scenario.run_inference [Some Scenario.scores_tie; None]
                                        image_bytes p1))
         [Scenario.some_bytes; []], p1).
Proof.
  exact (successful_load_is_cached _ _ _
           (Scenario.keras_load_model [Some Scenario.scores_tie; None])
           Scenario.Image_open Scenario.Image_convert Scenario.Image_resize
           Scenario.np_array Scenario.np_divide Scenario.np_expand_dims
           Scenario.predict
           (ai_service.fresh_process Scenario.Model) Scenario.scores_tie
           [Scenario.some_bytes; []] eq_refl eq_refl).
Defined.

Lemma run_inference_degenerate_prediction_witness :
  fst (Scenario.run_inference [Some ScenarioMore.no_scores]
         Scenario.some_bytes (ai_service.fresh_process Scenario.Model))
  = inr ai_service.inference_exception.
Proof.
  apply (run_inference_degenerate_prediction _ _ _
           (Scenario.keras_load_model [Some ScenarioMore.no_scores])
           Scenario.Image_open Scenario.Image_convert Scenario.Image_resize
           Scenario.np_array Scenario.np_divide Scenario.np_expand_dims
           Scenario.predict Scenario.some_bytes
           (ai_service.fresh_process Scenario.Model)
           ScenarioMore.no_scores Scenario.some_bytes).
  - reflexivity.
  - reflexivity.
  - right. left. reflexivity.
Defined.


Lemma nan_score_is_processed_witness :
  fst (Scenario.run_inference [Some Scenario.scores_nan]
         Scenario.some_bytes (ai_service.fresh_process Scenario.Model))
  = inr {| ai_service.prediction := "Stage 2";
           ai_service.probability := Float.NaN;
           ai_service.status := "processed" |}.
Proof.
  apply (nan_score_is_processed _ _ _
           (Scenario.keras_load_model [Some Scenario.scores_nan])
           Scenario.Image_open Scenario.Image_convert Scenario.Image_resize
           Scenario.np_array Scenario.np_divide Scenario.np_expand_dims
           Scenario.predict Scenario.some_bytes
           (ai_service.fresh_process Scenario.Model)
           Scenario.scores_nan Scenario.some_bytes
           [Float.Fin (1 # 10); Float.Fin (6 # 10); Float.NaN;
            Float.Fin (3 # 10)] [] 2%nat).
  - reflexivity.
  - reflexivity.
  - reflexivity.
  - constructor.
  - split; [reflexivity|].
    intros [|[|j]] Hj; [discriminate | discriminate | lia].
  - cbn. lia.
Defined.

Lemma rejected_request_changes_nothing_witness :
  snd (Scenario.handle
         (POST_appointments "2024-09-05T08:00:00" (Scenario.visit "zz99"))
         Scenario.one_patient)
  = Scenario.one_patient.
Proof.
  apply (in_scenario rejected_request_changes_nothing).
  cbn. discriminate.
Defined.

Lemma references_hold_witness :
  references_ok (Scenario.run ScenarioMore.history empty_world) /\
  length (appointments_collection
            (Scenario.run ScenarioMore.history empty_world)) = 1%nat /\
  length (images_collection
            (Scenario.run ScenarioMore.history empty_world)) = 1%nat.
Proof.
  split; [|split; reflexivity].
  exact (in_scenario references_hold ScenarioMore.history
           HandlerExamples.upper_idempotent).
Defined.

Lemma upload_counts_once_witness :
  exists s s',
    get_stats (fun _ => false) Scenario.one_patient
    = (inr (s, 200%nat), Scenario.one_patient) /\
    get_stats (fun _ => false) Scenario.after_upload
    = (inr (s', 200%nat), Scenario.after_upload) /\
    totalUploads s' = S (totalUploads s) /\
    totalPatients s' = totalPatients s /\
    pendingReview s' = pendingReview s /\
    totalReviewed s' = totalReviewed s /\
    pendingProcessing s' = pendingProcessing s.
Proof.
  exact (in_scenario upload_counts_once
           "2024-09-03T10:00:00" "3f2a9c" Scenario.fundus
           Scenario.one_patient _ _ (fun _ => false)
           HandlerExamples.upload_fundus_accepted).
Defined.

Lemma second_upload_accepted :
  Scenario.handle Scenario.upload_fundus_again Scenario.after_upload
  = (Reply (Uploaded Scenario.upload_message 2%nat "Processing") 201%nat,
     Scenario.after_second_upload).
Proof. reflexivity. Defined.

(** The second upload, a day after the first, heads the history. *)
Lemma newest_upload_heads_history_witness :
  map i_upload_time (images_collection Scenario.after_upload)
  = ["2024-09-03T10:00:00"] /\
  exists message id rec rest,
    Uploaded Scenario.upload_message 2%nat "Processing"
    = Uploaded message id "Processing" /\
    images_find_by_id id Scenario.after_second_upload = Some rec /\
    get_upload_history Scenario.after_second_upload
    = (inr (rec :: rest, 200%nat), Scenario.after_second_upload).
Proof.
  split; [reflexivity|].
  apply (in_scenario newest_upload_heads_history
           "2024-09-04T10:00:00" "77b1e0" Scenario.fundus
           Scenario.after_upload _ _ second_upload_accepted).
  intros r [<-|[]]. reflexivity.
Defined.

Lemma send_file_reads_disk w path content :
  Dict.get (disk w) path = Some content ->
  ScenarioMore.send_file path w = inr (SentFile content, 200%nat).
Proof. unfold ScenarioMore.send_file. now intros ->. Defined.

Lemma upload_dots_accepted :
  Scenario.handle Scenario.upload_dots Scenario.dots_patient
  = (Reply (Uploaded Scenario.upload_message 1%nat "Processing") 201%nat,
     snd (Scenario.handle Scenario.upload_dots Scenario.dots_patient)).
Proof. reflexivity. Defined.

(** Baby Doe's image is served; Baby Dots' image, whose name holds a
    slash, has no route. *)
Lemma uploaded_image_is_served_witness :
  ScenarioMore.image_route "N001_3f2a9c.jpg" Scenario.after_upload
  = (inr (SentFile Scenario.some_bytes, 200%nat), Scenario.after_upload) /\
  ScenarioMore.image_route "../X_3f2a9c.jpg"
    (snd (Scenario.handle Scenario.upload_dots Scenario.dots_patient))
  = (inr (NoRoute, 404%nat),
     snd (Scenario.handle Scenario.upload_dots Scenario.dots_patient)).
Proof.
  split.
  - destruct (in_scenario uploaded_image_is_served
                ScenarioMore.isdir ScenarioMore.send_file
                "2024-09-03T10:00:00" "3f2a9c" Scenario.fundus
                Scenario.one_patient _ _
                HandlerExamples.upload_fundus_accepted
                (send_file_reads_disk Scenario.after_upload))
      as (file & message & id & rec & Hf & Hb & Hfind & Hserved & _).
    cbn in Hf. injection Hf as <-. injection Hb as _ <-.
    vm_compute in Hfind. injection Hfind as <-.
    exact (Hserved eq_refl).
  - destruct (in_scenario uploaded_image_is_served
                ScenarioMore.isdir ScenarioMore.send_file
                "2024-09-03T11:00:00" "3f2a9c" Scenario.fundus_dots
                Scenario.dots_patient _ _ upload_dots_accepted
                (send_file_reads_disk _))
      as (file & message & id & rec & Hf & Hb & Hfind & _ & Hnone).
    injection Hb as _ <-.
    vm_compute in Hfind. injection Hfind as <-.
    exact (Hnone eq_refl).
Defined.

Lemma add_patient_bad_date_or_weight_witness :
  Scenario.handle (POST_patients "2024-09-06T08:00:00"
                                 ScenarioMore.unparsable_date)
                  Scenario.one_patient
  = (Reply (Message "Invalid date or number format provided.") 400%nat,
     Scenario.one_patient).
Proof.
  apply (in_scenario add_patient_bad_date_or_weight
           "2024-09-06T08:00:00" ScenarioMore.unparsable_date "n002"
           "last week" Scenario.one_patient).
  - reflexivity.
  - reflexivity.
  - reflexivity.
  - reflexivity.
  - left. reflexivity.
Defined.

(** An identifier that is a number, and a weight of 401 digits. *)
Lemma add_patient_type_errors_witness :
  (exists e,
      (e = AttributeError \/ e = TypeError \/ e = OverflowError) /\
      Scenario.handle (POST_patients "2024-09-06T08:00:00"
                                     ScenarioMore.numeric_id)
                      Scenario.one_patient
      = (InternalServerError e, Scenario.one_patient)) /\
  (exists e,
      (e = AttributeError \/ e = TypeError \/ e = OverflowError) /\
      Scenario.handle (POST_patients "2024-09-06T08:00:00"
                                     ScenarioMore.overweight)
                      Scenario.one_patient
      = (InternalServerError e, Scenario.one_patient)) /\
  Scenario.handle (POST_patients "2024-09-06T08:00:00"
                                 ScenarioMore.overweight)
                  Scenario.one_patient
  = (InternalServerError OverflowError, Scenario.one_patient).
Proof.
  split; [|split; [|reflexivity]].
  - apply (in_scenario add_patient_type_errors).
    + reflexivity.
    + left. intros nid. cbn. discriminate.
  - apply (in_scenario add_patient_type_errors).
    + reflexivity.
    + right. exists "n002". split; [reflexivity|]. split; [reflexivity|].
      right. split; [reflexivity|]. exists (10 ^ 400)%Z.
      split; [reflexivity|]. apply Z.leb_le. vm_compute. reflexivity.
Defined.

(** A visit for Baby Doe, and one whose type is 2^70. *)
Lemma schedule_appointment_created_witness :
  (exists a,
    Scenario.handle (POST_appointments "2024-09-05T08:00:00"
                                       (Scenario.visit "n001"))
                    Scenario.one_patient
    = (Reply (Created "Appointment scheduled successfully." (a__id a))
             201%nat,
       {| patients_collection := patients_collection Scenario.one_patient;
          appointments_collection :=
            (appointments_collection Scenario.one_patient ++ [a])%list;
          images_collection := images_collection Scenario.one_patient;
          disk := disk Scenario.one_patient;
          trace := (trace Scenario.one_patient
                      ++ [AppointmentInserted (a__id a)])%list |}) /\
    a_patientId a = "N001" /\
    a_patientName a = Str "Baby Doe" /\
    a_datetime a = "2024-09-17T09:00:00" /\
    a_type a = Str "Initial Screening" /\
    a_status a = "Scheduled" /\
    a_created_at a = "2024-09-05T08:00:00" /\
    ~ In (a__id a)
         (map a__id (appointments_collection Scenario.one_patient))) /\
  Scenario.handle (POST_appointments "2024-09-05T08:00:00"
                                     ScenarioMore.huge_type_visit)
                  Scenario.one_patient
  = (InternalServerError OverflowError, Scenario.one_patient).
Proof.
  split.
  - exact (proj1 (in_scenario schedule_appointment_created
           "2024-09-05T08:00:00" (Scenario.visit "n001") "n001"
           Scenario.doe_record "2024-09-17T09:00:00" "2024-09-17T09:00:00"
           "2024-09-17T09:00:00" (Str "Initial Screening")
           Scenario.one_patient
           eq_refl eq_refl eq_refl eq_refl eq_refl eq_refl eq_refl)
           eq_refl).
  - exact (proj2 (in_scenario schedule_appointment_created
           "2024-09-05T08:00:00" ScenarioMore.huge_type_visit "n001"
           Scenario.doe_record "2024-09-17T09:00:00" "2024-09-17T09:00:00"
           "2024-09-17T09:00:00" (Int (2 ^ 70))
           Scenario.one_patient
           eq_refl eq_refl eq_refl eq_refl eq_refl eq_refl eq_refl)
           OverflowError eq_refl).
Defined.

(** A date the parser rejects, and one whose [isoformat] raises. *)
Lemma schedule_appointment_bad_datetime_witness :
  Scenario.handle (POST_appointments "2024-09-05T08:00:00"
                                     ScenarioMore.vague_visit)
                  Scenario.one_patient
  = (Reply (Message "Invalid datetime format.") 400%nat,
     Scenario.one_patient) /\
  Scenario.handle (POST_appointments "2024-09-05T08:00:00"
                                     ScenarioMore.far_visit)
                  Scenario.one_patient
  = (InternalServerError ValueError, Scenario.one_patient).
Proof.
  split.
  - exact (proj1 (in_scenario schedule_appointment_bad_datetime
           "2024-09-05T08:00:00" ScenarioMore.vague_visit "n001"
           Scenario.doe_record (Str "next Tuesday") Scenario.one_patient
           eq_refl eq_refl eq_refl eq_refl) eq_refl).
  - exact (proj2 (in_scenario schedule_appointment_bad_datetime
           "2024-09-05T08:00:00" ScenarioMore.far_visit "n001"
           Scenario.doe_record (Str "2024-09-17T09:00:00+99:00")
           Scenario.one_patient
           eq_refl eq_refl eq_refl eq_refl)
           "2024-09-17T09:00:00+99:00" ValueError eq_refl eq_refl).
Defined.

Lemma serialize_doc_idempotent_witness :
  ScenarioMore.serialize_doc (Some ScenarioMore.raw_image_doc)
  = inr (Some ScenarioMore.serialized_image_doc) /\
  ScenarioMore.serialize_doc (Some ScenarioMore.serialized_image_doc)
  = inr (Some ScenarioMore.serialized_image_doc).
Proof.
  split; [reflexivity|].
  exact (serialize_doc_idempotent
           ScenarioMore.str_ObjectId ScenarioMore.str_value
           (Some ScenarioMore.raw_image_doc)
           (Some ScenarioMore.serialized_image_doc) eq_refl).
Defined.

Lemma image_schema_status_witness :
  exists doc,
    ScenarioMore.image_schema "2024-09-03T10:00:00" [] ScenarioMore.hex24
      (Some (models.result_dict ai_service.model_error)) = inr doc /\
    models.status doc = "Processing".
Proof.
  exact (proj1 (proj2
    (image_schema_status ScenarioMore.ObjectId_of
       "2024-09-03T10:00:00" [] ScenarioMore.hex24 1%nat eq_refl))
    ai_service.model_error (or_introl eq_refl)).
Defined.

Lemma serialize_doc_effect_witness :
  exists d',
    ScenarioMore.serialize_doc (Some ScenarioMore.raw_image_doc)
    = inr (Some d') /\
    Dict.get d' "_id" = Some (models.BValue (Str "5")) /\
    Dict.get d' "patient_id" = Some (models.BValue (Str "7")) /\
    Dict.get d' "filename" = Some (models.BValue (Str "eye.jpg")).
Proof.
  destruct (serialize_doc_effect ScenarioMore.str_ObjectId
                                 ScenarioMore.str_value)
    as (_ & _ & _ & H).
  destruct (H ScenarioMore.raw_image_doc (models.BObjectId 5%nat))
    as (d' & E & Hid & Hp & _ & Hk);
    [discriminate | reflexivity |].
  exists d'. split; [exact E|]. split; [exact Hid|].
  split; [exact (Hp 7%nat eq_refl)|].
  rewrite Hk; [reflexivity | discriminate | discriminate].
Defined.

Lemma patient_schema_birth_date_witness :
  (exists doc,
      models.patient_schema ScenarioMore.strptime "2024-09-03T10:00:00"
        [("neonateId", Str "N001"); ("birthDate", Str "2024-09-01")]
      = inr doc /\
      models.birth_date doc = Some "2024-09-01" /\
      models.neonate_id doc = Str "N001") /\
  models.patient_schema ScenarioMore.strptime "2024-09-03T10:00:00"
    [("neonateId", Str "N001"); ("birthDate", Str "last week")]
  = inl ValueError.
Proof.
  split.
  - exact (proj2 (patient_schema_birth_date ScenarioMore.strptime
                    "2024-09-03T10:00:00"
                    [("neonateId", Str "N001");
                     ("birthDate", Str "2024-09-01")])
                 "2024-09-01" eq_refl
                 (fun E : "2024-09-01" = "" =>
                    eq_ind "2024-09-01"
                      (fun s => match s with
                                | EmptyString => False
                                | String _ _ => True
                                end) I "" E)).
  - reflexivity.
Defined.

Lemma appointment_schema_edges_witness :
  models.appointment_schema ScenarioMore.ObjectId_of ScenarioMore.strptime
    "2024-09-03T10:00:00" [("type", Null)] "n001"
  = inl ValueError /\
  exists doc,
    models.appointment_schema ScenarioMore.ObjectId_of ScenarioMore.strptime
      "2024-09-03T10:00:00" [("type", Null)] ScenarioMore.hex24
    = inr doc /\
    models.type doc = Null /\
    models.datetime doc = None.
Proof.
  split.
  - exact (proj1 (appointment_schema_edges
                    ScenarioMore.ObjectId_of ScenarioMore.strptime
                    "2024-09-03T10:00:00" [("type", Null)] "n001")
                 ValueError eq_refl).
  - eexists. split; [reflexivity|]. split; reflexivity.
Defined.

End MoreExamples.

